(** * The Jese DMX-TRI widget and the DMX buffer of OLA

    A shallow embedding of [plugins/usbpro/DmxTriWidget.cpp] (the RDM
    discovery and dispatch engine of the DMX-TRI widget) and of the
    behaviour of [ola::DmxBuffer] that [DmxBufferTest.cpp] exercises,
    followed by the properties of both that the specification states.

    Conventions.
    - [uint8_t] and [uint16_t] values are numbers of type [N]; where the
      C++ wraps or truncates, the wrap is written out.
    - A [const uint8_t *data] with its [length] is a [list N]; reading
      [data[i]] is [read data i], which is undefined past the end.
    - A pointer that the code tests against [NULL] is an [option].
    - Every call on a collaborator (the USB widget, the select server, the
      two callbacks) is recorded, in order, in the field [io] of the widget.
    - A C++ execution with undefined behaviour is the outcome [Undefined]. *)

From Stdlib Require Import Ascii String.
From stdpp Require Import gmap list strings.

(** ** Outcomes of a member function *)

Inductive Fault :=
  | EmptyQueueFront   (* [front()] or [pop()] of an empty [std::queue] *)
  | NullCallback      (* [->Run()] through a NULL callback pointer *)
  | ReadPastEnd       (* [data[i]] with [i] not below the length *)
  | BufferOverflow.   (* [memcpy] of more bytes than the destination holds *)

Inductive Outcome (A : Type) :=
  | Done (a : A)
  | Undefined (f : Fault).
Arguments Done {A} a.
Arguments Undefined {A} f.

Global Instance Outcome_ret : MRet Outcome := λ A a, Done a.
Global Instance Outcome_bind : MBind Outcome := λ A B k m,
  match m with
  | Done a => k a
  | Undefined f => Undefined f
  end.

Definition defined {A} (m : Outcome A) : Prop := ∃ a, m = Done a.

(** [data[i]] on a buffer of [length data] bytes. *)
Definition read (data : list N) (i : nat) : Outcome N :=
  match data !! i with
  | Some b => Done b
  | None => Undefined ReadPastEnd
  end.

(** ** Declarations the widget includes

    The enumerators of [DmxTriWidget.h], [UsbWidget.h], [RDMEnums.h] and
    [UID.h] are used by name in the source; their numeric values are not
    part of it, so they are parameters of the development. *)

Class TriCodes := {
  EXTENDED_COMMAND_LABEL : N;
  RDM_STATUS_INTERVAL_MS : N;
  (* dmx_tri_command_ids *)
  DISCOVER_AUTO_COMMAND_ID : N;
  DISCOVER_STATUS_COMMAND_ID : N;
  REMOTE_UID_COMMAND_ID : N;
  REMOTE_GET_COMMAND_ID : N;
  REMOTE_SET_COMMAND_ID : N;
  QUEUED_GET_COMMAND_ID : N;
  SET_FILTER_COMMAND_ID : N;
  (* dmx_tri_error_codes *)
  EC_NO_ERROR : N;
  EC_CONSTRAINT : N;
  EC_RESPONSE_WAIT : N;
  EC_RESPONSE_MORE : N;
  EC_RESPONSE_MUTE : N;
  EC_RESPONSE_DISCOVERY : N;
  EC_RESPONSE_UNEXPECTED : N;
  EC_UNKNOWN_PID : N;
  EC_FORMAT_ERROR : N;
  EC_HARDWARE_FAULT : N;
  EC_PROXY_REJECT : N;
  EC_WRITE_PROTECT : N;
  EC_UNSUPPORTED_COMMAND_CLASS : N;
  EC_OUT_OF_RANGE : N;
  EC_BUFFER_FULL : N;
  EC_FRAME_OVERFLOW : N;
  EC_SUBDEVICE_UNKNOWN : N;
  (* ola::rdm *)
  PID_QUEUED_MESSAGE : N;
  ALL_MANUFACTURERS : N;
}.

(** Modelled from the spec: [DATA_OFFSET] of [DmxTriWidget.h], the size of
    the fixed header of an extended-command frame, which section 4.2 gives
    as 2 bytes (command id, return code). *)
Definition DATA_OFFSET : nat := 2.

(** The case labels of the three [switch] statements of the source. C++
    rejects a [switch] with two equal labels, so each list is duplicate
    free in every build of the widget. *)
Definition command_ids `{TriCodes} : list N :=
  [ DISCOVER_AUTO_COMMAND_ID; DISCOVER_STATUS_COMMAND_ID;
    REMOTE_UID_COMMAND_ID; REMOTE_GET_COMMAND_ID; REMOTE_SET_COMMAND_ID;
    QUEUED_GET_COMMAND_ID; SET_FILTER_COMMAND_ID ].

Definition discovery_codes `{TriCodes} : list N :=
  [ EC_NO_ERROR; EC_RESPONSE_MUTE; EC_RESPONSE_DISCOVERY;
    EC_RESPONSE_UNEXPECTED ].

Definition nack_codes `{TriCodes} : list N :=
  [ EC_UNKNOWN_PID; EC_FORMAT_ERROR; EC_HARDWARE_FAULT; EC_PROXY_REJECT;
    EC_WRITE_PROTECT; EC_UNSUPPORTED_COMMAND_CLASS; EC_OUT_OF_RANGE;
    EC_BUFFER_FULL; EC_FRAME_OVERFLOW; EC_SUBDEVICE_UNKNOWN ].

(** Modelled from the spec: [RDMCommand::RDMCommandClass] of
    [ola/rdm/RDMCommand.h], of which the widget tells GET and SET from the
    rest. *)
Inductive RDMCommandClass :=
  | GET_COMMAND
  | SET_COMMAND
  | OTHER_COMMAND (code : N).

Global Instance RDMCommandClass_eq_dec : EqDecision RDMCommandClass.
Proof. solve_decision. Defined.

(** Modelled from the spec: [ola::rdm::rdm_nack_reason] of
    [ola/rdm/RDMEnums.h], the reasons of the table of section 6, which are
    the enumerators the widget names. *)
Inductive rdm_nack_reason :=
  | NR_UNKNOWN_PID
  | NR_FORMAT_ERROR
  | NR_HARDWARE_FAULT
  | NR_PROXY_REJECT
  | NR_WRITE_PROTECT
  | NR_UNSUPPORTED_COMMAND_CLASS
  | NR_DATA_OUT_OF_RANGE
  | NR_BUFFER_FULL
  | NR_PACKET_SIZE_UNSUPPORTED
  | NR_SUB_DEVICE_OUT_OF_RANGE.

Global Instance rdm_nack_reason_eq_dec : EqDecision rdm_nack_reason.
Proof. solve_decision. Defined.

(** Modelled from the spec: [ola::rdm::RDMRequest] of
    [ola/rdm/RDMCommand.h], with the accessors the widget calls; they are
    the fields of the request frame of section 6. *)
Record RDMRequest (UID : Type) := {
  DestinationUID : UID;
  SubDevice : N;
  CommandClass : RDMCommandClass;
  ParamId : N;
  ParamData : list N;
}.
Arguments DestinationUID {UID} _.
Arguments SubDevice {UID} _.
Arguments CommandClass {UID} _.
Arguments ParamId {UID} _.
Arguments ParamData {UID} _.

Definition ParamDataSize {UID} (request : RDMRequest UID) : nat :=
  length (ParamData request).

(** The first [6 + ParamDataSize] bytes of a packed [rdm_message] whose
    [data] holds the parameter data of [request]: [sub_device] and
    [param_id] are in network byte order. *)
Abbreviation request_bytes command index request :=
  ([ command; index;
     N.modulo (N.shiftr (SubDevice request) 8) 256;
     N.land (SubDevice request) 255;
     N.modulo (N.shiftr (ParamId request) 8) 256;
     N.land (ParamId request) 255 ]
   ++ ParamData request) (only parsing).

(** The functions of the RDM library that the widget calls, parameters of
    the development as the library is not part of the source. The three
    that build a response return a pointer, and the widget tests the
    reassembled response against NULL before it uses it: hence an
    [option]. [CombineResponses] is handed the pointer that
    [GetResponseWithData] returned. [MAX_PARAM_DATA_LENGTH] is
    [RDMCommand::MAX_PARAM_DATA_LENGTH], the number of bytes of the
    parameter data array of a frame. *)
Class RDMLibrary (UID RDMResponse : Type) := {
  UID_SIZE : nat;
  MAX_PARAM_DATA_LENGTH : nat;
  UID_of_data : list N → UID;
  IsBroadcast : UID → bool;
  ManufacturerId : UID → N;
  GetResponseWithData :
    RDMRequest UID → list N → N → option RDMResponse;
  CombineResponses :
    RDMResponse → option RDMResponse → option RDMResponse;
  NackWithReason :
    RDMRequest UID → rdm_nack_reason → option RDMResponse;
}.

(** [ola::network::timeout_id]; [INVALID_TIMEOUT] is the null handle. *)
Abbreviation timeout_id := (option N) (only parsing).
Abbreviation INVALID_TIMEOUT := (@None N) (only parsing).

(** ** The widget *)

Section DmxTriWidget.
Context `{Countable UID} {RDMResponse : Type}.
Context {codes : TriCodes} {rdm : RDMLibrary UID RDMResponse}.

(** Calls on the collaborators, as the widget makes them. *)
Inductive Event :=
  | SendMessage (label : N) (data : list N)
  | RegisterRepeatingTimeout (interval_ms : N)
  | RemoveTimeout (id : N)
  | RunUIDSetCallback (uid_set : gset UID)
  | RunRDMResponseCallback (response : option RDMResponse).

(** The members of [DmxTriWidget]. A callback member holds [true] when a
    callback is registered and [false] when it is NULL. *)
Record Widget := {
  m_rdm_timeout_id : timeout_id;
  m_uid_count : N;
  m_rdm_request_pending : bool;
  m_last_esta_id : N;
  m_rdm_response : option RDMResponse;
  m_uid_set_callback : bool;
  m_rdm_response_callback : bool;
  m_pending_requests : list (RDMRequest UID);
  m_uid_index_map : gmap UID N;
  io : list Event;
}.

(** The constructor. *)
Definition DmxTriWidget_new : Widget :=
  {| m_rdm_timeout_id := INVALID_TIMEOUT;
     m_uid_count := 0;
     m_rdm_request_pending := false;
     m_last_esta_id := ALL_MANUFACTURERS;
     m_rdm_response := None;
     m_uid_set_callback := false;
     m_rdm_response_callback := false;
     m_pending_requests := [];
     m_uid_index_map := ∅;
     io := [] |}.

(** Assignments to one member. *)
Definition set_rdm_timeout_id (v : timeout_id) (w : Widget) : Widget :=
  {| m_rdm_timeout_id := v;
     m_uid_count := m_uid_count w;
     m_rdm_request_pending := m_rdm_request_pending w;
     m_last_esta_id := m_last_esta_id w;
     m_rdm_response := m_rdm_response w;
     m_uid_set_callback := m_uid_set_callback w;
     m_rdm_response_callback := m_rdm_response_callback w;
     m_pending_requests := m_pending_requests w;
     m_uid_index_map := m_uid_index_map w;
     io := io w |}.

Definition set_uid_count (v : N) (w : Widget) : Widget :=
  {| m_rdm_timeout_id := m_rdm_timeout_id w;
     m_uid_count := v;
     m_rdm_request_pending := m_rdm_request_pending w;
     m_last_esta_id := m_last_esta_id w;
     m_rdm_response := m_rdm_response w;
     m_uid_set_callback := m_uid_set_callback w;
     m_rdm_response_callback := m_rdm_response_callback w;
     m_pending_requests := m_pending_requests w;
     m_uid_index_map := m_uid_index_map w;
     io := io w |}.

Definition set_rdm_request_pending (v : bool) (w : Widget) : Widget :=
  {| m_rdm_timeout_id := m_rdm_timeout_id w;
     m_uid_count := m_uid_count w;
     m_rdm_request_pending := v;
     m_last_esta_id := m_last_esta_id w;
     m_rdm_response := m_rdm_response w;
     m_uid_set_callback := m_uid_set_callback w;
     m_rdm_response_callback := m_rdm_response_callback w;
     m_pending_requests := m_pending_requests w;
     m_uid_index_map := m_uid_index_map w;
     io := io w |}.

Definition set_last_esta_id (v : N) (w : Widget) : Widget :=
  {| m_rdm_timeout_id := m_rdm_timeout_id w;
     m_uid_count := m_uid_count w;
     m_rdm_request_pending := m_rdm_request_pending w;
     m_last_esta_id := v;
     m_rdm_response := m_rdm_response w;
     m_uid_set_callback := m_uid_set_callback w;
     m_rdm_response_callback := m_rdm_response_callback w;
     m_pending_requests := m_pending_requests w;
     m_uid_index_map := m_uid_index_map w;
     io := io w |}.

Definition set_rdm_response (v : option RDMResponse) (w : Widget)
  : Widget :=
  {| m_rdm_timeout_id := m_rdm_timeout_id w;
     m_uid_count := m_uid_count w;
     m_rdm_request_pending := m_rdm_request_pending w;
     m_last_esta_id := m_last_esta_id w;
     m_rdm_response := v;
     m_uid_set_callback := m_uid_set_callback w;
     m_rdm_response_callback := m_rdm_response_callback w;
     m_pending_requests := m_pending_requests w;
     m_uid_index_map := m_uid_index_map w;
     io := io w |}.

Definition set_pending_requests (v : list (RDMRequest UID)) (w : Widget)
  : Widget :=
  {| m_rdm_timeout_id := m_rdm_timeout_id w;
     m_uid_count := m_uid_count w;
     m_rdm_request_pending := m_rdm_request_pending w;
     m_last_esta_id := m_last_esta_id w;
     m_rdm_response := m_rdm_response w;
     m_uid_set_callback := m_uid_set_callback w;
     m_rdm_response_callback := m_rdm_response_callback w;
     m_pending_requests := v;
     m_uid_index_map := m_uid_index_map w;
     io := io w |}.

Definition set_uid_index_map (v : gmap UID N) (w : Widget) : Widget :=
  {| m_rdm_timeout_id := m_rdm_timeout_id w;
     m_uid_count := m_uid_count w;
     m_rdm_request_pending := m_rdm_request_pending w;
     m_last_esta_id := m_last_esta_id w;
     m_rdm_response := m_rdm_response w;
     m_uid_set_callback := m_uid_set_callback w;
     m_rdm_response_callback := m_rdm_response_callback w;
     m_pending_requests := m_pending_requests w;
     m_uid_index_map := v;
     io := io w |}.

(** One more call on a collaborator. *)
Definition emit (e : Event) (w : Widget) : Widget :=
  {| m_rdm_timeout_id := m_rdm_timeout_id w;
     m_uid_count := m_uid_count w;
     m_rdm_request_pending := m_rdm_request_pending w;
     m_last_esta_id := m_last_esta_id w;
     m_rdm_response := m_rdm_response w;
     m_uid_set_callback := m_uid_set_callback w;
     m_rdm_response_callback := m_rdm_response_callback w;
     m_pending_requests := m_pending_requests w;
     m_uid_index_map := m_uid_index_map w;
     io := io w ++ [e] |}.

(** [SetUIDListCallback] and [SetRDMResponseCallback]; the argument says
    whether the new callback pointer is non-NULL. *)
Definition SetUIDListCallback (callback : bool) (w : Widget) : Widget :=
  {| m_rdm_timeout_id := m_rdm_timeout_id w;
     m_uid_count := m_uid_count w;
     m_rdm_request_pending := m_rdm_request_pending w;
     m_last_esta_id := m_last_esta_id w;
     m_rdm_response := m_rdm_response w;
     m_uid_set_callback := callback;
     m_rdm_response_callback := m_rdm_response_callback w;
     m_pending_requests := m_pending_requests w;
     m_uid_index_map := m_uid_index_map w;
     io := io w |}.

Definition SetRDMResponseCallback (callback : bool) (w : Widget)
  : Widget :=
  {| m_rdm_timeout_id := m_rdm_timeout_id w;
     m_uid_count := m_uid_count w;
     m_rdm_request_pending := m_rdm_request_pending w;
     m_last_esta_id := m_last_esta_id w;
     m_rdm_response := m_rdm_response w;
     m_uid_set_callback := m_uid_set_callback w;
     m_rdm_response_callback := callback;
     m_pending_requests := m_pending_requests w;
     m_uid_index_map := m_uid_index_map w;
     io := io w |}.

(** [m_pending_requests.front()]. *)
Definition front (w : Widget) : Outcome (RDMRequest UID) :=
  match m_pending_requests w with
  | request :: _ => Done request
  | [] => Undefined EmptyQueueFront
  end.

(** [m_pending_requests.pop()]. *)
Definition pop (w : Widget) : Outcome Widget :=
  match m_pending_requests w with
  | _ :: rest => Done (set_pending_requests rest w)
  | [] => Undefined EmptyQueueFront
  end.

(** [Stop] and [StopDiscovery] have the same body. *)
Definition StopDiscovery (w : Widget) : Widget :=
  match m_rdm_timeout_id w with
  | Some id => set_rdm_timeout_id INVALID_TIMEOUT (emit (RemoveTimeout id) w)
  | None => w
  end.

Definition Stop (w : Widget) : Widget := StopDiscovery w.

Definition InDiscoveryMode (w : Widget) : bool :=
  bool_decide (m_rdm_timeout_id w ≠ INVALID_TIMEOUT)
  || bool_decide (m_uid_count w ≠ 0%N).

(** The senders. [SendMessage] returns what the USB widget reports; only
    [RunRDMDiscovery] looks at it, and gets it as [sent_ok]. *)
Definition SendDiscoveryStart (w : Widget) : Widget :=
  emit (SendMessage EXTENDED_COMMAND_LABEL [DISCOVER_AUTO_COMMAND_ID]) w.

Definition SendDiscoveryStat (w : Widget) : Widget :=
  emit (SendMessage EXTENDED_COMMAND_LABEL [DISCOVER_STATUS_COMMAND_ID]) w.

Definition CheckDiscoveryStatus (w : Widget) : Widget :=
  SendDiscoveryStat w.

Definition FetchNextUID (w : Widget) : Widget :=
  if decide (m_uid_count w = 0%N) then w
  else emit (SendMessage EXTENDED_COMMAND_LABEL
               [REMOTE_UID_COMMAND_ID; m_uid_count w]) w.

Definition SendSetFilter (esta_id : N) (w : Widget) : Widget :=
  emit (SendMessage EXTENDED_COMMAND_LABEL
          [SET_FILTER_COMMAND_ID;
           (N.shiftr esta_id 8 mod 256)%N;
           N.land esta_id 255]) w.

(** [RunRDMDiscovery]; [timeout] is the handle the select server returns
    from [RegisterRepeatingTimeout]. *)
Definition RunRDMDiscovery (sent_ok : bool) (timeout : timeout_id)
    (w : Widget) : Widget :=
  if InDiscoveryMode w then w
  else
    let w := SendDiscoveryStart w in
    if sent_ok then
      set_rdm_timeout_id timeout
        (emit (RegisterRepeatingTimeout RDM_STATUS_INTERVAL_MS) w)
    else w.

Definition SendUIDUpdate (w : Widget) : Widget :=
  if m_uid_set_callback w
  then emit (RunUIDSetCallback (dom (m_uid_index_map w))) w
  else w.

(** [DispatchQueuedGet]. *)
Definition DispatchQueuedGet (request : RDMRequest UID) (w : Widget)
  : Outcome Widget :=
  match m_uid_index_map w !! DestinationUID request with
  | None => Done w
  | Some index =>
      b ← read (ParamData request) 0;
      Done (emit (SendMessage EXTENDED_COMMAND_LABEL
                    [QUEUED_GET_COMMAND_ID; index; b]) w)
  end.

(** The packed [rdm_message] as [DispatchNextRequest] fills it in, as the
    bytes that go on the wire. [data] is an array of
    [MAX_PARAM_DATA_LENGTH] bytes and the [memcpy] into it copies
    [ParamDataSize] bytes without a test: with more parameter data than
    the array holds it writes past the end of the struct. *)
Definition rdm_message (command index : N) (request : RDMRequest UID)
  : Outcome (list N) :=
  if decide (MAX_PARAM_DATA_LENGTH < ParamDataSize request)
  then Undefined BufferOverflow
  else Done (request_bytes command index request).

(** [DispatchNextRequest]. A queued-message GET goes to
    [DispatchQueuedGet]; a request that is neither a GET nor a SET, or
    whose destination is neither broadcast nor in the UID map, is logged
    and nothing is sent. *)
Definition DispatchNextRequest (w : Widget) : Outcome Widget :=
  request ← front w;
  if decide (ParamId request = PID_QUEUED_MESSAGE
             ∧ CommandClass request = GET_COMMAND) then
    if decide (ParamDataSize request ≠ 0)
    then DispatchQueuedGet request w
    else Done w
  else
    let command :=
      match CommandClass request with
      | GET_COMMAND => Some REMOTE_GET_COMMAND_ID
      | SET_COMMAND => Some REMOTE_SET_COMMAND_ID
      | OTHER_COMMAND _ => None
      end in
    match command with
    | None => Done w
    | Some command =>
        let index :=
          if IsBroadcast (DestinationUID request) then Some 0%N
          else m_uid_index_map w !! DestinationUID request in
        match index with
        | None => Done w
        | Some index =>
            message ← rdm_message command index request;
            Done (emit (SendMessage EXTENDED_COMMAND_LABEL message) w)
        end
    end.

(** [MaybeSendRDMRequest]. *)
Definition MaybeSendRDMRequest (w : Widget) : Outcome Widget :=
  if InDiscoveryMode w
     || bool_decide (m_pending_requests w = [])
     || m_rdm_request_pending w
  then Done w
  else
    let w := set_rdm_request_pending true w in
    request ← front w;
    if IsBroadcast (DestinationUID request)
       && bool_decide
            (ManufacturerId (DestinationUID request) ≠ m_last_esta_id w)
    then Done (SendSetFilter (ManufacturerId (DestinationUID request)) w)
    else DispatchNextRequest w.

(** [HandleRDMRequest]; the result carries the value returned. *)
Definition HandleRDMRequest (request : RDMRequest UID) (w : Widget)
  : Outcome (bool * Widget) :=
  let dest_uid := DestinationUID request in
  if negb (IsBroadcast dest_uid)
     && negb (InDiscoveryMode w)
     && bool_decide (m_uid_index_map w !! dest_uid = None)
  then Done (false, w)
  else
    w ← MaybeSendRDMRequest
          (set_pending_requests (m_pending_requests w ++ [request]) w);
    Done (true, w).

(** [HandleDiscoveryAutoResponse]. *)
Definition HandleDiscoveryAutoResponse (return_code : N) (data : list N)
    (w : Widget) : Widget :=
  if decide (return_code ≠ EC_NO_ERROR) then StopDiscovery w else w.

(** What the [switch] of [HandleDiscoverStatResponse] decides: [true] when
    control leaves it through [break], [false] when the case stops the
    discovery and returns. *)
Definition discovery_continues (return_code : N) : bool :=
  if decide (return_code = EC_NO_ERROR) then true
  else if decide (return_code = EC_RESPONSE_MUTE) then false
  else if decide (return_code = EC_RESPONSE_DISCOVERY) then false
  else if decide (return_code = EC_RESPONSE_UNEXPECTED) then true
  else false.

(** [HandleDiscoverStatResponse]. The guard is [length < 1]; the flag is
    read from [data[1]]. *)
Definition HandleDiscoverStatResponse (return_code : N) (data : list N)
    (w : Widget) : Outcome Widget :=
  if discovery_continues return_code then
    if decide (length data < 1) then Done w
    else
      not_done ← read data 1;
      if decide (not_done = 0%N) then
        count ← read data 0;
        let w := StopDiscovery w in
        let w := set_uid_count count w in
        let w := set_uid_index_map ∅ w in
        Done (if decide (m_uid_count w ≠ 0%N) then FetchNextUID w else w)
      else Done w
  else Done (StopDiscovery w).

(** [HandleRemoteUIDResponse]. The two branches for a return code other
    than [EC_NO_ERROR] only log. *)
Definition HandleRemoteUIDResponse (return_code : N) (data : list N)
    (w : Widget) : Outcome Widget :=
  if decide (m_uid_count w = 0%N) then Done w
  else
    let w :=
      if decide (return_code = EC_NO_ERROR) then
        if decide (length data < UID_SIZE) then w
        else
          let uid := UID_of_data (take UID_SIZE data) in
          set_uid_index_map (<[uid := m_uid_count w]> (m_uid_index_map w)) w
      else w in
    let w := set_uid_count ((m_uid_count w + 255) mod 256)%N w in
    if decide (m_uid_count w ≠ 0%N) then Done (FetchNextUID w)
    else MaybeSendRDMRequest (SendUIDUpdate w).

(** The [switch] of the NACK branch; [reason] starts as [NR_UNKNOWN_PID]
    and keeps that value when no case matches. *)
Definition nack_reason (return_code : N) : rdm_nack_reason :=
  if decide (return_code = EC_UNKNOWN_PID) then NR_UNKNOWN_PID
  else if decide (return_code = EC_FORMAT_ERROR) then NR_FORMAT_ERROR
  else if decide (return_code = EC_HARDWARE_FAULT) then NR_HARDWARE_FAULT
  else if decide (return_code = EC_PROXY_REJECT) then NR_PROXY_REJECT
  else if decide (return_code = EC_WRITE_PROTECT) then NR_WRITE_PROTECT
  else if decide (return_code = EC_UNSUPPORTED_COMMAND_CLASS)
       then NR_UNSUPPORTED_COMMAND_CLASS
  else if decide (return_code = EC_OUT_OF_RANGE) then NR_DATA_OUT_OF_RANGE
  else if decide (return_code = EC_BUFFER_FULL) then NR_BUFFER_FULL
  else if decide (return_code = EC_FRAME_OVERFLOW)
       then NR_PACKET_SIZE_UNSUPPORTED
  else if decide (return_code = EC_SUBDEVICE_UNKNOWN)
       then NR_SUB_DEVICE_OUT_OF_RANGE
  else NR_UNKNOWN_PID.

(** The last four statements of [HandleRemoteRDMResponse]: the head
    request is deleted and popped, the flag cleared, dispatch advanced. *)
Definition retire (w : Widget) : Outcome Widget :=
  w ← pop w;
  MaybeSendRDMRequest (set_rdm_request_pending false w).

(** [HandleRemoteRDMResponse]. *)
Definition HandleRemoteRDMResponse (return_code : N) (data : list N)
    (w : Widget) : Outcome Widget :=
  request ← front w;
  if decide (return_code = EC_NO_ERROR
             ∨ return_code = EC_RESPONSE_WAIT
             ∨ return_code = EC_RESPONSE_MORE) then
    let response :=
      GetResponseWithData request data
        (if decide (return_code = EC_RESPONSE_WAIT) then 1 else 0)%N in
    let w :=
      match m_rdm_response w with
      | Some previous =>
          set_rdm_response (CombineResponses previous response) w
      | None => set_rdm_response response w
      end in
    match m_rdm_response w with
    | Some combined =>
        if decide (return_code = EC_RESPONSE_MORE) then
          DispatchNextRequest w
        else
          let w :=
            if m_rdm_response_callback w
            then emit (RunRDMResponseCallback (Some combined)) w
            else w in
          retire (set_rdm_response None w)
    | None => retire w
    end
  else if decide (EC_UNKNOWN_PID ≤ return_code
                  ∧ return_code ≤ EC_SUBDEVICE_UNKNOWN)%N then
    let w := set_rdm_response None w in
    let response := NackWithReason request (nack_reason return_code) in
    if m_rdm_response_callback w then
      retire (emit (RunRDMResponseCallback response) w)
    else Undefined NullCallback
  else
    retire (set_rdm_response None w).

(** [HandleQueuedGetResponse] only logs. *)
Definition HandleQueuedGetResponse (return_code : N) (data : list N)
    (w : Widget) : Widget := w.

(** [HandleSetFilterResponse]. *)
Definition HandleSetFilterResponse (return_code : N) (data : list N)
    (w : Widget) : Outcome Widget :=
  if decide (return_code = EC_NO_ERROR) then
    request ← front w;
    DispatchNextRequest
      (set_last_esta_id (ManufacturerId (DestinationUID request)) w)
  else
    _ ← front w;
    w ← pop w;
    MaybeSendRDMRequest (set_rdm_request_pending false w).

(** [HandleMessage]: the frame decoder and the [switch] on the command
    id. *)
Definition HandleMessage (label : N) (data : list N) (w : Widget)
    : Outcome Widget :=
  if decide (label = EXTENDED_COMMAND_LABEL) then
    if decide (length data < DATA_OFFSET) then Done w
    else
      command_id ← read data 0;
      return_code ← read data 1;
      let data := drop DATA_OFFSET data in
      if decide (command_id = DISCOVER_AUTO_COMMAND_ID) then
        Done (HandleDiscoveryAutoResponse return_code data w)
      else if decide (command_id = DISCOVER_STATUS_COMMAND_ID) then
        HandleDiscoverStatResponse return_code data w
      else if decide (command_id = REMOTE_UID_COMMAND_ID) then
        HandleRemoteUIDResponse return_code data w
      else if decide (command_id = REMOTE_GET_COMMAND_ID) then
        HandleRemoteRDMResponse return_code data w
      else if decide (command_id = REMOTE_SET_COMMAND_ID) then
        HandleRemoteRDMResponse return_code data w
      else if decide (command_id = QUEUED_GET_COMMAND_ID) then
        Done (HandleQueuedGetResponse return_code data w)
      else if decide (command_id = SET_FILTER_COMMAND_ID) then
        HandleSetFilterResponse return_code data w
      else Done w
  else Done w.

(** ** Runs of the engine

    What the rest of the daemon and the reactor can do to a widget. *)
Inductive Op :=
  | OpSetUIDListCallback (callback : bool)
  | OpSetRDMResponseCallback (callback : bool)
  | OpStop
  | OpHandleRDMRequest (request : RDMRequest UID)
  | OpRunRDMDiscovery (sent_ok : bool) (timeout : timeout_id)
  | OpCheckDiscoveryStatus
  | OpHandleMessage (label : N) (data : list N).

Definition step (op : Op) (w : Widget) : Outcome Widget :=
  match op with
  | OpSetUIDListCallback callback => Done (SetUIDListCallback callback w)
  | OpSetRDMResponseCallback callback =>
      Done (SetRDMResponseCallback callback w)
  | OpStop => Done (Stop w)
  | OpHandleRDMRequest request =>
      r ← HandleRDMRequest request w; Done (snd r)
  | OpRunRDMDiscovery sent_ok timeout =>
      Done (RunRDMDiscovery sent_ok timeout w)
  | OpCheckDiscoveryStatus => Done (CheckDiscoveryStatus w)
  | OpHandleMessage label data => HandleMessage label data w
  end.

Fixpoint run (ops : list Op) (w : Widget) : Outcome Widget :=
  match ops with
  | [] => Done w
  | op :: ops => w ← step op w; run ops w
  end.

End DmxTriWidget.

Arguments Event UID {_ _} RDMResponse.
Arguments Widget UID {_ _} RDMResponse.
Arguments Op : clear implicits.

(** ** The DMX buffer

    [ola/DmxBuffer.cpp] is not among the sources; its unit test
    [DmxBufferTest.cpp] is. The operations below follow section 4.1 of the
    specification, and the two test functions that concern range writes
    and string parsing are transcribed from the test, assertion by
    assertion. *)

(** Modelled from the spec: [DMX_UNIVERSE_SIZE] of [ola/BaseTypes.h], the
    capacity of 512 slots of section 3. *)
Definition DMX_UNIVERSE_SIZE : nat := 512.

(** Modelled from the spec: the [ChannelBuffer] of section 3, a valid
    prefix of [valid_length] bytes of [buffer_data]. [buffer_data] is
    [None] for a buffer that has never held any data, the case that
    section 4.1 singles out for [SetRange]. *)
Record DmxBuffer := {
  buffer_data : option (list N);
  valid_length : nat;
}.

(** Modelled from the spec: a buffer is created empty. *)
Definition DmxBuffer_new : DmxBuffer :=
  {| buffer_data := None; valid_length := 0 |}.

(** Modelled from the spec: the capacity-sized backing storage, zero
    where nothing was written. *)
Definition storage (b : DmxBuffer) : list N :=
  default (replicate DMX_UNIVERSE_SIZE 0%N) (buffer_data b).

(** Modelled from the spec: [Size()] is the valid length. *)
Definition Size (b : DmxBuffer) : nat := valid_length b.

(** Modelled from the spec: [Get()] returns exactly the valid prefix. *)
Definition Get (b : DmxBuffer) : list N := take (valid_length b) (storage b).

(** Modelled from the spec: [GetRaw()], the backing storage, which the
    test reads up to the valid length and, after a range write, up to the
    bytes written. *)
Definition GetRaw (b : DmxBuffer) : list N := storage b.

(** Modelled from the spec: [Blackout()] sets the valid length to the
    capacity and all bytes to 0. *)
Definition Blackout (b : DmxBuffer) : bool * DmxBuffer :=
  (true, {| buffer_data := Some (replicate DMX_UNIVERSE_SIZE 0%N);
            valid_length := DMX_UNIVERSE_SIZE |}).

(** Modelled from the spec: [Reset()] sets the valid length to 0 and does
    not erase storage. *)
Definition Reset (b : DmxBuffer) : DmxBuffer :=
  {| buffer_data := buffer_data b; valid_length := 0 |}.

(** Modelled from the spec: the copy of [bytes] over [store] from
    [offset] on. *)
Definition overwrite (offset : nat) (bytes store : list N) : list N :=
  take offset store ++ bytes ++ drop (offset + length bytes) store.

(** Modelled from the spec: [Set(bytes)] fails without mutation when the
    source is absent, and otherwise replaces the valid prefix with at most
    [capacity] bytes. *)
Definition Set_ (bytes : option (list N)) (b : DmxBuffer)
    : bool * DmxBuffer :=
  match bytes with
  | None => (false, b)
  | Some bytes =>
      let copied := take DMX_UNIVERSE_SIZE bytes in
      (true, {| buffer_data := Some (overwrite 0 copied (storage b));
                valid_length := length copied |})
  end.

(** Modelled from the spec: [SetRange(offset, bytes, count)] fails if
    [offset >= capacity], if the source is absent, or if
    [offset > valid_length]; a buffer that has never held any data is
    blacked out first; then [min(count, capacity - offset)] bytes are
    copied and the valid length becomes
    [max(valid_length, offset + bytes_copied)], clamped to the capacity.
    [count] is the length of [bytes]. *)
Definition SetRange (offset : nat) (bytes : option (list N)) (b : DmxBuffer)
    : bool * DmxBuffer :=
  match bytes with
  | None => (false, b)
  | Some bytes =>
      if decide (DMX_UNIVERSE_SIZE ≤ offset) then (false, b)
      else if decide (valid_length b < offset) then (false, b)
      else
        let b :=
          match buffer_data b with
          | None => snd (Blackout b)
          | Some _ => b
          end in
        let copied := take (DMX_UNIVERSE_SIZE - offset) bytes in
        (true,
         {| buffer_data := Some (overwrite offset copied (storage b));
            valid_length :=
              (valid_length b `max` (offset + length copied))
              `min` DMX_UNIVERSE_SIZE |})
  end.

(** Modelled from the spec: leading white space removed. *)
Fixpoint trim_left (s : list ascii) : list ascii :=
  match s with
  | c :: s' => if Ascii.is_space c then trim_left s' else s
  | [] => []
  end.

(** Modelled from the spec: a text of white space only. *)
Definition blank (s : list ascii) : Prop :=
  Forall (λ c, Ascii.is_space c = true) s.

(** Modelled from the spec: leading and trailing white space of the
    whole text removed. *)
Definition trim (s : list ascii) : list ascii :=
  reverse (trim_left (reverse (trim_left s))).

(** Modelled from the spec: the tokens between the commas; a trailing
    comma ends in an empty token, as in the third test vector. *)
Fixpoint split_commas (s : list ascii) : list (list ascii) :=
  match s with
  | [] => [[]]
  | c :: s =>
      if decide (c = ","%char) then [] :: split_commas s
      else
        match split_commas s with
        | token :: tokens => (c :: token) :: tokens
        | [] => [[c]]
        end
  end.

(** Modelled from the spec: the value of a run of decimal digits. *)
Fixpoint decimal_go (acc : N) (s : list ascii) : option N :=
  match s with
  | [] => Some acc
  | c :: s =>
      match Ascii.is_nat c with
      | Some d => decimal_go (acc * 10 + N.of_nat d)%N s
      | None => None
      end
  end.

(** Modelled from the spec: a token parses when it is a non-empty run of
    decimal digits. *)
Definition parse_decimal (token : list ascii) : option N :=
  match token with
  | [] => None
  | _ => decimal_go 0 token
  end.

(** Modelled from the spec: the byte of one token. A token that fails to
    parse yields 0; a value above 255 is truncated to its low byte, the
    policy section 9 settles on and [testStringToDmx] asserts
    (266 gives 10). *)
Definition byte_of_token (token : list ascii) : N :=
  match parse_decimal token with
  | Some v => (v mod 256)%N
  | None => 0%N
  end.

(** The reading of section 4.1, which clamps a value above 255 to 255. *)
Definition byte_of_token_clamped (token : list ascii) : N :=
  match parse_decimal token with
  | Some v => N.min v 255
  | None => 0%N
  end.

(** Modelled from the spec: the tokens of a text, those between the
    commas of the trimmed text, and none for a text that is empty once
    trimmed. *)
Definition tokens (text : string) : list (list ascii) :=
  let s := trim (list_ascii_of_string text) in
  if decide (s = []) then [] else split_commas s.

(** Modelled from the spec: [SetFromString] over a given policy for the
    byte of a token; at most [capacity] slots are written. *)
Definition SetFromString_with (policy : list ascii → N) (text : string)
    (b : DmxBuffer) : bool * DmxBuffer :=
  let values := policy <$> take DMX_UNIVERSE_SIZE (tokens text) in
  (true, {| buffer_data := Some (overwrite 0 values (storage b));
            valid_length := length values |}).

(** Modelled from the spec: [SetFromString(text)] parses a comma-separated
    sequence of decimal byte values after trimming the white space around
    the whole text; an empty text yields a valid length of 0; the call
    always reports success. *)
Definition SetFromString : string → DmxBuffer → bool * DmxBuffer :=
  SetFromString_with byte_of_token.

(** The same with the clamp of section 4.1 in place of the truncation. *)
Definition SetFromString_clamped : string → DmxBuffer → bool * DmxBuffer :=
  SetFromString_with byte_of_token_clamped.

(** Modelled from the spec: two buffers are equal iff their valid lengths
    are equal and their valid prefixes byte-equal. *)
Definition DmxBuffer_eqb (a b : DmxBuffer) : bool :=
  bool_decide (Get a = Get b).

(** Modelled from the spec: the constructor [DmxBuffer(data, length)]
    that the test uses, a [Set] on a new buffer. *)
Definition DmxBuffer_of (bytes : list N) : DmxBuffer :=
  snd (Set_ (Some bytes) DmxBuffer_new).

(** *** [DmxBufferTest.cpp] *)

Definition TEST_DATA : list N := [1; 2; 3; 4; 5]%N.

(** [DmxBufferTest::runStringToDmx]: both assertions. *)
Definition runStringToDmx_with
    (set_from_string : string → DmxBuffer → bool * DmxBuffer)
    (input : string) (expected : DmxBuffer) : bool :=
  let '(ok, buffer) := set_from_string input DmxBuffer_new in
  ok && DmxBuffer_eqb buffer expected.

(** The inputs and expected buffers of [DmxBufferTest::testStringToDmx]. *)
Definition testStringToDmx_vectors : list (string * list N) :=
  [ ("1,2,3,4", [1; 2; 3; 4]);
    ("a,b,c,d", [0; 0; 0; 0]);
    ("a,b,c,", [0; 0; 0; 0]);
    ("255,,,", [255; 0; 0; 0]);
    ("255,,,10", [255; 0; 0; 10]);
    (" 266,,,10  ", [10; 0; 0; 10]);
    ("", []) ]%N.

(** [DmxBufferTest::testStringToDmx] against an implementation of
    [SetFromString]. *)
Definition testStringToDmx
    (set_from_string : string → DmxBuffer → bool * DmxBuffer) : bool :=
  forallb
    (λ v, runStringToDmx_with set_from_string v.1 (DmxBuffer_of v.2))
    testStringToDmx_vectors.

(** [DmxBufferTest::testSetRange]: the calls in order, each assertion a
    conjunct. [memcmp(a, b, n)] being 0 is equality of the first [n]
    bytes. *)
Definition testSetRange : bool :=
  let data_size := length TEST_DATA in
  let buffer := DmxBuffer_new in
  let '(r1, buffer) := SetRange 0 None buffer in
  let '(r2, buffer) := SetRange 600 (Some TEST_DATA) buffer in
  (* Setting an uninitialized buffer calls blackout first *)
  let '(r3, buffer) := SetRange 0 (Some TEST_DATA) buffer in
  let a3 := bool_decide (Size buffer = DMX_UNIVERSE_SIZE)
            && bool_decide (take data_size (GetRaw buffer) = TEST_DATA) in
  (* try overrunning the buffer *)
  let '(r4, buffer) :=
    SetRange (DMX_UNIVERSE_SIZE - 2) (Some TEST_DATA) buffer in
  let a4 := bool_decide (Size buffer = DMX_UNIVERSE_SIZE)
            && bool_decide
                 (take 2 (drop (DMX_UNIVERSE_SIZE - 2) (GetRaw buffer))
                  = take 2 TEST_DATA) in
  (* reset the buffer so that the valid data is 0, and try again *)
  let buffer := Reset buffer in
  let '(r5, buffer) := SetRange 0 (Some TEST_DATA) buffer in
  let a5 := bool_decide (Size buffer = data_size)
            && bool_decide (take data_size (GetRaw buffer) = TEST_DATA) in
  (* setting past the end of the valid data should fail *)
  let '(r6, buffer) := SetRange 50 (Some TEST_DATA) buffer in
  let a6 := bool_decide (Size buffer = data_size)
            && bool_decide (take (Size buffer) (GetRaw buffer) = TEST_DATA) in
  (* overwrite part of the valid data *)
  let offset := 2 in
  let '(r7, buffer) := SetRange offset (Some TEST_DATA) buffer in
  let a7 := bool_decide (Size buffer = data_size + offset)
            && bool_decide (take offset (GetRaw buffer)
                            = take offset TEST_DATA)
            && bool_decide
                 (take (Size buffer - offset) (drop offset (GetRaw buffer))
                  = take (Size buffer - offset) TEST_DATA) in
  (* now try writing 1 channel past the valid data *)
  let buffer := Reset buffer in
  let '(r8, buffer) := SetRange 0 (Some TEST_DATA) buffer in
  let '(r9, buffer) := SetRange data_size (Some TEST_DATA) buffer in
  let a9 := bool_decide (Size buffer = data_size * 2)
            && bool_decide (take data_size (GetRaw buffer) = TEST_DATA)
            && bool_decide
                 (take data_size (drop data_size (GetRaw buffer))
                  = TEST_DATA) in
  negb r1 && negb r2 && r3 && a3 && r4 && a4 && r5 && a5
  && negb r6 && a6 && r7 && a7 && r8 && r9 && a9.

(** ** Observations on the calls made *)

Section Observations.
Context `{Countable UID} {RDMResponse : Type}.
Context {codes : TriCodes} {rdm : RDMLibrary UID RDMResponse}.
Implicit Types (w : Widget UID RDMResponse) (e : Event UID RDMResponse).

(** [events] more calls made, nothing else changed. *)
Definition append_io (events : list (Event UID RDMResponse)) w
    : Widget UID RDMResponse :=
  {| m_rdm_timeout_id := m_rdm_timeout_id w;
     m_uid_count := m_uid_count w;
     m_rdm_request_pending := m_rdm_request_pending w;
     m_last_esta_id := m_last_esta_id w;
     m_rdm_response := m_rdm_response w;
     m_uid_set_callback := m_uid_set_callback w;
     m_rdm_response_callback := m_rdm_response_callback w;
     m_pending_requests := m_pending_requests w;
     m_uid_index_map := m_uid_index_map w;
     io := io w ++ events |}.

(** The command ids of a dispatch transaction: the three request frames
    and the set-filter frame that precedes a broadcast. *)
Definition dispatch_ids : list N :=
  [ REMOTE_GET_COMMAND_ID; REMOTE_SET_COMMAND_ID; QUEUED_GET_COMMAND_ID;
    SET_FILTER_COMMAND_ID ].

(** A frame sent to the device that opens or continues a dispatch
    transaction. *)
Definition is_dispatch_frame e : bool :=
  match e with
  | SendMessage label (command_id :: _) =>
      bool_decide (label = EXTENDED_COMMAND_LABEL)
      && bool_decide (command_id ∈ dispatch_ids)
  | _ => false
  end.

(** How many dispatch frames were sent. *)
Definition dispatched (events : list (Event UID RDMResponse)) : nat :=
  length (filter (λ e, is_dispatch_frame e = true) events).

(** A frame from the device that answers a dispatch frame: the ones
    [HandleMessage] passes to [HandleRemoteRDMResponse] or
    [HandleSetFilterResponse]. *)
Definition is_dispatch_reply (op : Op UID) : bool :=
  match op with
  | OpHandleMessage label (command_id :: _ :: _) =>
      bool_decide (label = EXTENDED_COMMAND_LABEL)
      && bool_decide (command_id ∈ [ REMOTE_GET_COMMAND_ID;
                                     REMOTE_SET_COMMAND_ID;
                                     SET_FILTER_COMMAND_ID ])
  | _ => false
  end.

Definition dispatch_replies (ops : list (Op UID)) : nat :=
  length (filter (λ op, is_dispatch_reply op = true) ops).

(** [balance w n]: with [n] dispatch replies received so far, the frames
    sent exceed them by at most one, and by none when the in-flight flag
    is clear. *)
Definition balance w (n : nat) : Prop :=
  dispatched (io w) ≤ n + (if m_rdm_request_pending w then 1 else 0).

(** A set in-flight flag goes with a head request in the queue. *)
Definition pending_has_head w : Prop :=
  m_rdm_request_pending w = true → m_pending_requests w ≠ [].

(** A dispatch frame carries a command id and at least two more bytes. *)
Definition request_frame e : Prop :=
  match e with
  | SendMessage _ (_ :: _ :: _ :: _) => True
  | _ => False
  end.

(** A request whose parameter data the [data] array of a frame holds. *)
Definition fits (request : RDMRequest UID) : Prop :=
  ParamDataSize request ≤ MAX_PARAM_DATA_LENGTH.

#[global] Instance fits_dec request : Decision (fits request).
Proof. unfold fits. apply _. Defined.

(** The payloads expected on the wire when [request] is dispatched with
    the UID map [map]: for a GET of the queued messages, the queued-GET
    command with the device index and the first byte of the parameter
    data, if there is one and the destination is in the map; for
    another GET and for a SET, the request with device index 0 for a
    broadcast and with the index the map holds otherwise; nothing for a
    request of another class or to a device that is not in the map. *)
Definition request_frames (map : gmap UID N) (request : RDMRequest UID)
    : list (list N) :=
  if decide (ParamId request = PID_QUEUED_MESSAGE
             ∧ CommandClass request = GET_COMMAND) then
    match ParamData request, map !! DestinationUID request with
    | status_type :: _, Some index =>
        [[QUEUED_GET_COMMAND_ID; index; status_type]]
    | _, _ => []
    end
  else
    match CommandClass request,
          (if IsBroadcast (DestinationUID request) then Some 0%N
           else map !! DestinationUID request) with
    | GET_COMMAND, Some index =>
        [request_bytes REMOTE_GET_COMMAND_ID index request]
    | SET_COMMAND, Some index =>
        [request_bytes REMOTE_SET_COMMAND_ID index request]
    | _, _ => []
    end.

(** The calls expected when dispatch advances to the head of [queue]
    with no request in flight: none during a discovery and none for an
    empty queue; the set-filter command alone for a broadcast to another
    manufacturer than the filter was last set to; otherwise the frames
    of the head request. *)
Definition advance_frames w (queue : list (RDMRequest UID))
    : list (Event UID RDMResponse) :=
  if InDiscoveryMode w then []
  else
    match queue with
    | [] => []
    | request :: _ =>
        SendMessage EXTENDED_COMMAND_LABEL <$>
          (if IsBroadcast (DestinationUID request)
              && bool_decide (ManufacturerId (DestinationUID request)
                              ≠ m_last_esta_id w)
           then [[SET_FILTER_COMMAND_ID;
                  N.modulo
                    (N.shiftr (ManufacturerId (DestinationUID request)) 8)
                    256;
                  N.land (ManufacturerId (DestinationUID request)) 255]]
           else request_frames (m_uid_index_map w) request)
    end.

(** The timeout the widget removes when a discovery stops. *)
Definition timeout_removed w : list (Event UID RDMResponse) :=
  match m_rdm_timeout_id w with
  | Some id => [RemoveTimeout id]
  | None => []
  end.

(** The UID-fetch commands for the indices [indices]. *)
Definition fetch_events (indices : list N) : list (Event UID RDMResponse) :=
  (λ index, SendMessage EXTENDED_COMMAND_LABEL
              [REMOTE_UID_COMMAND_ID; index]) <$> indices.

(** The indices asked for by the UID-fetch commands among [events]. *)
Definition uid_fetches (events : list (Event UID RDMResponse)) : list N :=
  events ≫= λ e,
    match e with
    | SendMessage label [command_id; index] =>
        if decide (label = EXTENDED_COMMAND_LABEL
                   ∧ command_id = REMOTE_UID_COMMAND_ID)
        then [index] else []
    | _ => []
    end.

(** The UID sets handed to the UID-list callback. *)
Definition uid_sets_published (events : list (Event UID RDMResponse)) : list (gset UID) :=
  events ≫= λ e,
    match e with
    | RunUIDSetCallback uid_set => [uid_set]
    | _ => []
    end.

(** The responses handed to the response callback. *)
Definition responses_delivered (events : list (Event UID RDMResponse))
    : list (option RDMResponse) :=
  events ≫= λ e,
    match e with
    | RunRDMResponseCallback response => [response]
    | _ => []
    end.

(** The replies to a run of UID-fetch commands, each a return code and a
    payload. *)
Fixpoint uid_replies (replies : list (N * list N)) w : Outcome (Widget UID RDMResponse) :=
  match replies with
  | [] => Done w
  | (return_code, data) :: replies =>
      w ← HandleRemoteUIDResponse return_code data w;
      uid_replies replies w
  end.

(** [n; n-1; ...; 1]. *)
Fixpoint countdown (n : nat) : list N :=
  match n with
  | 0 => []
  | S m => N.of_nat n :: countdown m
  end.


End Observations.

(** ** A sample build

    One assignment of the enumerators and a small RDM library, to run the
    widget on concrete frames. A UID is a manufacturer id and a device id;
    [CombineResponses] refuses a combined parameter data longer than
    [SAMPLE_OVERFLOW_SIZE] bytes. *)

Definition sample_codes : TriCodes :=
  {| EXTENDED_COMMAND_LABEL := 88;
     RDM_STATUS_INTERVAL_MS := 100;
     DISCOVER_AUTO_COMMAND_ID := 0x33;
     DISCOVER_STATUS_COMMAND_ID := 0x34;
     REMOTE_UID_COMMAND_ID := 0x35;
     REMOTE_GET_COMMAND_ID := 0x38;
     REMOTE_SET_COMMAND_ID := 0x39;
     QUEUED_GET_COMMAND_ID := 0x3a;
     SET_FILTER_COMMAND_ID := 0x3d;
     EC_NO_ERROR := 0;
     EC_CONSTRAINT := 1;
     EC_RESPONSE_WAIT := 0x11;
     EC_RESPONSE_MORE := 0x12;
     EC_RESPONSE_MUTE := 0x1b;
     EC_RESPONSE_DISCOVERY := 0x1c;
     EC_RESPONSE_UNEXPECTED := 0x1d;
     EC_UNKNOWN_PID := 0x20;
     EC_FORMAT_ERROR := 0x21;
     EC_HARDWARE_FAULT := 0x22;
     EC_PROXY_REJECT := 0x23;
     EC_WRITE_PROTECT := 0x24;
     EC_UNSUPPORTED_COMMAND_CLASS := 0x25;
     EC_OUT_OF_RANGE := 0x26;
     EC_BUFFER_FULL := 0x27;
     EC_FRAME_OVERFLOW := 0x28;
     EC_SUBDEVICE_UNKNOWN := 0x29;
     PID_QUEUED_MESSAGE := 0x20;
     ALL_MANUFACTURERS := 0xffff |}%N.

Inductive SampleResponse :=
  | SampleAck (param_data : list N) (queued_messages : N)
  | SampleNack (reason : rdm_nack_reason).

Definition SAMPLE_OVERFLOW_SIZE : nat := 4.

Definition sample_uid_of_data (data : list N) : N * N :=
  match data with
  | [a; b; c; d; e; f] =>
      (a * 256 + b, ((c * 256 + d) * 256 + e) * 256 + f)%N
  | _ => (0, 0)%N
  end.

Definition sample_combine (previous : SampleResponse)
    (response : option SampleResponse) : option SampleResponse :=
  match previous, response with
  | SampleAck data1 _, Some (SampleAck data2 queued) =>
      if decide (length (data1 ++ data2) ≤ SAMPLE_OVERFLOW_SIZE)
      then Some (SampleAck (data1 ++ data2) queued)
      else None
  | _, _ => None
  end.

Definition sample_rdm : RDMLibrary (N * N) SampleResponse :=
  {| UID_SIZE := 6;
     MAX_PARAM_DATA_LENGTH := 231;
     UID_of_data := sample_uid_of_data;
     IsBroadcast uid := bool_decide (uid.2 = 0xffffffff%N);
     ManufacturerId uid := uid.1;
     GetResponseWithData request data queued := Some (SampleAck data queued);
     CombineResponses := sample_combine;
     NackWithReason request reason := Some (SampleNack reason) |}.

Abbreviation SampleWidget :=
  (Widget (N * N) SampleResponse) (only parsing).

(** The widget as constructed in the sample build, and its runs. *)
Abbreviation sample_new :=
  (@DmxTriWidget_new (N * N) _ _ SampleResponse sample_codes).

Abbreviation sample_run :=
  (@run (N * N) _ _ SampleResponse sample_codes sample_rdm).

(** A GET of parameter 0x0060 to device 7a70:00000001. *)
Definition sample_get : RDMRequest (N * N) :=
  {| DestinationUID := (0x7a70, 1)%N;
     SubDevice := 0;
     CommandClass := GET_COMMAND;
     ParamId := 0x60;
     ParamData := [] |}.

(** A discovery that finds device 7a70:00000001 at index 1. *)
Definition sample_discovery : list (Op (N * N)) :=
  [ OpRunRDMDiscovery true (Some 7%N);
    OpCheckDiscoveryStatus;
    OpHandleMessage 88 [0x34; 0; 1; 0];
    OpHandleMessage 88 [0x35; 0; 0x7a; 0x70; 0; 0; 0; 1] ]%N.

(** A SET of parameter 0x1000 broadcast to the devices of manufacturer
    7a70. *)
Definition sample_broadcast : RDMRequest (N * N) :=
  {| DestinationUID := (0x7a70, 0xffffffff)%N;
     SubDevice := 0;
     CommandClass := SET_COMMAND;
     ParamId := 0x1000;
     ParamData := [1%N] |}.

(** A response callback is registered, the device is discovered, the GET
    is sent, and the device answers with a first chunk of three bytes and
    [EC_RESPONSE_MORE]. *)
Definition sample_first_chunk : list (Op (N * N)) :=
  OpSetRDMResponseCallback true
  :: sample_discovery
  ++ [ OpHandleRDMRequest sample_get;
       OpHandleMessage 88 [0x38; 0x12; 1; 2; 3] ]%N.

(** The device is discovered and the GET is sent, with no response
    callback registered. *)
Definition sample_get_sent : list (Op (N * N)) :=
  sample_discovery ++ [ OpHandleRDMRequest sample_get ].

(** The device is discovered, the broadcast SET is queued, for which the
    filter is set first, and then the GET. *)
Definition sample_filter_pending : list (Op (N * N)) :=
  OpSetRDMResponseCallback true
  :: sample_discovery
  ++ [ OpHandleRDMRequest sample_broadcast;
       OpHandleRDMRequest sample_get ].

(** A discovery that reports three devices, with the UID-list callback
    registered, up to the first status poll. *)
Definition sample_discovery_started : list (Op (N * N)) :=
  [ OpSetUIDListCallback true;
    OpRunRDMDiscovery true (Some 7%N);
    OpCheckDiscoveryStatus ].

(** Three replies to UID fetches: a UID, a constraint error, and a
    payload too short for a UID. *)
Definition sample_uid_replies : list (N * list N) :=
  [ (0, [0x7a; 0x70; 0; 0; 0; 3]); (1, []); (0, [1; 2]) ]%N.

(** The state an outcome carries, the new widget when it carries none. *)
Definition sample_state (m : Outcome SampleWidget) : SampleWidget :=
  match m with
  | Done w => w
  | Undefined _ => sample_new
  end.

(** The widget after the operations [ops] from its construction. *)
Abbreviation sample_after ops := (sample_state (sample_run ops sample_new)).

(** ** The rest of the widget

    The destructor and [SendDMX], and what further is observed of a run. *)

Section WidgetRest.
Context `{Countable UID} {RDMResponse : Type}.
Context {codes : TriCodes} {rdm : RDMLibrary UID RDMResponse}.
Implicit Types (w : Widget UID RDMResponse).

(** The loop of the destructor: while the queue is not empty, the front
    request is deleted and popped. [fuel] bounds the iterations; [None]
    is a loop that has not ended within them. *)
Fixpoint delete_outstanding_requests (fuel : nat) w
    : option (Outcome (Widget UID RDMResponse)) :=
  if bool_decide (m_pending_requests w = []) then Some (Done w)
  else
    match fuel with
    | 0 => None
    | S fuel =>
        match front w with
        | Undefined f => Some (Undefined f)
        | Done _ =>
            match pop w with
            | Undefined f => Some (Undefined f)
            | Done w => delete_outstanding_requests fuel w
            end
        end
    end.

(** [~DmxTriWidget]. After the loop the two callbacks are deleted, which
    calls nothing on them. *)
Definition DmxTriWidget_delete (fuel : nat) w
    : option (Outcome (Widget UID RDMResponse)) :=
  delete_outstanding_requests fuel w.

(** Modelled from the spec: [DmxBuffer::Get(dest, &length)] of
    [ola/DmxBuffer.cpp], which writes [min(valid_length, dest_capacity)]
    bytes and reports the number written. *)
Definition Get_into (dest_capacity : nat) (b : DmxBuffer) : list N * nat :=
  let length := valid_length b `min` dest_capacity in
  (take length (storage b), length).

(** [SendDMX]. [DMX_LABEL] is [UsbWidget::DMX_LABEL] and [sent_ok] what
    [SendMessage] reports, which is the value returned. The frame is the
    first [length + 1] bytes of [widget_dmx]: the start code and the
    bytes [Get] wrote. *)
Definition SendDMX (DMX_LABEL : N) (sent_ok : bool) (buffer : DmxBuffer) w
    : bool * Widget UID RDMResponse :=
  let start_code := 0%N in
  let '(dmx, length) := Get_into DMX_UNIVERSE_SIZE buffer in
  (sent_ok,
   emit (SendMessage DMX_LABEL (take (length + 1) (start_code :: dmx))) w).

(** A frame from the device that [HandleMessage] passes to
    [HandleRemoteRDMResponse]. *)
Definition is_rdm_reply (op : Op UID) : bool :=
  match op with
  | OpHandleMessage label (command_id :: _ :: _) =>
      bool_decide (label = EXTENDED_COMMAND_LABEL)
      && bool_decide (command_id ∈ [ REMOTE_GET_COMMAND_ID;
                                     REMOTE_SET_COMMAND_ID ])
  | _ => false
  end.

Definition rdm_replies (ops : list (Op UID)) : nat :=
  length (filter (λ op, is_rdm_reply op = true) ops).

(** A frame from the device with the command id of a UID fetch. *)
Definition is_uid_reply (op : Op UID) : bool :=
  match op with
  | OpHandleMessage label (command_id :: _ :: _) =>
      bool_decide (label = EXTENDED_COMMAND_LABEL)
      && bool_decide (command_id = REMOTE_UID_COMMAND_ID)
  | _ => false
  end.

Definition uid_replies_received (ops : list (Op UID)) : nat :=
  length (filter (λ op, is_uid_reply op = true) ops).

(** The device indices in the UID map are above the number of indices
    still to fetch, and no two UIDs have the same index. *)
Definition indices_fetched w : Prop :=
  (∀ uid index,
     m_uid_index_map w !! uid = Some index → (m_uid_count w < index)%N)
  ∧ (∀ uid1 uid2 index,
       m_uid_index_map w !! uid1 = Some index →
       m_uid_index_map w !! uid2 = Some index → uid1 = uid2).

(** What one operation does to the queue: nothing, a request appended at
    the back, or the front request removed. *)
Definition queue_step (op : Op UID) w w' : Prop :=
  m_pending_requests w' = m_pending_requests w
  ∨ (∃ request, op = OpHandleRDMRequest request
                ∧ m_pending_requests w'
                  = m_pending_requests w ++ [request])
  ∨ (∃ request, m_pending_requests w
                = request :: m_pending_requests w').

(** The members that the handlers of dispatch replies leave alone. *)
Definition same_discovery w w' : Prop :=
  m_uid_index_map w' = m_uid_index_map w
  ∧ m_uid_count w' = m_uid_count w
  ∧ m_rdm_timeout_id w' = m_rdm_timeout_id w.

(** The members that [MaybeSendRDMRequest] and the dispatchers leave
    alone: all but the in-flight flag and the calls made. *)
Definition same_members w w' : Prop :=
  m_rdm_timeout_id w' = m_rdm_timeout_id w
  ∧ m_uid_count w' = m_uid_count w
  ∧ m_last_esta_id w' = m_last_esta_id w
  ∧ m_rdm_response w' = m_rdm_response w
  ∧ m_uid_set_callback w' = m_uid_set_callback w
  ∧ m_rdm_response_callback w' = m_rdm_response_callback w
  ∧ m_pending_requests w' = m_pending_requests w
  ∧ m_uid_index_map w' = m_uid_index_map w.

(** Between [w] and [w'] calls were only added, and of these at most
    [responses] ran the response callback and at most [uid_sets] the
    UID-list callback. *)
Definition calls_within (responses uid_sets : nat) w w' : Prop :=
  ∃ events, io w' = io w ++ events
            ∧ length (responses_delivered events) ≤ responses
            ∧ length (uid_sets_published events) ≤ uid_sets.

(** The timeouts registered with the select server, and those removed. *)
Definition timeouts_registered (events : list (Event UID RDMResponse))
    : nat :=
  length (events ≫= λ e,
            match e with
            | RegisterRepeatingTimeout ms => [ms]
            | _ => []
            end).

Definition timeouts_removed (events : list (Event UID RDMResponse)) : nat :=
  length (events ≫= λ e,
            match e with
            | RemoveTimeout id => [id]
            | _ => []
            end).

(** Every timeout removed was registered before, and the one whose handle
    the widget holds has not been removed. *)
Definition timeouts_held w : Prop :=
  timeouts_removed (io w)
  + (if m_rdm_timeout_id w is Some _ then 1 else 0)
  ≤ timeouts_registered (io w).

(** The UID a reply to a UID fetch carries: none when the return code is
    not [EC_NO_ERROR] or the payload is shorter than a UID. *)
Definition reply_uid (reply : N * list N) : option UID :=
  if decide (reply.1 = EC_NO_ERROR) then
    if decide (length reply.2 < UID_SIZE) then None
    else Some (UID_of_data (take UID_SIZE reply.2))
  else None.

(** What a handler does to the three observations above: it runs the
    callbacks at most [responses] and [uid_sets] times, and keeps the
    UID map and the timeouts in order. *)
Definition handler_effect (responses uid_sets : nat) w w' : Prop :=
  calls_within responses uid_sets w w'
  ∧ (indices_fetched w → indices_fetched w')
  ∧ (timeouts_held w → timeouts_held w').

End WidgetRest.

(** ** The DMXCreator factory

    [DMXCreatorFactory::DeviceAdded] of
    [plugins/usbdmx/DMXCreatorFactory.cpp]. *)

Definition VENDOR_ID : N := 0x0a30.
Definition PRODUCT_ID : N := 0x0002.

(** The two members of [libusb_device_descriptor] that are read. *)
Record libusb_device_descriptor := {
  idVendor : N;
  idProduct : N;
}.

(** The widget classes the factory constructs. *)
Inductive DMXCreator :=
  | AsynchronousDMXCreator (serial : string)
  | SynchronousDMXCreator (serial : string).

(** The member of the factory that [DeviceAdded] uses. *)
Record DMXCreatorFactory := {
  m_missing_serial_number : bool;
}.

(** [DeviceAdded]. [info] is default-constructed and never filled in, the
    calls on the adaptor being commented out, so [info.serial] is the
    empty string. [use_async_libusb] is the flag of that name and
    [add_widget] what [AddWidget] returns for the widget constructed. The
    result is the value returned, the widget handed to [AddWidget] if one
    was constructed, and the factory. *)
Definition DeviceAdded (use_async_libusb : bool)
    (add_widget : DMXCreator → bool)
    (descriptor : libusb_device_descriptor) (f : DMXCreatorFactory)
    : bool * option DMXCreator * DMXCreatorFactory :=
  if bool_decide (idVendor descriptor ≠ VENDOR_ID
                  ∨ idProduct descriptor ≠ PRODUCT_ID)
  then (false, None, f)
  else
    let serial := EmptyString in
    let continue (f : DMXCreatorFactory) :=
      let widget :=
        if use_async_libusb then AsynchronousDMXCreator serial
        else SynchronousDMXCreator serial in
      (add_widget widget, Some widget, f) in
    if bool_decide (serial = EmptyString) then
      if m_missing_serial_number f then (false, None, f)
      else continue {| m_missing_serial_number := true |}
    else continue f.

(** The devices the USB subsystem reports to one factory, in order, each
    with the value of the flag at the time; the widgets constructed. *)
Fixpoint devices_added (add_widget : DMXCreator → bool)
    (devices : list (bool * libusb_device_descriptor))
    (f : DMXCreatorFactory) : list DMXCreator * DMXCreatorFactory :=
  match devices with
  | [] => ([], f)
  | (use_async_libusb, descriptor) :: devices =>
      let '(_, widget, f) :=
        DeviceAdded use_async_libusb add_widget descriptor f in
      let '(widgets, f) := devices_added add_widget devices f in
      (option_list widget ++ widgets, f)
  end.


(** ** More runs of the sample build *)

(** A GET of the queued messages of device 7a70:00000001, with the status
    type 4 as parameter data. *)
Definition sample_queued_get : RDMRequest (N * N) :=
  {| DestinationUID := (0x7a70, 1)%N;
     SubDevice := 0;
     CommandClass := GET_COMMAND;
     ParamId := 0x20;
     ParamData := [4%N] |}.

(** A discovery is started, a request arrives while it runs, and the
    widget is stopped before the device has answered. *)
Definition sample_stopped (request : RDMRequest (N * N))
    : list (Op (N * N)) :=
  [ OpRunRDMDiscovery true (Some 7%N);
    OpHandleRDMRequest request;
    OpStop ].




(** A discovery with the UID-list callback registered, during which the
    broadcast SET arrives, up to the first status poll. *)
Definition sample_discovery_with_request : list (Op (N * N)) :=
  sample_discovery_started ++ [ OpHandleRDMRequest sample_broadcast ].

(** A discovery up to the status reply that reports three devices. *)
Definition sample_three_devices : list (Op (N * N)) :=
  sample_discovery_started ++ [ OpHandleMessage 88 [0x34; 0; 3; 0]%N ].

(** * Properties of the widget *)

Section WidgetProperties.
Context `{Countable UID} {RDMResponse : Type}.
Context {codes : TriCodes} {rdm : RDMLibrary UID RDMResponse}.
Implicit Types (w : Widget UID RDMResponse).
Implicit Types (request : RDMRequest UID).

(** ** Elementary facts *)

Lemma append_io_nil w : append_io [] w = w.
Proof. destruct w. unfold append_io. simpl. by rewrite app_nil_r. Qed.

Lemma emit_append_io e w : emit e w = append_io [e] w.
Proof. reflexivity. Qed.

Lemma append_io_app events1 events2 w :
  append_io events2 (append_io events1 w) = append_io (events1 ++ events2) w.
Proof. unfold append_io. simpl. by rewrite app_assoc. Qed.

Lemma front_cons w request rest :
  m_pending_requests w = request :: rest → front w = Done request.
Proof. unfold front. by intros ->. Qed.

Lemma front_empty w :
  m_pending_requests w = [] → front w = Undefined EmptyQueueFront.
Proof. unfold front. by intros ->. Qed.

Lemma pop_cons w request rest :
  m_pending_requests w = request :: rest →
  pop w = Done (set_pending_requests rest w).
Proof. unfold pop. by intros ->. Qed.

Lemma read_0 b data : read (b :: data) 0 = Done b.
Proof. reflexivity. Qed.

Lemma read_1 a b data : read (a :: b :: data) 1 = Done b.
Proof. reflexivity. Qed.

(** ** Dispatch *)

(** [DispatchQueuedGet] is defined whenever its caller has checked that
    the request has parameter data, and sends at most one frame. *)
Lemma DispatchQueuedGet_sends request w :
  ParamDataSize request ≠ 0 →
  ∃ events, DispatchQueuedGet request w = Done (append_io events w)
            ∧ length events ≤ 1 ∧ Forall request_frame events.
Proof.
  intros Hsize. unfold DispatchQueuedGet, ParamDataSize in *.
  destruct (m_uid_index_map w !! DestinationUID request) as [index|].
  - destruct (ParamData request) as [|b data]; [done|].
    rewrite read_0. simpl. eexists [_].
    split; [reflexivity|]. split; [simpl; lia|]. by repeat constructor.
  - exists []. rewrite append_io_nil. split; [done|].
    split; [simpl; lia | constructor].
Qed.

(** The [memcpy] of the parameter data is defined for a request that
    fits, and only for such a request. *)
Lemma rdm_message_fits command index request :
  fits request →
  rdm_message command index request
  = Done (request_bytes command index request).
Proof.
  intros Hfits. unfold rdm_message, fits in *.
  by rewrite decide_False by lia.
Qed.

Lemma rdm_message_overflow command index request :
  ¬ fits request →
  rdm_message command index request = Undefined BufferOverflow.
Proof.
  intros Hfits. unfold rdm_message, fits in *.
  by rewrite decide_True by lia.
Qed.

(** [DispatchNextRequest] for a head request that fits: the frames of the
    request go out and nothing else changes. *)
Lemma DispatchNextRequest_frames w request rest :
  m_pending_requests w = request :: rest → fits request →
  DispatchNextRequest w
  = Done (append_io
            (SendMessage EXTENDED_COMMAND_LABEL
             <$> request_frames (m_uid_index_map w) request) w).
Proof.
  intros Hq Hfits. unfold DispatchNextRequest, request_frames.
  rewrite (front_cons _ _ _ Hq). simpl.
  case_decide.
  { unfold ParamDataSize, DispatchQueuedGet.
    destruct (ParamData request) as [|status_type data]; simpl;
      [by rewrite append_io_nil|].
    destruct (m_uid_index_map w !! DestinationUID request); simpl;
      [done | by rewrite append_io_nil]. }
  destruct (CommandClass request); simpl; [| |by rewrite append_io_nil].
  all: destruct (IsBroadcast (DestinationUID request));
    [| destruct (m_uid_index_map w !! DestinationUID request);
       [|by rewrite append_io_nil]].
  all: by rewrite rdm_message_fits.
Qed.

Lemma request_frames_frame map request :
  length (request_frames map request) ≤ 1
  ∧ Forall request_frame
      (SendMessage EXTENDED_COMMAND_LABEL <$> request_frames map request
       : list (Event UID RDMResponse)).
Proof.
  unfold request_frames. repeat case_match; simpl;
    (split; [lia | by repeat constructor]).
Qed.

(** [DispatchNextRequest] when it returns: at most one frame was sent and
    nothing else changed. *)
Lemma DispatchNextRequest_Done w w' :
  DispatchNextRequest w = Done w' →
  ∃ events, w' = append_io events w
            ∧ length events ≤ 1 ∧ Forall request_frame events.
Proof.
  destruct (m_pending_requests w) as [|request rest] eqn:Hq.
  { unfold DispatchNextRequest. by rewrite (front_empty _ Hq). }
  destruct (decide (fits request)) as [Hfits|Hfits].
  - rewrite (DispatchNextRequest_frames _ _ _ Hq Hfits). intros [= <-].
    eexists. split; [done|].
    destruct (request_frames_frame (m_uid_index_map w) request) as [? ?].
    by rewrite length_fmap.
  - unfold DispatchNextRequest. rewrite (front_cons _ _ _ Hq). simpl.
    assert (Hnil : Done w = Done w' →
                   ∃ events, w' = append_io events w
                             ∧ length events ≤ 1
                             ∧ Forall request_frame events).
    { intros [= <-]. exists []. rewrite append_io_nil. split; [done|].
      split; [simpl; lia | constructor]. }
    case_decide.
    { case_decide; [|done].
      destruct (DispatchQueuedGet_sends request w) as (events & -> & ?);
        [done|].
      intros [= <-]. by exists events. }
    destruct (CommandClass request); [| |done].
    all: destruct (IsBroadcast (DestinationUID request));
      [| destruct (m_uid_index_map w !! DestinationUID request); [|done]].
    all: by rewrite rdm_message_overflow.
Qed.

(** A broadcast SET, or a broadcast GET of another parameter than the
    queued messages, goes out as one frame with device index 0. *)
Lemma DispatchNextRequest_broadcast w request rest :
  m_pending_requests w = request :: rest →
  IsBroadcast (DestinationUID request) = true →
  CommandClass request = SET_COMMAND
  ∨ (CommandClass request = GET_COMMAND
     ∧ ParamId request ≠ PID_QUEUED_MESSAGE) →
  fits request →
  DispatchNextRequest w
  = Done (emit (SendMessage EXTENDED_COMMAND_LABEL
                  (request_bytes
                     (if decide (CommandClass request = GET_COMMAND)
                      then REMOTE_GET_COMMAND_ID
                      else REMOTE_SET_COMMAND_ID) 0%N request)) w).
Proof.
  intros Hq Hb Hclass Hfits. unfold DispatchNextRequest.
  rewrite (front_cons _ _ _ Hq). simpl. rewrite Hb.
  destruct Hclass as [Hc | [Hc Hp]]; rewrite Hc.
  - rewrite decide_False by (by intros [_ ?]).
    by rewrite rdm_message_fits.
  - rewrite decide_False by (by intros [? _]).
    by rewrite rdm_message_fits.
Qed.

(** The frames a dispatch sends do not depend on the reassembly buffer or
    on the filter cache. *)
Lemma DispatchNextRequest_set_rdm_response response w :
  DispatchNextRequest (set_rdm_response response w)
  = w' ← DispatchNextRequest w; Done (set_rdm_response response w').
Proof.
  unfold DispatchNextRequest, front, DispatchQueuedGet, read, rdm_message.
  simpl.
  destruct (m_pending_requests w) as [|request rest]; [done|]. simpl.
  repeat (case_decide || case_match || simpl); done.
Qed.

Lemma DispatchNextRequest_set_last_esta_id esta_id w :
  DispatchNextRequest (set_last_esta_id esta_id w)
  = w' ← DispatchNextRequest w; Done (set_last_esta_id esta_id w').
Proof.
  unfold DispatchNextRequest, front, DispatchQueuedGet, read, rdm_message.
  simpl.
  destruct (m_pending_requests w) as [|request rest]; [done|]. simpl.
  repeat (case_decide || case_match || simpl); done.
Qed.

(** The three situations in which [MaybeSendRDMRequest] returns at
    once. *)
Lemma MaybeSendRDMRequest_noop w :
  InDiscoveryMode w = true ∨ m_pending_requests w = []
  ∨ m_rdm_request_pending w = true →
  MaybeSendRDMRequest w = Done w.
Proof.
  unfold MaybeSendRDMRequest. intros [-> | [-> | ->]]; simpl.
  - done.
  - by rewrite orb_true_r.
  - by rewrite orb_true_r.
Qed.

(** Otherwise, when it returns, it has set the flag and sent at most one
    frame. *)
Lemma MaybeSendRDMRequest_cases w w' :
  MaybeSendRDMRequest w = Done w' →
  (w' = w
   ∧ (InDiscoveryMode w = true ∨ m_pending_requests w = []
      ∨ m_rdm_request_pending w = true))
  ∨ (InDiscoveryMode w = false ∧ m_pending_requests w ≠ []
     ∧ m_rdm_request_pending w = false
     ∧ ∃ events,
         w' = append_io events (set_rdm_request_pending true w)
         ∧ length events ≤ 1 ∧ Forall request_frame events).
Proof.
  destruct (InDiscoveryMode w) eqn:Hd.
  { rewrite MaybeSendRDMRequest_noop by auto. intros [= <-]. left. auto. }
  destruct (decide (m_pending_requests w = [])) as [Hq|Hq].
  { rewrite MaybeSendRDMRequest_noop by auto. intros [= <-]. left. auto. }
  destruct (m_rdm_request_pending w) eqn:Hp.
  { rewrite MaybeSendRDMRequest_noop by auto. intros [= <-]. left. auto. }
  intros E. right. repeat split; try done. revert E.
  unfold MaybeSendRDMRequest. rewrite Hd, Hp.
  rewrite bool_decide_eq_false_2 by done. simpl.
  destruct (m_pending_requests w) as [|request rest] eqn:Hw; [done|].
  unfold front. simpl. rewrite Hw. simpl.
  destruct (_ && _).
  - intros [= <-]. eexists [_]. split; [reflexivity|].
    split; [simpl; lia | by repeat constructor].
  - apply DispatchNextRequest_Done.
Qed.

(** With no request in flight and a head request that fits,
    [MaybeSendRDMRequest] returns: the flag is set exactly when discovery
    is idle and a request is queued, and what the advance to that request
    sends has gone out. *)
Lemma MaybeSendRDMRequest_advance w :
  m_rdm_request_pending w = false →
  (∀ request rest, m_pending_requests w = request :: rest → fits request) →
  MaybeSendRDMRequest w
  = Done (append_io (advance_frames w (m_pending_requests w))
            (set_rdm_request_pending
               (negb (InDiscoveryMode w)
                && bool_decide (m_pending_requests w ≠ [])) w)).
Proof.
  intros Hp Hfits.
  assert (Hid : set_rdm_request_pending false w = w)
    by (destruct w; simpl in *; by subst).
  unfold advance_frames. destruct (InDiscoveryMode w) eqn:Hd.
  { rewrite MaybeSendRDMRequest_noop by auto. simpl.
    by rewrite append_io_nil, Hid. }
  destruct (m_pending_requests w) as [|request rest] eqn:Hq.
  { rewrite MaybeSendRDMRequest_noop by auto. simpl.
    by rewrite append_io_nil, Hid. }
  unfold MaybeSendRDMRequest. rewrite Hd, Hp, Hq. simpl.
  rewrite (front_cons _ request rest) by done. simpl.
  destruct (_ && _); [done|].
  by rewrite (DispatchNextRequest_frames _ request rest)
    by (done || by eapply Hfits).
Qed.

(** [MaybeSendRDMRequest] has no undefined behaviour when the requests
    queued fit. *)
Lemma MaybeSendRDMRequest_defined w :
  Forall fits (m_pending_requests w) → defined (MaybeSendRDMRequest w).
Proof.
  intros Hfits. destruct (m_rdm_request_pending w) eqn:Hp.
  { rewrite MaybeSendRDMRequest_noop by auto. by eexists. }
  rewrite MaybeSendRDMRequest_advance; [by eexists | done |].
  intros request rest Hq. rewrite Hq in Hfits.
  by apply Forall_cons in Hfits as [? _].
Qed.

(** ** Accounting of dispatch frames *)

Lemma dispatched_app (events1 events2 : list (Event UID RDMResponse)) :
  dispatched (events1 ++ events2) = dispatched events1 + dispatched events2.
Proof. unfold dispatched. by rewrite filter_app, length_app. Qed.

Lemma dispatched_le (events : list (Event UID RDMResponse)) :
  dispatched events ≤ length events.
Proof. unfold dispatched. apply length_filter. Qed.

Lemma balance_mono w n m : n ≤ m → balance w n → balance w m.
Proof. unfold balance. lia. Qed.

Lemma dispatched_cons_False e (events : list (Event UID RDMResponse)) :
  is_dispatch_frame e = false → dispatched (e :: events) = dispatched events.
Proof.
  intros He. unfold dispatched. rewrite filter_cons_False; [done|].
  by rewrite He.
Qed.

Lemma dispatched_cons_True e (events : list (Event UID RDMResponse)) :
  is_dispatch_frame e = true →
  dispatched (e :: events) = S (dispatched events).
Proof. intros He. unfold dispatched. by rewrite filter_cons_True. Qed.

(** An event that is no dispatch frame leaves the balance as it is. *)
Lemma balance_emit e w n :
  is_dispatch_frame e = false → balance w n → balance (emit e w) n.
Proof.
  unfold balance. intros He.
  change (io (emit e w)) with (io w ++ [e]).
  change (m_rdm_request_pending (emit e w)) with (m_rdm_request_pending w).
  rewrite dispatched_app, (dispatched_cons_False _ _ He).
  change (dispatched []) with 0. lia.
Qed.

Lemma balance_MaybeSendRDMRequest w w' n :
  balance w n → MaybeSendRDMRequest w = Done w' → balance w' n.
Proof.
  intros Hb E.
  destruct (MaybeSendRDMRequest_cases w w' E)
    as [[-> _] | (_ & _ & Hp & events & -> & Hlen & _)]; [done|].
  unfold balance in *. simpl. rewrite Hp in Hb. rewrite dispatched_app.
  pose proof (dispatched_le events). lia.
Qed.

Lemma balance_DispatchNextRequest w w' n :
  balance w n → DispatchNextRequest w = Done w' → balance w' (S n).
Proof.
  intros Hb E. unfold balance in *.
  destruct (DispatchNextRequest_Done w w' E) as (events & -> & Hlen & _).
  simpl. rewrite dispatched_app. pose proof (dispatched_le events). lia.
Qed.

Lemma balance_retire w w' n :
  balance w n → retire w = Done w' → balance w' (S n).
Proof.
  intros Hb. unfold retire, pop.
  destruct (m_pending_requests w) as [|request rest]; [done|]. simpl.
  apply balance_MaybeSendRDMRequest. unfold balance in *. simpl.
  destruct (m_rdm_request_pending w); lia.
Qed.

(** Calls that are no dispatch frames, and changes of other members than
    the flag, leave the balance as it is. *)
Lemma balance_quiet w w' n events :
  io w' = io w ++ events → dispatched events = 0 →
  m_rdm_request_pending w' = m_rdm_request_pending w →
  balance w n → balance w' n.
Proof.
  unfold balance. intros -> Hev ->. rewrite dispatched_app, Hev. lia.
Qed.

Lemma balance_StopDiscovery w n : balance w n → balance (StopDiscovery w) n.
Proof.
  unfold StopDiscovery. destruct (m_rdm_timeout_id w) as [id|]; [|done].
  intros Hb. change (balance (emit (RemoveTimeout id) w) n).
  by apply balance_emit.
Qed.

(** With distinct case labels in [HandleMessage], the discovery frames are
    no dispatch frames. *)
Lemma discovery_frames_not_dispatch :
  NoDup command_ids →
  (DISCOVER_AUTO_COMMAND_ID ∉ dispatch_ids)
  ∧ (DISCOVER_STATUS_COMMAND_ID ∉ dispatch_ids)
  ∧ (REMOTE_UID_COMMAND_ID ∉ dispatch_ids).
Proof.
  unfold command_ids, dispatch_ids.
  rewrite !NoDup_cons, !not_elem_of_cons.
  intuition (auto using not_elem_of_nil).
Qed.

Lemma balance_FetchNextUID w n :
  NoDup command_ids → balance w n → balance (FetchNextUID w) n.
Proof.
  intros (_ & _ & Hu)%discovery_frames_not_dispatch Hb.
  unfold FetchNextUID. case_decide; [done|].
  apply balance_emit; [|done]. simpl.
  rewrite (bool_decide_eq_false_2 _ Hu). by rewrite andb_false_r.
Qed.

Lemma balance_HandleRemoteUIDResponse return_code data w w' n :
  NoDup command_ids → balance w n →
  HandleRemoteUIDResponse return_code data w = Done w' → balance w' n.
Proof.
  intros Hnd Hb. unfold HandleRemoteUIDResponse.
  case_decide; [by intros [= <-]|].
  set (w1 := if decide (return_code = EC_NO_ERROR) then _ else _).
  assert (Hb1 : balance w1 n).
  { subst w1. repeat case_decide; done. }
  clearbody w1. simpl. case_decide.
  - intros [= <-]. by apply balance_FetchNextUID.
  - apply balance_MaybeSendRDMRequest. unfold SendUIDUpdate. simpl.
    destruct (m_uid_set_callback w1); [|done].
    by eapply (balance_quiet w1); [reflexivity..|].
Qed.

Lemma balance_HandleDiscoverStatResponse return_code data w w' n :
  NoDup command_ids → balance w n →
  HandleDiscoverStatResponse return_code data w = Done w' → balance w' n.
Proof.
  intros Hnd Hb. unfold HandleDiscoverStatResponse.
  destruct (discovery_continues return_code);
    [|intros [= <-]; by apply balance_StopDiscovery].
  case_decide; [by intros [= <-]|].
  destruct (read data 1) as [not_done|]; [simpl|done].
  case_decide; [|by intros [= <-]].
  destruct (read data 0) as [count|]; [simpl|done].
  intros [= <-]. apply (balance_StopDiscovery _ n) in Hb.
  case_decide; [apply balance_FetchNextUID|]; done.
Qed.

Lemma balance_HandleRemoteRDMResponse return_code data w w' n :
  balance w n →
  HandleRemoteRDMResponse return_code data w = Done w' → balance w' (S n).
Proof.
  intros Hb. unfold HandleRemoteRDMResponse.
  destruct (front w) as [request|]; [simpl|done].
  case_decide.
  - set (w1 := match m_rdm_response w with Some _ => _ | None => _ end).
    assert (Hb1 : balance w1 n) by (subst w1; by case_match).
    clearbody w1. destruct (m_rdm_response w1) as [combined|].
    + case_decide; [by apply balance_DispatchNextRequest|].
      apply balance_retire.
      destruct (m_rdm_response_callback w1).
      * by eapply (balance_quiet w1); [reflexivity..|].
      * by eapply (balance_quiet w1 _ _ []); [by rewrite app_nil_r|done..].
    + by apply balance_retire.
  - case_decide.
    + simpl. destruct (m_rdm_response_callback w); [|done].
      apply balance_retire.
      by eapply (balance_quiet w); [reflexivity..|].
    + apply balance_retire.
      by eapply (balance_quiet w _ _ []); [by rewrite app_nil_r|done..].
Qed.

Lemma balance_HandleSetFilterResponse return_code data w w' n :
  balance w n →
  HandleSetFilterResponse return_code data w = Done w' → balance w' (S n).
Proof.
  intros Hb. unfold HandleSetFilterResponse.
  destruct (front w) as [request|] eqn:Hf; [|by case_decide].
  case_decide; simpl.
  - by apply balance_DispatchNextRequest.
  - by apply balance_retire.
Qed.

Lemma balance_HandleMessage label data w w' n :
  NoDup command_ids → balance w n →
  HandleMessage label data w = Done w' →
  balance w'
    (n + if is_dispatch_reply (OpHandleMessage label data : Op UID)
         then 1 else 0).
Proof.
  intros Hnd Hb. unfold HandleMessage.
  case_decide as Hl; [|intros [= <-]; eapply balance_mono; [|done]; lia].
  case_decide; [intros [= <-]; eapply balance_mono; [|done]; lia|].
  unfold DATA_OFFSET in *.
  destruct data as [|command_id [|return_code data]]; simpl in *; [lia..|].
  rewrite (bool_decide_eq_true_2 _ Hl). simpl.
  assert (Hweak : ∀ w n (b : bool),
             balance w n → balance w (n + if b then 1 else 0)).
  { intros ? ? ?. apply balance_mono. lia. }
  set (reply := bool_decide (command_id ∈ _)).
  assert (Hreply : command_id ∈ [ REMOTE_GET_COMMAND_ID;
                                  REMOTE_SET_COMMAND_ID;
                                  SET_FILTER_COMMAND_ID ] → reply = true).
  { intros Hin. subst reply. by apply bool_decide_eq_true_2. }
  clearbody reply.
  case_decide as Hc.
  { intros [= <-]. apply Hweak. unfold HandleDiscoveryAutoResponse.
    case_decide; [by apply balance_StopDiscovery | done]. }
  clear Hc. case_decide as Hc.
  { intros ?. apply Hweak. by eapply balance_HandleDiscoverStatResponse. }
  clear Hc. case_decide as Hc.
  { intros ?. apply Hweak. by eapply balance_HandleRemoteUIDResponse. }
  clear Hc. case_decide as Hc.
  { rewrite Hreply by (subst; set_solver).
    replace (n + 1) with (S n) by lia.
    by apply balance_HandleRemoteRDMResponse. }
  clear Hc. case_decide as Hc.
  { rewrite Hreply by (subst; set_solver).
    replace (n + 1) with (S n) by lia.
    by apply balance_HandleRemoteRDMResponse. }
  clear Hc. case_decide as Hc.
  { intros [= <-]. by apply Hweak. }
  clear Hc. case_decide as Hc.
  { rewrite Hreply by (subst; set_solver).
    replace (n + 1) with (S n) by lia.
    by apply balance_HandleSetFilterResponse. }
  intros [= <-]. by apply Hweak.
Qed.

Lemma balance_step op w w' n :
  NoDup command_ids → balance w n → step op w = Done w' →
  balance w' (n + if is_dispatch_reply op then 1 else 0).
Proof.
  intros Hnd Hb.
  pose proof (discovery_frames_not_dispatch Hnd) as (Ha & Hs & _).
  destruct op; simpl; try (rewrite Nat.add_0_r).
  - by intros [= <-].
  - by intros [= <-].
  - intros [= <-]. by apply balance_StopDiscovery.
  - unfold HandleRDMRequest. destruct (_ && _); [by intros [= <-]|].
    destruct (MaybeSendRDMRequest _) as [w1|] eqn:E; [simpl|done].
    intros [= <-]. by eapply balance_MaybeSendRDMRequest; [|exact E].
  - intros [= <-]. unfold RunRDMDiscovery.
    destruct (InDiscoveryMode w); [done|].
    assert (Hstart : balance (SendDiscoveryStart w) n).
    { apply balance_emit; [|done]. simpl.
      rewrite (bool_decide_eq_false_2 _ Ha). by rewrite andb_false_r. }
    destruct sent_ok; [|done].
    by eapply (balance_quiet (SendDiscoveryStart w)); [reflexivity..|].
  - intros [= <-]. apply balance_emit; [|done]. simpl.
    rewrite (bool_decide_eq_false_2 _ Hs). by rewrite andb_false_r.
  - by apply balance_HandleMessage.
Qed.

Lemma balance_run ops : ∀ w w' n,
  NoDup command_ids → balance w n → run ops w = Done w' →
  balance w' (n + dispatch_replies ops).
Proof.
  induction ops as [|op ops IH]; intros w w' n Hnd Hb; simpl.
  - intros [= <-]. by rewrite Nat.add_0_r.
  - destruct (step op w) as [w1|] eqn:E; [simpl|done]. intros Hrun.
    apply (balance_step _ _ _ _ Hnd Hb) in E.
    apply (IH _ _ _ Hnd E) in Hrun. revert Hrun. apply balance_mono.
    unfold dispatch_replies. destruct (is_dispatch_reply op) eqn:Hop.
    + rewrite filter_cons_True by done. simpl. lia.
    + rewrite filter_cons_False by (by rewrite Hop). lia.
Qed.

(** In every state the engine reaches, a set in-flight flag goes with a
    head request in the queue. *)

Lemma pending_has_head_MaybeSendRDMRequest w w' :
  pending_has_head w → MaybeSendRDMRequest w = Done w' →
  pending_has_head w'.
Proof.
  intros Hw E.
  destruct (MaybeSendRDMRequest_cases w w' E)
    as [[-> _] | (_ & Hq & _ & events & -> & _)]; [done|].
  by intros _.
Qed.

Lemma pending_has_head_retire w w' :
  retire w = Done w' → pending_has_head w'.
Proof.
  unfold retire, pop.
  destruct (m_pending_requests w) as [|request rest]; [done|]. simpl.
  by apply pending_has_head_MaybeSendRDMRequest.
Qed.

Lemma pending_has_head_DispatchNextRequest w w' :
  pending_has_head w → DispatchNextRequest w = Done w' →
  pending_has_head w'.
Proof.
  intros Hw E.
  by destruct (DispatchNextRequest_Done w w' E) as (events & -> & _).
Qed.

Lemma pending_has_head_eq w w' :
  m_rdm_request_pending w' = m_rdm_request_pending w →
  m_pending_requests w' = m_pending_requests w →
  pending_has_head w → pending_has_head w'.
Proof. unfold pending_has_head. by intros -> ->. Qed.

Lemma pending_has_head_StopDiscovery w :
  pending_has_head w → pending_has_head (StopDiscovery w).
Proof.
  apply pending_has_head_eq; unfold StopDiscovery; by case_match.
Qed.

Lemma pending_has_head_FetchNextUID w :
  pending_has_head w → pending_has_head (FetchNextUID w).
Proof.
  apply pending_has_head_eq; unfold FetchNextUID; by case_decide.
Qed.

Lemma pending_has_head_HandleDiscoverStatResponse return_code data w w' :
  pending_has_head w →
  HandleDiscoverStatResponse return_code data w = Done w' →
  pending_has_head w'.
Proof.
  intros Hw. unfold HandleDiscoverStatResponse.
  destruct (discovery_continues return_code);
    [|intros [= <-]; by apply pending_has_head_StopDiscovery].
  case_decide; [by intros [= <-]|].
  destruct (read data 1) as [not_done|]; [simpl|done].
  case_decide; [|by intros [= <-]].
  destruct (read data 0) as [count|]; [simpl|done].
  intros [= <-]. apply pending_has_head_StopDiscovery in Hw.
  case_decide; [apply pending_has_head_FetchNextUID|]; done.
Qed.

Lemma pending_has_head_HandleRemoteUIDResponse return_code data w w' :
  pending_has_head w →
  HandleRemoteUIDResponse return_code data w = Done w' →
  pending_has_head w'.
Proof.
  intros Hw. unfold HandleRemoteUIDResponse.
  case_decide; [by intros [= <-]|].
  set (w1 := if decide (return_code = EC_NO_ERROR) then _ else _).
  assert (Hw1 : pending_has_head w1).
  { subst w1. repeat case_decide; done. }
  clearbody w1. simpl. case_decide.
  - intros [= <-]. by apply pending_has_head_FetchNextUID.
  - apply pending_has_head_MaybeSendRDMRequest. unfold SendUIDUpdate. simpl.
    by destruct (m_uid_set_callback w1).
Qed.

Lemma pending_has_head_HandleRemoteRDMResponse return_code data w w' :
  pending_has_head w →
  HandleRemoteRDMResponse return_code data w = Done w' →
  pending_has_head w'.
Proof.
  intros Hw. unfold HandleRemoteRDMResponse.
  destruct (front w) as [request|]; [simpl|done].
  case_decide.
  - set (w1 := match m_rdm_response w with Some _ => _ | None => _ end).
    assert (Hw1 : pending_has_head w1) by (subst w1; by case_match).
    clearbody w1. destruct (m_rdm_response w1) as [combined|].
    + case_decide; [by apply pending_has_head_DispatchNextRequest|].
      apply pending_has_head_retire.
    + apply pending_has_head_retire.
  - case_decide.
    + simpl. destruct (m_rdm_response_callback w); [|done].
      apply pending_has_head_retire.
    + apply pending_has_head_retire.
Qed.

Lemma pending_has_head_HandleSetFilterResponse return_code data w w' :
  pending_has_head w →
  HandleSetFilterResponse return_code data w = Done w' →
  pending_has_head w'.
Proof.
  intros Hw. unfold HandleSetFilterResponse.
  destruct (front w) as [request|]; [simpl|by case_decide].
  case_decide; [by apply pending_has_head_DispatchNextRequest|].
  apply pending_has_head_retire.
Qed.

Lemma pending_has_head_HandleMessage label data w w' :
  pending_has_head w → HandleMessage label data w = Done w' →
  pending_has_head w'.
Proof.
  intros Hw. unfold HandleMessage. case_decide; [|by intros [= <-]].
  case_decide; [by intros [= <-]|].
  destruct (read data 0) as [command_id|]; [simpl|done].
  destruct (read data 1) as [return_code|]; [simpl|done].
  case_decide.
  { intros [= <-]. unfold HandleDiscoveryAutoResponse.
    case_decide; [by apply pending_has_head_StopDiscovery | done]. }
  case_decide; [by apply pending_has_head_HandleDiscoverStatResponse|].
  case_decide; [by apply pending_has_head_HandleRemoteUIDResponse|].
  case_decide; [by apply pending_has_head_HandleRemoteRDMResponse|].
  case_decide; [by apply pending_has_head_HandleRemoteRDMResponse|].
  case_decide; [by intros [= <-]|].
  case_decide; [by apply pending_has_head_HandleSetFilterResponse|].
  by intros [= <-].
Qed.

Lemma pending_has_head_step op w w' :
  pending_has_head w → step op w = Done w' → pending_has_head w'.
Proof.
  intros Hw. destruct op; simpl.
  - by intros [= <-].
  - by intros [= <-].
  - intros [= <-]. by apply pending_has_head_StopDiscovery.
  - unfold HandleRDMRequest. destruct (_ && _); [by intros [= <-]|].
    destruct (MaybeSendRDMRequest _) as [w1|] eqn:E; [simpl|done].
    intros [= <-]. eapply pending_has_head_MaybeSendRDMRequest; [|exact E].
    intros _. simpl. by destruct (m_pending_requests w).
  - intros [= <-]. unfold RunRDMDiscovery. by repeat case_match.
  - by intros [= <-].
  - by apply pending_has_head_HandleMessage.
Qed.

Lemma pending_has_head_run ops : ∀ w w',
  pending_has_head w → run ops w = Done w' → pending_has_head w'.
Proof.
  induction ops as [|op ops IH]; intros w w' Hw; simpl.
  - by intros [= <-].
  - destruct (step op w) as [w1|] eqn:E; [simpl|done].
    apply IH. by eapply pending_has_head_step.
Qed.

(** ** The claims on the dispatch path *)

(** C1. At most one RDM request is in flight at any time.
    [MaybeSendRDMRequest] does nothing when discovery is active, when the
    queue is empty, or when the in-flight flag is set. When it does
    anything, the flag was clear before and is set after, and at most one
    frame goes out. Over every run of the engine from its construction
    (requests, discovery runs, timer ticks, inbound frames, in any order),
    the dispatch frames sent exceed the dispatch replies received by at
    most one, by none while the flag is clear, and a set flag always has
    its request at the head of the queue. *)
Theorem one_request_in_flight :
  NoDup command_ids →
  (∀ w, InDiscoveryMode w = true ∨ m_pending_requests w = []
        ∨ m_rdm_request_pending w = true →
        MaybeSendRDMRequest w = Done w)
  ∧ (∀ w w', MaybeSendRDMRequest w = Done w' → w' ≠ w →
             m_rdm_request_pending w = false
             ∧ m_rdm_request_pending w' = true
             ∧ ∃ events, io w' = io w ++ events ∧ length events ≤ 1)
  ∧ (∀ ops w, run ops DmxTriWidget_new = Done w →
              dispatched (io w)
              ≤ dispatch_replies ops
                + (if m_rdm_request_pending w then 1 else 0)
              ∧ (m_rdm_request_pending w = true
                 → m_pending_requests w ≠ [])).
Proof.
  intros Hnd. split; [|split].
  - apply MaybeSendRDMRequest_noop.
  - intros w w' E Hne.
    destruct (MaybeSendRDMRequest_cases w w' E)
      as [[-> _] | (_ & _ & Hp & events & -> & Hlen & _)]; [done|].
    split; [done|]. split; [done|]. by exists events.
  - intros ops w Hrun. split.
    + apply (balance_run ops DmxTriWidget_new w 0 Hnd); [|done].
      unfold balance. change (dispatched (io DmxTriWidget_new)) with 0. lia.
    + by apply (pending_has_head_run ops DmxTriWidget_new w).
Qed.

(** C3. A request to a destination that is not broadcast fails at once,
    and is not queued, while discovery is idle and the UID is not in the
    UID-to-index map; during a discovery the check is skipped and the
    request is queued. *)
Theorem HandleRDMRequest_unknown_destination request w :
  IsBroadcast (DestinationUID request) = false →
  (InDiscoveryMode w = false →
   m_uid_index_map w !! DestinationUID request = None →
   HandleRDMRequest request w = Done (false, w))
  ∧ (InDiscoveryMode w = true →
     HandleRDMRequest request w
     = Done (true,
             set_pending_requests (m_pending_requests w ++ [request]) w)).
Proof.
  intros Hb. unfold HandleRDMRequest. rewrite Hb. split.
  - intros Hd Hm. rewrite Hd, Hm. by rewrite bool_decide_eq_true_2.
  - intros Hd. rewrite Hd. simpl.
    rewrite MaybeSendRDMRequest_noop; [done|]. by left.
Qed.

(** ** Discovery *)

(** With distinct case labels, the return codes that let a status reply
    through are [EC_NO_ERROR] and [EC_RESPONSE_UNEXPECTED]. *)
Lemma discovery_continues_iff return_code :
  NoDup discovery_codes →
  discovery_continues return_code = true
  ↔ return_code = EC_NO_ERROR ∨ return_code = EC_RESPONSE_UNEXPECTED.
Proof.
  unfold discovery_codes, discovery_continues.
  rewrite !NoDup_cons, !not_elem_of_cons. intros Hnd.
  repeat case_decide; subst; intuition congruence.
Qed.

Lemma StopDiscovery_fields w :
  m_rdm_timeout_id (StopDiscovery w) = INVALID_TIMEOUT
  ∧ m_uid_count (StopDiscovery w) = m_uid_count w
  ∧ m_pending_requests (StopDiscovery w) = m_pending_requests w
  ∧ m_rdm_request_pending (StopDiscovery w) = m_rdm_request_pending w
  ∧ m_uid_set_callback (StopDiscovery w) = m_uid_set_callback w
  ∧ m_uid_index_map (StopDiscovery w) = m_uid_index_map w.
Proof. unfold StopDiscovery. by destruct (m_rdm_timeout_id w) eqn:E. Qed.

Lemma SendUIDUpdate_fields w :
  m_rdm_timeout_id (SendUIDUpdate w) = m_rdm_timeout_id w
  ∧ m_uid_count (SendUIDUpdate w) = m_uid_count w
  ∧ m_pending_requests (SendUIDUpdate w) = m_pending_requests w
  ∧ m_rdm_request_pending (SendUIDUpdate w) = m_rdm_request_pending w
  ∧ m_uid_set_callback (SendUIDUpdate w) = m_uid_set_callback w
  ∧ m_uid_index_map (SendUIDUpdate w) = m_uid_index_map w.
Proof.
  unfold SendUIDUpdate.
  destruct (m_uid_set_callback w) eqn:E; simpl; by rewrite ?E.
Qed.

(** What a call of [MaybeSendRDMRequest] leaves alone. *)
Lemma MaybeSendRDMRequest_frame w w' :
  MaybeSendRDMRequest w = Done w' →
  ∃ events,
    io w' = io w ++ events ∧ Forall request_frame events
    ∧ m_uid_count w' = m_uid_count w
    ∧ m_rdm_timeout_id w' = m_rdm_timeout_id w
    ∧ m_uid_index_map w' = m_uid_index_map w
    ∧ m_pending_requests w' = m_pending_requests w
    ∧ m_rdm_response w' = m_rdm_response w
    ∧ m_last_esta_id w' = m_last_esta_id w.
Proof.
  intros E.
  destruct (MaybeSendRDMRequest_cases w w' E)
    as [[-> _] | (_ & _ & _ & events & -> & _ & Hev)].
  - exists []. rewrite app_nil_r. by repeat split.
  - exists events. by repeat split.
Qed.

Lemma uid_fetches_app (events1 events2 : list (Event UID RDMResponse)) :
  uid_fetches (events1 ++ events2)
  = uid_fetches events1 ++ uid_fetches events2.
Proof. unfold uid_fetches. apply bind_app. Qed.

Lemma uid_sets_published_app (events1 events2 : list (Event UID RDMResponse)) :
  uid_sets_published (events1 ++ events2)
  = uid_sets_published events1 ++ uid_sets_published events2.
Proof. unfold uid_sets_published. apply bind_app. Qed.

Lemma responses_delivered_app (events1 events2 : list (Event UID RDMResponse)) :
  responses_delivered (events1 ++ events2)
  = responses_delivered events1 ++ responses_delivered events2.
Proof. unfold responses_delivered. apply bind_app. Qed.

Lemma request_frames_no_uid_fetches (events : list (Event UID RDMResponse)) :
  Forall request_frame events → uid_fetches events = [].
Proof.
  induction 1 as [|e events He _ IH]; [done|].
  change (e :: events) with ([e] ++ events).
  rewrite uid_fetches_app, IH, app_nil_r.
  by destruct e as [? [|? [|? [|? ?]]]| | | |].
Qed.

Lemma request_frames_no_uid_sets (events : list (Event UID RDMResponse)) :
  Forall request_frame events → uid_sets_published events = [].
Proof.
  induction 1 as [|e events He _ IH]; [done|].
  change (e :: events) with ([e] ++ events).
  rewrite uid_sets_published_app, IH, app_nil_r. by destruct e.
Qed.

Lemma request_frames_no_responses (events : list (Event UID RDMResponse)) :
  Forall request_frame events → responses_delivered events = [].
Proof.
  induction 1 as [|e events He _ IH]; [done|].
  change (e :: events) with ([e] ++ events).
  rewrite responses_delivered_app, IH, app_nil_r. by destruct e.
Qed.

Lemma uid_fetches_fetch_events indices :
  uid_fetches (fetch_events indices : list (Event UID RDMResponse))
  = indices.
Proof.
  induction indices as [|index indices IH]; [done|].
  change (fetch_events (index :: indices))
    with (fetch_events [index] ++ fetch_events indices
          : list (Event UID RDMResponse)).
  rewrite uid_fetches_app, IH. unfold uid_fetches, fetch_events. simpl.
  by rewrite decide_True.
Qed.

Lemma uid_sets_published_fetch_events indices :
  uid_sets_published (fetch_events indices : list (Event UID RDMResponse))
  = [].
Proof. by induction indices. Qed.

(** [m_uid_count--] on a [uint8_t] that is not 0. *)
Lemma uint8_decrement (n : N) :
  (n < 256)%N → n ≠ 0%N → ((n + 255) mod 256 = N.pred n)%N.
Proof.
  intros Hlt Hne. assert ((n + 255) = (n - 1) + 1 * 256)%N as -> by lia.
  rewrite N.Div0.mod_add. rewrite N.mod_small by lia. lia.
Qed.

(** One reply to a UID fetch, while fetches are outstanding: the UID is
    recorded or not, the counter goes down by one, and either the next
    UID is fetched or the UID set is published and dispatch resumes. *)
Lemma HandleRemoteUIDResponse_next return_code data w :
  m_uid_count w ≠ 0%N →
  ∃ m,
    HandleRemoteUIDResponse return_code data w
    = let w1 := set_uid_count ((m_uid_count w + 255) mod 256)%N
                  (set_uid_index_map m w) in
      if decide (m_uid_count w1 ≠ 0%N) then Done (FetchNextUID w1)
      else MaybeSendRDMRequest (SendUIDUpdate w1).
Proof.
  intros Hc. unfold HandleRemoteUIDResponse. rewrite decide_False by done.
  assert (Hid : set_uid_index_map (m_uid_index_map w) w = w)
    by by destruct w.
  destruct (decide (return_code = EC_NO_ERROR));
    [destruct (decide (length data < UID_SIZE))|].
  - exists (m_uid_index_map w). by rewrite Hid.
  - by eexists.
  - exists (m_uid_index_map w). by rewrite Hid.
Qed.

(** What the advance of dispatch sends depends on the discovery state,
    the filter cache and the UID map only. *)
Lemma advance_frames_eq w w' queue :
  m_rdm_timeout_id w' = m_rdm_timeout_id w →
  m_uid_count w' = m_uid_count w →
  m_last_esta_id w' = m_last_esta_id w →
  m_uid_index_map w' = m_uid_index_map w →
  advance_frames w' queue = advance_frames w queue.
Proof.
  intros Ht Hc He Hm. unfold advance_frames, InDiscoveryMode.
  by rewrite Ht, Hc, He, Hm.
Qed.

(** The counter goes down by one on every reply, whatever the reply. *)
Lemma HandleRemoteUIDResponse_count return_code data w :
  (m_uid_count w < 256)%N → Forall fits (m_pending_requests w) →
  ∃ w', HandleRemoteUIDResponse return_code data w = Done w'
        ∧ m_uid_count w' = N.pred (m_uid_count w)
        ∧ m_pending_requests w' = m_pending_requests w.
Proof.
  intros Hlt Hfits. destruct (decide (m_uid_count w = 0%N)) as [Hc|Hc].
  { exists w. unfold HandleRemoteUIDResponse. rewrite decide_True by done.
    by rewrite Hc. }
  destruct (HandleRemoteUIDResponse_next return_code data w Hc) as [m ->].
  pose proof (uint8_decrement _ Hlt Hc) as Hpred.
  simpl. case_decide as Hn.
  - eexists. split; [done|]. unfold FetchNextUID. simpl.
    by rewrite decide_False.
  - set (ws := SendUIDUpdate _).
    assert (Hws : m_uid_count ws = ((m_uid_count w + 255) mod 256)%N
                  ∧ m_pending_requests ws = m_pending_requests w).
    { subst ws. unfold SendUIDUpdate. simpl. by case_match. }
    destruct Hws as [Hcs Hqs].
    destruct (MaybeSendRDMRequest_defined ws) as [w' E];
      [by rewrite Hqs|].
    exists w'. split; [done|].
    apply MaybeSendRDMRequest_frame in E as (_ & _ & _ & -> & _ & _ & -> & _).
    by rewrite Hcs, Hqs.
Qed.

Lemma uid_replies_count replies : ∀ w,
  (m_uid_count w < 256)%N → Forall fits (m_pending_requests w) →
  ∃ w', uid_replies replies w = Done w'
        ∧ m_uid_count w' = (m_uid_count w - N.of_nat (length replies))%N.
Proof.
  induction replies as [|[return_code data] replies IH]; intros w Hlt Hfits.
  - exists w. split; [done|]. simpl. lia.
  - destruct (HandleRemoteUIDResponse_count return_code data w Hlt Hfits)
      as (w1 & E1 & Hc1 & Hq1).
    destruct (IH w1) as (w' & E & Hc); [lia | by rewrite Hq1 |].
    exists w'. simpl. rewrite E1. simpl. split; [done|]. lia.
Qed.

(** A run of as many replies as fetches are outstanding, with no timeout
    registered: the remaining fetches go out in descending order of
    index, then the UID set is published, and then dispatch is advanced
    unless a request is in flight. *)
Lemma uid_replies_run replies : ∀ w,
  replies ≠ [] → m_uid_count w = N.of_nat (length replies) →
  length replies < 256 →
  m_rdm_timeout_id w = INVALID_TIMEOUT →
  Forall fits (m_pending_requests w) →
  ∃ w2,
    uid_replies replies w = Done w2
    ∧ m_uid_count w2 = 0%N
    ∧ m_rdm_timeout_id w2 = INVALID_TIMEOUT
    ∧ m_pending_requests w2 = m_pending_requests w
    ∧ m_rdm_request_pending w2
      = m_rdm_request_pending w || bool_decide (m_pending_requests w ≠ [])
    ∧ io w2
      = io w ++ fetch_events (countdown (length replies - 1))
        ++ (if m_uid_set_callback w
            then [RunUIDSetCallback (dom (m_uid_index_map w2))] else [])
        ++ (if m_rdm_request_pending w then []
            else advance_frames w2 (m_pending_requests w)).
Proof.
  induction replies as [|[return_code data] replies IH];
    intros w Hne Hc Hlt Ht Hfits; [done|].
  simpl in Hc, Hlt.
  destruct (HandleRemoteUIDResponse_next return_code data w) as [m E];
    [lia|].
  simpl. rewrite E. clear E.
  assert (Hpred : ((m_uid_count w + 255) mod 256
                   = N.of_nat (length replies))%N)
    by (rewrite uint8_decrement; lia).
  cbn zeta. change (m_uid_count (set_uid_count ?v _)) with v.
  rewrite Hpred. destruct replies as [|reply replies].
  - rewrite decide_False by (simpl; lia). simpl.
    set (wp := set_uid_count _ _). set (ws := SendUIDUpdate wp).
    assert (Hws : m_uid_count ws = 0%N ∧ m_rdm_timeout_id ws = None
                  ∧ m_pending_requests ws = m_pending_requests w
                  ∧ m_rdm_request_pending ws = m_rdm_request_pending w
                  ∧ m_uid_index_map ws = m
                  ∧ io ws
                    = io w ++ (if m_uid_set_callback w
                               then [RunUIDSetCallback (dom m)] else [])).
    { subst ws wp. unfold SendUIDUpdate. simpl.
      destruct (m_uid_set_callback w); simpl; rewrite ?app_nil_r;
        by repeat split. }
    destruct Hws as (Hcs & Hts & Hqs & Hps & Hms & Hios).
    assert (Hds : InDiscoveryMode ws = false).
    { unfold InDiscoveryMode. by rewrite Hcs, Hts. }
    clearbody ws. destruct (m_rdm_request_pending w) eqn:Hp.
    + rewrite MaybeSendRDMRequest_noop by auto.
      exists ws. rewrite Hms, Hios, Hps. simpl.
      by rewrite app_nil_r.
    + rewrite MaybeSendRDMRequest_advance;
        [|done | intros request rest Hq; rewrite Hqs in Hq;
                 rewrite Hq in Hfits;
                 by apply Forall_cons in Hfits as [? _]].
      eexists. split; [done|]. simpl.
      rewrite Hds, Hqs, Hms, Hios, Hcs, Hts. simpl.
      repeat split; try done.
      by rewrite <- app_assoc.
  - rewrite decide_True by (simpl; lia).
    set (w1 := FetchNextUID _).
    assert (Hw1 : w1 = emit (SendMessage EXTENDED_COMMAND_LABEL
                               [REMOTE_UID_COMMAND_ID;
                                N.of_nat (length (reply :: replies))])
                         (set_uid_count (N.of_nat (length (reply :: replies)))
                            (set_uid_index_map m w))).
    { subst w1. unfold FetchNextUID.
      change (m_uid_count (set_uid_count ?v _)) with v.
      rewrite decide_False by (simpl; lia). done. }
    clearbody w1.
    destruct (IH w1) as (w2 & E & H0 & Ht2 & Hq & Hp & Hio);
      [done | by rewrite Hw1 | simpl in *; lia | by rewrite Hw1
       | by rewrite Hw1 |].
    exists w2.
    change ((w0 ← Done w1; uid_replies (reply :: replies) w0))
      with (uid_replies (reply :: replies) w1).
    rewrite Hw1 in Hio, Hq, Hp. simpl in Hio, Hq, Hp.
    repeat split; try done.
    rewrite Hio, <- !app_assoc. f_equal. simpl. by rewrite Nat.sub_0_r.
Qed.

(** C2, at the input where the code fails it. A discovery-status reply
    that continues the discovery (return code [EC_NO_ERROR] or
    [EC_RESPONSE_UNEXPECTED]) and reports [not_done = 0] with
    [device_count = count] cancels the polling timer, clears the
    UID-to-index map and sets the counter to [count]. Then, over any
    [count] replies to UID fetches, whatever their return codes and
    payloads, the counter goes down by one on every reply and the calls
    made are exactly these: the timeout removed, the [count] UID-fetch
    commands for the indices [count] down to 1, and, for [count] other
    than 0, the UID set to the UID-list callback and the frames of the
    advance of dispatch to the head of the queue. For [count = 0] the
    counter is 0 at once, and neither is the UID set published nor
    dispatch resumed: a request queued during the discovery stays unsent
    on an idle widget. The requests queued are taken to fit a frame. *)
Theorem discovery_fetches_every_uid return_code count rest replies w :
  discovery_continues return_code = true →
  (count < 256)%N →
  length replies = N.to_nat count →
  Forall fits (m_pending_requests w) →
  ∃ w1 w2,
    HandleDiscoverStatResponse return_code (count :: 0%N :: rest) w
    = Done w1
    ∧ m_rdm_timeout_id w1 = INVALID_TIMEOUT
    ∧ m_uid_index_map w1 = ∅
    ∧ m_uid_count w1 = count
    ∧ (∀ k, k ≤ length replies →
        ∃ wk, uid_replies (take k replies) w1 = Done wk
              ∧ m_uid_count wk = (count - N.of_nat k)%N)
    ∧ uid_replies replies w1 = Done w2
    ∧ InDiscoveryMode w2 = false
    ∧ m_pending_requests w2 = m_pending_requests w
    ∧ io w2
      = io w ++ timeout_removed w
        ++ fetch_events (countdown (N.to_nat count))
        ++ (if decide (count = 0%N) then []
            else (if m_uid_set_callback w
                  then [RunUIDSetCallback (dom (m_uid_index_map w2))]
                  else [])
                 ++ (if m_rdm_request_pending w then []
                     else advance_frames w2 (m_pending_requests w)))
    ∧ m_rdm_request_pending w2
      = (if decide (count = 0%N) then m_rdm_request_pending w
         else m_rdm_request_pending w
              || bool_decide (m_pending_requests w ≠ [])).
Proof.
  intros Hcont Hlt Hlen Hfits. unfold HandleDiscoverStatResponse.
  rewrite Hcont. rewrite decide_False by (simpl; lia). simpl.
  set (w0 := set_uid_index_map ∅ (set_uid_count count (StopDiscovery w))).
  assert (Hw0 : io w0 = io w ++ timeout_removed w
                ∧ m_rdm_timeout_id w0 = None
                ∧ m_pending_requests w0 = m_pending_requests w
                ∧ m_rdm_request_pending w0 = m_rdm_request_pending w
                ∧ m_uid_set_callback w0 = m_uid_set_callback w
                ∧ m_uid_count w0 = count ∧ m_uid_index_map w0 = ∅).
  { subst w0. unfold StopDiscovery, timeout_removed.
    destruct (m_rdm_timeout_id w) eqn:E; simpl; rewrite ?app_nil_r;
      by repeat split. }
  destruct Hw0 as (Hio0 & Ht0 & Hq0 & Hp0 & Hcb0 & Hc0 & Hm0).
  clearbody w0.
  set (w1 := if decide (count ≠ 0%N) then FetchNextUID w0 else w0).
  assert (Hw1 : m_uid_count w1 = count ∧ m_rdm_timeout_id w1 = None
                ∧ m_uid_index_map w1 = ∅
                ∧ m_pending_requests w1 = m_pending_requests w
                ∧ m_rdm_request_pending w1 = m_rdm_request_pending w
                ∧ m_uid_set_callback w1 = m_uid_set_callback w
                ∧ io w1 = io w ++ timeout_removed w
                            ++ fetch_events
                                 (if decide (count = 0%N) then []
                                  else [count])).
  { subst w1. unfold FetchNextUID. rewrite Hc0.
    destruct (decide (count = 0%N)) as [->|Hc].
    - rewrite decide_False by (intros ?; done).
      repeat split; try done. simpl. by rewrite app_nil_r.
    - rewrite decide_True by done. simpl.
      repeat split; try done. by rewrite Hio0, <- app_assoc. }
  clearbody w1.
  destruct Hw1 as (Hc1 & Ht1 & Hm1 & Hq1 & Hp1 & Hcb1 & Hio1).
  assert (Hcounts : ∀ k, k ≤ length replies →
            ∃ wk, uid_replies (take k replies) w1 = Done wk
                  ∧ m_uid_count wk = (count - N.of_nat k)%N).
  { intros k Hk.
    destruct (uid_replies_count (take k replies) w1) as (wk & E & Hwk);
      [lia | by rewrite Hq1 |].
    exists wk. split; [done|]. rewrite Hwk, Hc1, length_take. f_equal. lia. }
  destruct (decide (count = 0%N)) as [->|Hc].
  - destruct replies; [|done]. exists w1, w1.
    repeat split; try done.
    unfold InDiscoveryMode. by rewrite Ht1, Hc1.
  - destruct (uid_replies_run replies w1)
      as (w2 & E & Hc2 & Ht2 & Hq2 & Hp2 & Hio2);
      [intros ->; simpl in Hlen; lia | lia | lia | done
       | by rewrite Hq1 |].
    exists w1, w2. repeat split; try done.
    + unfold InDiscoveryMode. by rewrite Ht2, Hc2.
    + by rewrite Hq2.
    + rewrite Hio2, Hio1, Hcb1, Hp1, Hq1, <- !app_assoc.
      do 2 f_equal.
      replace (N.to_nat count) with (S (length replies - 1)) by lia.
      cbn [countdown]. simpl.
      by replace (N.of_nat (S (length replies - 1))) with count by lia.
    + by rewrite Hp2, Hp1, Hq1.
Qed.

(** ** Replies to dispatch frames *)

(** Retiring the head request: it is popped, the flag is cleared and
    dispatch is advanced; nothing is delivered. *)
Lemma retire_cons w request rest :
  m_pending_requests w = request :: rest →
  retire w
  = MaybeSendRDMRequest
      (set_rdm_request_pending false (set_pending_requests rest w)).
Proof. intros Hq. unfold retire. by rewrite (pop_cons _ _ _ Hq). Qed.

Lemma InDiscoveryMode_eq w w' :
  m_rdm_timeout_id w' = m_rdm_timeout_id w →
  m_uid_count w' = m_uid_count w →
  InDiscoveryMode w' = InDiscoveryMode w.
Proof. unfold InDiscoveryMode. by intros -> ->. Qed.

(** After [MaybeSendRDMRequest] on a clear flag, the flag is set exactly
    when discovery is idle and a request is queued. *)
Lemma MaybeSendRDMRequest_pending w w' :
  m_rdm_request_pending w = false →
  MaybeSendRDMRequest w = Done w' →
  m_rdm_request_pending w'
  = negb (InDiscoveryMode w) && bool_decide (m_pending_requests w ≠ []).
Proof.
  intros Hp E.
  destruct (MaybeSendRDMRequest_cases w w' E)
    as [[-> [Hd | [Hq | Hp']]] | (Hd & Hq & _ & events & -> & _)].
  - by rewrite Hp, Hd.
  - rewrite Hp, Hq. rewrite bool_decide_eq_false_2 by auto.
    by rewrite andb_false_r.
  - congruence.
  - simpl. by rewrite Hd, bool_decide_eq_true_2.
Qed.

(** Retiring the head request when the next one fits: the head is popped,
    the flag is set again exactly when discovery is idle and a request is
    left, and what the advance to that request sends has gone out. *)
Lemma retire_advance w request rest :
  m_pending_requests w = request :: rest → Forall fits rest →
  retire w
  = Done (append_io (advance_frames w rest)
            (set_rdm_request_pending
               (negb (InDiscoveryMode w) && bool_decide (rest ≠ []))
               (set_pending_requests rest w))).
Proof.
  intros Hq Hfits. rewrite (retire_cons _ _ _ Hq).
  rewrite MaybeSendRDMRequest_advance; [done..|].
  simpl. intros next rest' ->. by apply Forall_cons in Hfits as [? _].
Qed.

(** The frames of a request, case by case. *)
Lemma request_frames_plain map request index :
  CommandClass request = SET_COMMAND
  ∨ (CommandClass request = GET_COMMAND
     ∧ ParamId request ≠ PID_QUEUED_MESSAGE) →
  (if IsBroadcast (DestinationUID request) then Some 0%N
   else map !! DestinationUID request) = Some index →
  request_frames map request
  = [request_bytes
       (if decide (CommandClass request = GET_COMMAND)
        then REMOTE_GET_COMMAND_ID else REMOTE_SET_COMMAND_ID)
       index request].
Proof.
  intros Hclass Hi. unfold request_frames. rewrite Hi.
  destruct Hclass as [Hc | [Hc Hp]]; rewrite Hc.
  - by rewrite decide_False by (by intros [_ ?]).
  - by rewrite decide_False by (by intros [? _]).
Qed.




(** The NACK branch with a response callback registered: the reassembly
    buffer is discarded, the NACK built for the mapped reason is handed
    to the callback, and the request is retired. *)
Lemma HandleRemoteRDMResponse_nack return_code data w request rest :
  m_pending_requests w = request :: rest →
  return_code ∉ [EC_NO_ERROR; EC_RESPONSE_WAIT; EC_RESPONSE_MORE] →
  (EC_UNKNOWN_PID ≤ return_code ≤ EC_SUBDEVICE_UNKNOWN)%N →
  m_rdm_response_callback w = true →
  HandleRemoteRDMResponse return_code data w
  = MaybeSendRDMRequest
      (set_rdm_request_pending false
         (set_pending_requests rest
            (emit (RunRDMResponseCallback
                     (NackWithReason request (nack_reason return_code)))
               (set_rdm_response None w)))).
Proof.
  intros Hq Hrc Hrange Hcb. unfold HandleRemoteRDMResponse.
  rewrite (front_cons _ _ _ Hq). simpl.
  rewrite !not_elem_of_cons in Hrc.
  destruct (decide (_ ∨ _ ∨ _)) as [Hn|_]; [intuition congruence|].
  destruct (decide (_ ∧ _)) as [_|Hn]; [|done]. simpl. rewrite Hcb.
  by rewrite (retire_cons _ request rest).
Qed.

(** The code-to-reason table of the NACK branch. *)
Lemma nack_reason_table :
  NoDup nack_codes →
  nack_reason <$> nack_codes
  = [ NR_UNKNOWN_PID; NR_FORMAT_ERROR; NR_HARDWARE_FAULT; NR_PROXY_REJECT;
      NR_WRITE_PROTECT; NR_UNSUPPORTED_COMMAND_CLASS; NR_DATA_OUT_OF_RANGE;
      NR_BUFFER_FULL; NR_PACKET_SIZE_UNSUPPORTED;
      NR_SUB_DEVICE_OUT_OF_RANGE ].
Proof.
  unfold nack_codes. rewrite !NoDup_cons, !not_elem_of_cons.
  intros Hnd. simpl. unfold nack_reason.
  repeat f_equal.
  all: repeat case_decide; (done || intuition congruence).
Qed.

(** C5, at the input where the code fails it. A reply in the NACK range
    maps to its reason by the table, and with a response callback
    registered the NACK is delivered and the request retired; with no
    response callback registered, the same reply runs the NULL callback
    pointer, which is undefined behaviour. *)
Theorem HandleRemoteRDMResponse_nack_null_callback
    return_code data w request rest :
  NoDup nack_codes →
  m_pending_requests w = request :: rest →
  return_code ∉ [EC_NO_ERROR; EC_RESPONSE_WAIT; EC_RESPONSE_MORE] →
  (EC_UNKNOWN_PID ≤ return_code ≤ EC_SUBDEVICE_UNKNOWN)%N →
  nack_reason <$> nack_codes
  = [ NR_UNKNOWN_PID; NR_FORMAT_ERROR; NR_HARDWARE_FAULT; NR_PROXY_REJECT;
      NR_WRITE_PROTECT; NR_UNSUPPORTED_COMMAND_CLASS; NR_DATA_OUT_OF_RANGE;
      NR_BUFFER_FULL; NR_PACKET_SIZE_UNSUPPORTED;
      NR_SUB_DEVICE_OUT_OF_RANGE ]
  ∧ (m_rdm_response_callback w = false →
     HandleRemoteRDMResponse return_code data w = Undefined NullCallback).
Proof.
  intros Hnd Hq Hrc Hrange. split; [by apply nack_reason_table|].
  intros Hcb. unfold HandleRemoteRDMResponse.
  rewrite (front_cons _ _ _ Hq). simpl.
  rewrite !not_elem_of_cons in Hrc.
  destruct (decide (_ ∨ _ ∨ _)) as [Hn|_]; [intuition congruence|].
  destruct (decide (_ ∧ _)) as [_|Hn]; [|done]. simpl. by rewrite Hcb.
Qed.


(** ** Frames the widget is not waiting for *)

(** The frame decoder ignores a frame shorter than its header. *)
Lemma HandleMessage_short label data w :
  length data < DATA_OFFSET → HandleMessage label data w = Done w.
Proof.
  intros Hlen. unfold HandleMessage. case_decide; [|done].
  by rewrite decide_True.
Qed.

(** C7, at the input where the code fails it. A frame shorter than the
    2-byte header is rejected and changes nothing; but a discovery-status
    reply with a payload of one byte passes the guard [length < 1] of its
    handler, which then reads the flag at payload index 1, one byte past
    the end of the frame. *)
Theorem HandleDiscoverStatResponse_reads_past_end :
  DISCOVER_STATUS_COMMAND_ID ≠ DISCOVER_AUTO_COMMAND_ID →
  (∀ label data w,
     length data < 2 → HandleMessage label data w = Done w)
  ∧ (∀ count w,
       HandleMessage EXTENDED_COMMAND_LABEL
         [DISCOVER_STATUS_COMMAND_ID; EC_NO_ERROR; count] w
       = Undefined ReadPastEnd).
Proof.
  intros Hne. split; [apply HandleMessage_short|].
  intros count w. unfold HandleMessage. rewrite decide_True by done.
  rewrite decide_False by (simpl; unfold DATA_OFFSET; lia). simpl.
  rewrite decide_False by done. rewrite decide_True by done.
  unfold HandleDiscoverStatResponse, discovery_continues.
  rewrite decide_True by done. by rewrite decide_False by (simpl; lia).
Qed.

(** C8, at the input where the code fails it. Both reply handlers take
    the front of the queue at once, and [HandleMessage] calls them for
    every REMOTE_GET, REMOTE_SET or SET_FILTER reply frame, whatever the
    state: on a widget whose queue is empty, such as one just
    constructed, the frame makes the handler call [front()] on an empty
    queue. *)
Theorem reply_without_request_undefined command_id return_code data w :
  NoDup command_ids →
  command_id ∈ [ REMOTE_GET_COMMAND_ID; REMOTE_SET_COMMAND_ID;
                 SET_FILTER_COMMAND_ID ] →
  m_pending_requests w = [] →
  HandleMessage EXTENDED_COMMAND_LABEL (command_id :: return_code :: data) w
  = Undefined EmptyQueueFront.
Proof.
  intros Hnd Hin Hq.
  unfold HandleMessage. rewrite decide_True by done.
  destruct (decide (length _ < DATA_OFFSET)) as [Hlen|_];
    [unfold DATA_OFFSET in Hlen; simpl in Hlen; clear -Hlen; lia|].
  rewrite read_0, read_1.
  change (drop DATA_OFFSET (command_id :: return_code :: data)) with data.
  cbn [mbind Outcome_bind].
  unfold command_ids in Hnd. rewrite !NoDup_cons, !not_elem_of_cons in Hnd.
  assert (Hrdm : HandleRemoteRDMResponse return_code data w
                 = Undefined EmptyQueueFront).
  { unfold HandleRemoteRDMResponse. by rewrite (front_empty _ Hq). }
  assert (Hfilter : HandleSetFilterResponse return_code data w
                    = Undefined EmptyQueueFront).
  { unfold HandleSetFilterResponse. rewrite (front_empty _ Hq).
    by case_decide. }
  rewrite !elem_of_cons in Hin.
  destruct Hin as [-> | [-> | [-> | Hin]]].
  - rewrite !decide_False by intuition congruence.
    by rewrite decide_True.
  - rewrite !decide_False by intuition congruence.
    by rewrite decide_True.
  - rewrite !decide_False by intuition congruence.
    by rewrite decide_True.
  - by apply not_elem_of_nil in Hin.
Qed.

End WidgetProperties.


(** * The sample build: the theorems at concrete inputs *)

Section SampleChecks.
#[local] Existing Instance sample_codes.
#[local] Existing Instance sample_rdm.

Lemma sample_command_ids_NoDup : NoDup (command_ids (H := sample_codes)).
Proof. apply (bool_decide_unpack _). vm_compute. exact I. Defined.

Lemma sample_nack_codes_NoDup : NoDup (nack_codes (H := sample_codes)).
Proof. apply (bool_decide_unpack _). vm_compute. exact I. Defined.

(** A run that is defined ends in the state [sample_after] names. *)
Lemma sample_run_state ops :
  (if sample_run ops sample_new is Done _ then true else false) = true →
  sample_run ops sample_new = Done (sample_after ops).
Proof. by destruct (sample_run ops sample_new). Defined.

Lemma one_request_in_flight_witness :
  NoDup (command_ids (H := sample_codes))
  ∧ MaybeSendRDMRequest sample_new = Done sample_new
  ∧ dispatched
      (io (sample_after (sample_get_sent ++ [OpHandleRDMRequest sample_get])))
    ≤ dispatch_replies (sample_get_sent ++ [OpHandleRDMRequest sample_get])
      + (if m_rdm_request_pending
              (sample_after
                 (sample_get_sent ++ [OpHandleRDMRequest sample_get]))
         then 1 else 0).
Proof.
  pose proof (one_request_in_flight sample_command_ids_NoDup)
    as (Hnoop & _ & Hrun).
  split; [exact sample_command_ids_NoDup|]. split.
  - apply Hnoop. right. left. reflexivity.
  - apply (Hrun (sample_get_sent ++ [OpHandleRDMRequest sample_get])
             (sample_after
                (sample_get_sent ++ [OpHandleRDMRequest sample_get]))).
    apply sample_run_state. vm_compute. reflexivity.
Defined.

Lemma discovery_fetches_every_uid_witness :
  discovery_continues EC_NO_ERROR = true
  ∧ (0 < 256)%N
  ∧ length ([] : list (N * list N)) = N.to_nat 0
  ∧ Forall fits (m_pending_requests (sample_after sample_discovery_with_request))
  ∧ ∃ w1 w2,
      HandleDiscoverStatResponse EC_NO_ERROR [0; 0]%N (sample_after sample_discovery_with_request) = Done w1
      ∧ uid_replies [] w1 = Done w2
      ∧ InDiscoveryMode w2 = false
      ∧ m_pending_requests w2 = m_pending_requests (sample_after sample_discovery_with_request)
      ∧ io w2
        = io (sample_after sample_discovery_with_request) ++ timeout_removed (sample_after sample_discovery_with_request)
          ++ fetch_events (countdown (N.to_nat 0))
          ++ (if decide (0%N = 0%N) then []
              else (if m_uid_set_callback (sample_after sample_discovery_with_request)
                    then [RunUIDSetCallback (dom (m_uid_index_map w2))]
                    else [])
                   ++ (if m_rdm_request_pending (sample_after sample_discovery_with_request) then []
                       else advance_frames w2 (m_pending_requests (sample_after sample_discovery_with_request))))
      ∧ m_rdm_request_pending w2
        = (if decide (0%N = 0%N) then m_rdm_request_pending (sample_after sample_discovery_with_request)
           else m_rdm_request_pending (sample_after sample_discovery_with_request)
                || bool_decide (m_pending_requests (sample_after sample_discovery_with_request) ≠ [])).
Proof.
  assert (H1 : discovery_continues EC_NO_ERROR = true) by reflexivity.
  assert (H2 : (0 < 256)%N) by reflexivity.
  assert (H3 : length ([] : list (N * list N)) = N.to_nat 0) by reflexivity.
  assert (H4 : Forall fits (m_pending_requests (sample_after sample_discovery_with_request))).
  { apply (bool_decide_unpack _). vm_compute. exact I. }
  split; [exact H1|]. split; [exact H2|]. split; [exact H3|].
  split; [exact H4|].
  destruct (discovery_fetches_every_uid EC_NO_ERROR 0 [] [] (sample_after sample_discovery_with_request) H1 H2 H3 H4)
    as (w1 & w2 & E1 & _ & _ & _ & _ & E2 & Hd & Hq & Hio & Hp).
  exists w1, w2.
  split; [exact E1|]. split; [exact E2|]. split; [exact Hd|].
  split; [exact Hq|]. split; [exact Hio | exact Hp].
Defined.

(** The failing input of C2 from the construction of the widget: a UID-list
    callback is registered, a discovery runs, the broadcast SET arrives
    and is queued, and the status reply reports no device. The widget is
    idle again with the request queued; the UID-list callback has not
    been run and no frame of a dispatch has been sent. *)
Lemma discovery_without_devices_from_construction :
  sample_run
    (sample_discovery_with_request ++ [OpHandleMessage 88 [0x34; 0; 0; 0]%N])
    sample_new
  = Done
      (sample_after
         (sample_discovery_with_request
          ++ [OpHandleMessage 88 [0x34; 0; 0; 0]%N]))
  ∧ m_uid_set_callback
      (sample_after
         (sample_discovery_with_request
          ++ [OpHandleMessage 88 [0x34; 0; 0; 0]%N])) = true
  ∧ InDiscoveryMode
      (sample_after
         (sample_discovery_with_request
          ++ [OpHandleMessage 88 [0x34; 0; 0; 0]%N])) = false
  ∧ m_pending_requests
      (sample_after
         (sample_discovery_with_request
          ++ [OpHandleMessage 88 [0x34; 0; 0; 0]%N])) = [sample_broadcast]
  ∧ m_rdm_request_pending
      (sample_after
         (sample_discovery_with_request
          ++ [OpHandleMessage 88 [0x34; 0; 0; 0]%N])) = false
  ∧ uid_sets_published
      (io (sample_after
             (sample_discovery_with_request
              ++ [OpHandleMessage 88 [0x34; 0; 0; 0]%N]))) = []
  ∧ dispatched
      (io (sample_after
             (sample_discovery_with_request
              ++ [OpHandleMessage 88 [0x34; 0; 0; 0]%N]))) = 0.
Proof. vm_compute. by repeat split. Qed.

Lemma HandleRDMRequest_unknown_destination_witness :
  IsBroadcast (DestinationUID sample_get) = false
  ∧ HandleRDMRequest sample_get sample_new = Done (false, sample_new)
  ∧ HandleRDMRequest sample_get
      (sample_after [OpRunRDMDiscovery true (Some 7%N)])
    = Done (true,
            set_pending_requests
              (m_pending_requests
                 (sample_after [OpRunRDMDiscovery true (Some 7%N)])
               ++ [sample_get])
              (sample_after [OpRunRDMDiscovery true (Some 7%N)])).
Proof.
  assert (Hb : IsBroadcast (DestinationUID sample_get) = false)
    by reflexivity.
  split; [exact Hb|]. split.
  - apply (HandleRDMRequest_unknown_destination sample_get sample_new Hb);
      reflexivity.
  - apply (HandleRDMRequest_unknown_destination sample_get
             (sample_after [OpRunRDMDiscovery true (Some 7%N)]) Hb).
    reflexivity.
Defined.



Lemma HandleRemoteRDMResponse_nack_null_callback_witness :
  NoDup (nack_codes (H := sample_codes))
  ∧ m_pending_requests (sample_after sample_get_sent) = [sample_get]
  ∧ (0x26%N ∉ [EC_NO_ERROR; EC_RESPONSE_WAIT; EC_RESPONSE_MORE])
  ∧ (EC_UNKNOWN_PID ≤ 0x26 ≤ EC_SUBDEVICE_UNKNOWN)%N
  ∧ m_rdm_response_callback (sample_after sample_get_sent) = false
  ∧ HandleRemoteRDMResponse 0x26 [] (sample_after sample_get_sent)
    = Undefined NullCallback.
Proof.
  assert (Hq : m_pending_requests (sample_after sample_get_sent)
               = [sample_get]) by (vm_compute; reflexivity).
  assert (Hrc : 0x26%N ∉ [EC_NO_ERROR; EC_RESPONSE_WAIT; EC_RESPONSE_MORE]).
  { apply (bool_decide_unpack _). vm_compute. exact I. }
  assert (Hrange : (EC_UNKNOWN_PID ≤ 0x26 ≤ EC_SUBDEVICE_UNKNOWN)%N).
  { split; discriminate. }
  assert (Hcb : m_rdm_response_callback (sample_after sample_get_sent)
                = false) by (vm_compute; reflexivity).
  split; [exact sample_nack_codes_NoDup|]. split; [exact Hq|].
  split; [exact Hrc|]. split; [exact Hrange|]. split; [exact Hcb|].
  destruct (HandleRemoteRDMResponse_nack_null_callback 0x26 []
              (sample_after sample_get_sent) sample_get []
              sample_nack_codes_NoDup Hq Hrc Hrange) as [_ Hnull].
  exact (Hnull Hcb).
Defined.

(** The same from the construction of the widget: a discovery, a request,
    and the device's NACK. *)
Lemma nack_without_callback_from_construction :
  sample_run (sample_get_sent ++ [OpHandleMessage 88 [0x38; 0x26]%N])
    sample_new
  = Undefined NullCallback.
Proof. vm_compute. reflexivity. Qed.



Lemma HandleDiscoverStatResponse_reads_past_end_witness :
  DISCOVER_STATUS_COMMAND_ID ≠ DISCOVER_AUTO_COMMAND_ID
  ∧ HandleMessage 88 [0x34%N] sample_new = Done sample_new
  ∧ HandleMessage 88 [0x34; 0; 3]%N sample_new = Undefined ReadPastEnd.
Proof.
  assert (Hne : DISCOVER_STATUS_COMMAND_ID ≠ DISCOVER_AUTO_COMMAND_ID)
    by discriminate.
  destruct (HandleDiscoverStatResponse_reads_past_end
              (UID := N * N) (RDMResponse := SampleResponse) Hne)
    as [Hshort Hpast].
  split; [exact Hne|]. split.
  - apply Hshort. simpl. lia.
  - apply (Hpast 3%N sample_new).
Defined.

Lemma reply_without_request_undefined_witness :
  NoDup (command_ids (H := sample_codes))
  ∧ 0x38%N ∈ [ REMOTE_GET_COMMAND_ID; REMOTE_SET_COMMAND_ID;
               SET_FILTER_COMMAND_ID ]
  ∧ m_pending_requests sample_new = []
  ∧ HandleMessage 88 [0x38; 0]%N sample_new = Undefined EmptyQueueFront.
Proof.
  assert (Hin : 0x38%N ∈ [ REMOTE_GET_COMMAND_ID; REMOTE_SET_COMMAND_ID;
                           SET_FILTER_COMMAND_ID ]).
  { apply (bool_decide_unpack _). vm_compute. exact I. }
  split; [exact sample_command_ids_NoDup|]. split; [exact Hin|].
  split; [reflexivity|].
  apply (reply_without_request_undefined 0x38 0 [] sample_new
           sample_command_ids_NoDup Hin eq_refl).
Defined.

End SampleChecks.

(** * Properties of the DMX buffer *)

(** The model passes the two test functions of [DmxBufferTest.cpp] that
    concern it. *)
Lemma testSetRange_passes : testSetRange = true.
Proof. vm_compute. reflexivity. Qed.

Lemma testStringToDmx_passes : testStringToDmx SetFromString = true.
Proof. vm_compute. reflexivity. Qed.

(** With a clamp to 255 in place of the truncation the test fails, on its
    sixth vector. *)
Lemma testStringToDmx_rejects_clamp :
  testStringToDmx SetFromString_clamped = false.
Proof. vm_compute. reflexivity. Qed.

(** Whatever the implementation, one that yields 255 for the token 266
    of the sixth vector fails [testStringToDmx]. *)
Lemma clamp_fails_testStringToDmx
    (set_from_string : string → DmxBuffer → bool * DmxBuffer) :
  Get (set_from_string " 266,,,10  " DmxBuffer_new).2 !! 0 = Some 255%N →
  testStringToDmx set_from_string = false.
Proof.
  intros Hclamp. unfold testStringToDmx, testStringToDmx_vectors.
  cbn [forallb fst snd]. unfold runStringToDmx_with at 6.
  destruct (set_from_string " 266,,,10  " DmxBuffer_new) as [ok buffer].
  simpl in Hclamp.
  assert (DmxBuffer_eqb buffer (DmxBuffer_of [10; 0; 0; 10]%N) = false)
    as ->.
  { unfold DmxBuffer_eqb. apply bool_decide_eq_false_2. intros Heq.
    rewrite Heq in Hclamp. vm_compute in Hclamp. discriminate. }
  by rewrite !andb_false_r.
Qed.

Lemma list_ascii_of_string_app (s1 s2 : string) :
  list_ascii_of_string (s1 +:+ s2)
  = list_ascii_of_string s1 ++ list_ascii_of_string s2.
Proof. induction s1 as [|c s1 IH]; [done|]. simpl. by rewrite <- IH. Qed.

Lemma trim_left_blank_app pre s : blank pre → trim_left (pre ++ s) = trim_left s.
Proof. induction 1 as [|c pre Hc _ IH]; [done|]. simpl. by rewrite Hc. Qed.

Lemma trim_left_blank s : blank s → trim_left s = [].
Proof.
  intros Hs. rewrite <- (app_nil_r s). by rewrite trim_left_blank_app.
Qed.

Lemma trim_left_nil_blank s : trim_left s = [] → blank s.
Proof.
  induction s as [|c s IH]; [constructor|]. simpl.
  destruct (Ascii.is_space c) eqn:Hc; [|done].
  intros Hs. constructor; [done | by apply IH].
Qed.

Lemma trim_left_app s t :
  trim_left s ≠ [] → trim_left (s ++ t) = trim_left s ++ t.
Proof.
  induction s as [|c s IH]; [done|]. simpl.
  destruct (Ascii.is_space c); [apply IH | done].
Qed.

Lemma blank_reverse s : blank s → blank (reverse s).
Proof. unfold blank. by rewrite Forall_reverse. Qed.

(** White space around a text does not survive [trim]. *)
Lemma trim_pad pre s post :
  blank pre → blank post → trim (pre ++ s ++ post) = trim s.
Proof.
  intros Hpre Hpost. unfold trim. rewrite trim_left_blank_app by done.
  destruct (decide (trim_left s = [])) as [Hs|Hs].
  - rewrite Hs. apply trim_left_nil_blank in Hs.
    rewrite (trim_left_blank (s ++ post)); [done|]. unfold blank in *.
    by apply Forall_app.
  - rewrite trim_left_app by done. rewrite reverse_app.
    by rewrite trim_left_blank_app by by apply blank_reverse.
Qed.

Lemma tokens_pad (pre text post : string) :
  blank (list_ascii_of_string pre) →
  blank (list_ascii_of_string post) →
  tokens (pre +:+ text +:+ post) = tokens text.
Proof.
  intros Hpre Hpost. unfold tokens.
  by rewrite !list_ascii_of_string_app, trim_pad.
Qed.

(** What [SetFromString] leaves in the buffer. *)
Lemma Get_SetFromString_with policy text b :
  Get (SetFromString_with policy text b).2
  = policy <$> take DMX_UNIVERSE_SIZE (tokens text).
Proof.
  unfold Get, SetFromString_with, storage, overwrite. simpl.
  by rewrite take_app_length.
Qed.

(** C9 as stated fails: the token 266 of the sixth test vector parses to
    a value above 255, and its slot holds 10, not 255. *)
Lemma SetFromString_does_not_clamp :
  ¬ (∀ text i token v,
       tokens text !! i = Some token →
       parse_decimal token = Some v →
       (255 < v)%N →
       Get (SetFromString text DmxBuffer_new).2 !! i = Some 255%N).
Proof.
  intros Hclaim.
  assert (Hslot : Get (SetFromString " 266,,,10  " DmxBuffer_new).2 !! 0
                  = Some 10%N) by (vm_compute; reflexivity).
  rewrite (Hclaim " 266,,,10  " 0 ["2"; "6"; "6"]%char 266%N) in Hslot;
    [discriminate | reflexivity..].
Qed.

(** C9, as the code has it. [SetFromString] always reports success. The
    slots are those of the first 512 comma-separated tokens of the text
    with the white space around it removed: a token that fails to parse
    (empty or not a decimal number) gives 0, a token that parses to [v]
    gives [v mod 256], so a value up to 255 is kept and a value above 255
    is truncated to its low byte. White space before and after the text
    changes nothing, and the empty text gives a buffer of length 0. *)
Theorem SetFromString_parses text b :
  (SetFromString text b).1 = true
  ∧ Size (SetFromString text b).2
    = length (tokens text) `min` DMX_UNIVERSE_SIZE
  ∧ (∀ i token,
       i < DMX_UNIVERSE_SIZE → tokens text !! i = Some token →
       Get (SetFromString text b).2 !! i
       = Some (match parse_decimal token with
               | Some v => (v mod 256)%N
               | None => 0%N
               end))
  ∧ (∀ pre post,
       blank (list_ascii_of_string pre) →
       blank (list_ascii_of_string post) →
       SetFromString (pre +:+ text +:+ post) b = SetFromString text b)
  ∧ Size (SetFromString "" b).2 = 0.
Proof.
  split; [done|]. split; [|split; [|split; [|done]]].
  - unfold SetFromString, SetFromString_with, Size. simpl.
    rewrite length_fmap, length_take. lia.
  - intros i token Hi Htoken. unfold SetFromString.
    rewrite Get_SetFromString_with, list_lookup_fmap, lookup_take_lt by done.
    by rewrite Htoken.
  - intros pre post Hpre Hpost. unfold SetFromString, SetFromString_with.
    by rewrite tokens_pad.
Qed.

(** C10. The very first [SetRange] on a buffer that has never held any
    data, starting at offset 0, succeeds and leaves [Size()] at the full
    capacity of 512 whatever the bytes written; a [SetRange] at offset 0
    after a [Reset()] of a buffer that holds data succeeds and leaves
    [Size()] at the span written, the number of bytes given, up to the
    capacity. *)
Theorem SetRange_at_offset_0 bytes :
  (SetRange 0 (Some bytes) DmxBuffer_new).1 = true
  ∧ Size (SetRange 0 (Some bytes) DmxBuffer_new).2 = DMX_UNIVERSE_SIZE
  ∧ (∀ store n,
       (SetRange 0 (Some bytes)
          (Reset {| buffer_data := Some store; valid_length := n |})).1
       = true
       ∧ Size (SetRange 0 (Some bytes)
                 (Reset {| buffer_data := Some store; valid_length := n |})).2
         = length bytes `min` DMX_UNIVERSE_SIZE).
Proof.
  split; [done|]. split.
  - unfold SetRange, Size. simpl.
    rewrite length_take. unfold DMX_UNIVERSE_SIZE. lia.
  - intros store n. split; [done|].
    unfold SetRange, Size, Reset. simpl.
    rewrite length_take. unfold DMX_UNIVERSE_SIZE. lia.
Qed.

(** Every buffer a write has succeeded on holds data, so the second part
    of C10 applies to it after a [Reset()]. *)
Lemma SetRange_holds_data offset bytes b :
  (SetRange offset bytes b).1 = true →
  is_Some (buffer_data (SetRange offset bytes b).2).
Proof.
  unfold SetRange. destruct bytes as [bytes|]; [|done].
  repeat case_decide; done.
Qed.

(** * Further properties of the widget *)

Section WidgetCoverage.
Context `{Countable UID} {RDMResponse : Type}.
Context {codes : TriCodes} {rdm : RDMLibrary UID RDMResponse}.
Implicit Types (w : Widget UID RDMResponse).
Implicit Types (request : RDMRequest UID).

(** ** The frames on the wire *)

(** The two bytes [HostToNetwork] lays out for a 16-bit value. *)
Lemma big_endian_bytes (x : N) :
  (x < 65536)%N →
  (N.shiftr x 8 mod 256 < 256)%N ∧ (N.land x 255 < 256)%N
  ∧ (N.shiftr x 8 mod 256 * 256 + N.land x 255 = x)%N.
Proof.
  intros Hx. rewrite N.shiftr_div_pow2.
  change 255%N with (N.ones 8). rewrite N.land_ones.
  change (2 ^ 8)%N with 256%N.
  assert (x / 256 < 256)%N by (apply N.Div0.div_lt_upper_bound; lia).
  rewrite (N.mod_small (x / 256)) by done.
  pose proof (N.mod_upper_bound x 256). pose proof (N.div_mod' x 256). lia.
Qed.

(** X1. The frame [DispatchNextRequest] sends for a SET, or for a GET of
    another parameter than the queued messages, whose parameter data fit:
    the command id, the device index, the sub-device and the parameter
    id each as two bytes with the high byte first, and then the
    parameter data, 6 + ParamDataSize bytes in all. The set-filter frame
    carries the manufacturer id in the same way. *)
Theorem request_frames_big_endian command index request rest w :
  m_pending_requests w = request :: rest →
  (CommandClass request = SET_COMMAND ∧ command = REMOTE_SET_COMMAND_ID)
  ∨ (CommandClass request = GET_COMMAND
     ∧ ParamId request ≠ PID_QUEUED_MESSAGE
     ∧ command = REMOTE_GET_COMMAND_ID) →
  (if IsBroadcast (DestinationUID request) then Some 0%N
   else m_uid_index_map w !! DestinationUID request) = Some index →
  fits request →
  (SubDevice request < 65536)%N → (ParamId request < 65536)%N →
  (∃ s1 s0 p1 p0,
     DispatchNextRequest w
     = Done (emit (SendMessage EXTENDED_COMMAND_LABEL
                     ([command; index; s1; s0; p1; p0]
                      ++ ParamData request)) w)
     ∧ (s1 < 256 ∧ s0 < 256 ∧ p1 < 256 ∧ p0 < 256)%N
     ∧ (s1 * 256 + s0)%N = SubDevice request
     ∧ (p1 * 256 + p0)%N = ParamId request
     ∧ length ([command; index; s1; s0; p1; p0] ++ ParamData request)
       = 6 + ParamDataSize request
     ∧ length ([command; index; s1; s0; p1; p0] ++ ParamData request)
       ≤ 6 + MAX_PARAM_DATA_LENGTH)
  ∧ ∀ esta_id,
      (esta_id < 65536)%N →
      ∃ e1 e0,
        SendSetFilter esta_id w
        = emit (SendMessage EXTENDED_COMMAND_LABEL
                  [SET_FILTER_COMMAND_ID; e1; e0]) w
        ∧ (e1 < 256 ∧ e0 < 256)%N ∧ (e1 * 256 + e0)%N = esta_id.
Proof.
  intros Hq Hclass Hi Hfits Hs Hp.
  destruct (big_endian_bytes _ Hs) as (? & ? & ?).
  destruct (big_endian_bytes _ Hp) as (? & ? & ?).
  split.
  - exists (N.modulo (N.shiftr (SubDevice request) 8) 256),
      (N.land (SubDevice request) 255),
      (N.modulo (N.shiftr (ParamId request) 8) 256),
      (N.land (ParamId request) 255).
    split; [|split; [by repeat split|]].
    + rewrite (DispatchNextRequest_frames _ _ _ Hq Hfits).
      rewrite (request_frames_plain _ _ index); [|tauto|done].
      by destruct Hclass as [[Hc ->] | (Hc & _ & ->)]; rewrite Hc; simpl.
    + split; [done|]. split; [done|]. unfold fits, ParamDataSize in *.
      rewrite length_app. simpl. split; lia.
  - intros esta_id He. destruct (big_endian_bytes _ He) as (? & ? & ?).
    eexists _, _. split; [reflexivity|]. by repeat split.
Qed.

(** ** Requests *)

(** X2. A GET or a SET for a device of the UID map, handed to an idle
    widget with nothing queued: when its parameter data fit a frame it is
    accepted, marked as in flight, and sent at once as one frame with the
    index the map holds for the device; when they do not, the copy into
    the frame is undefined behaviour. *)
Theorem HandleRDMRequest_dispatches request index command w :
  InDiscoveryMode w = false → m_pending_requests w = [] →
  m_rdm_request_pending w = false →
  IsBroadcast (DestinationUID request) = false →
  m_uid_index_map w !! DestinationUID request = Some index →
  (CommandClass request = SET_COMMAND ∧ command = REMOTE_SET_COMMAND_ID)
  ∨ (CommandClass request = GET_COMMAND
     ∧ ParamId request ≠ PID_QUEUED_MESSAGE
     ∧ command = REMOTE_GET_COMMAND_ID) →
  (fits request →
   HandleRDMRequest request w
   = Done (true,
           emit (SendMessage EXTENDED_COMMAND_LABEL
                   (request_bytes command index request))
             (set_rdm_request_pending true
                (set_pending_requests [request] w))))
  ∧ (¬ fits request →
     HandleRDMRequest request w = Undefined BufferOverflow).
Proof.
  intros Hd Hq Hp Hb Hi Hclass.
  assert (E : HandleRDMRequest request w
              = message ← rdm_message command index request;
                Done (true,
                      emit (SendMessage EXTENDED_COMMAND_LABEL message)
                        (set_rdm_request_pending true
                           (set_pending_requests [request] w)))).
  { unfold HandleRDMRequest.
    rewrite Hb, Hd, Hi, Hq. simpl. unfold MaybeSendRDMRequest.
    replace (InDiscoveryMode (set_pending_requests [request] w))
      with false by (by rewrite <- Hd).
    simpl. rewrite Hp. simpl. unfold front. simpl. rewrite Hb. simpl.
    unfold DispatchNextRequest, front. simpl. rewrite Hb, Hi.
    destruct Hclass as [[Hc ->] | (Hc & Hpid & ->)]; rewrite Hc.
    - rewrite decide_False by (by intros [_ ?]).
      by destruct (rdm_message _ _ _).
    - rewrite decide_False by (by intros [? _]).
      by destruct (rdm_message _ _ _). }
  rewrite E. split; intros Hfits.
  - by rewrite rdm_message_fits.
  - by rewrite rdm_message_overflow.
Qed.

(** X3. A GET of the queued messages is sent as a three-byte frame, the
    command id, the index the UID map holds for the destination, and the
    first byte of the parameter data. Nothing is sent when the request
    has no parameter data or the destination is not in the map; whether
    the destination is a broadcast address is not looked at. *)
Theorem queued_message_get_frame request rest w :
  m_pending_requests w = request :: rest →
  ParamId request = PID_QUEUED_MESSAGE →
  CommandClass request = GET_COMMAND →
  DispatchNextRequest w
  = Done match ParamData request,
               m_uid_index_map w !! DestinationUID request with
         | status_type :: _, Some index =>
             emit (SendMessage EXTENDED_COMMAND_LABEL
                     [QUEUED_GET_COMMAND_ID; index; status_type]) w
         | _, _ => w
         end.
Proof.
  intros Hq Hpid Hc. unfold DispatchNextRequest.
  rewrite (front_cons _ _ _ Hq). simpl.
  rewrite decide_True by done. unfold ParamDataSize, DispatchQueuedGet.
  destruct (ParamData request) as [|b data]; simpl.
  - done.
  - by destruct (m_uid_index_map w !! DestinationUID request).
Qed.

(** X4. The head request is for a broadcast address and its parameter
    data fit a frame. When the manufacturer id of the address is not the
    one the filter was last set to, only the set-filter frame is sent and
    the filter cache is left as it is; when it is, the request itself is
    sent with device index 0. In both cases the request is in flight. *)
Theorem MaybeSendRDMRequest_broadcast request rest w :
  InDiscoveryMode w = false → m_pending_requests w = request :: rest →
  m_rdm_request_pending w = false →
  IsBroadcast (DestinationUID request) = true →
  CommandClass request = SET_COMMAND
  ∨ (CommandClass request = GET_COMMAND
     ∧ ParamId request ≠ PID_QUEUED_MESSAGE) →
  fits request →
  MaybeSendRDMRequest w
  = Done
      (emit
         (SendMessage EXTENDED_COMMAND_LABEL
            (if decide (ManufacturerId (DestinationUID request)
                        = m_last_esta_id w)
             then request_bytes
                    (if decide (CommandClass request = GET_COMMAND)
                     then REMOTE_GET_COMMAND_ID
                     else REMOTE_SET_COMMAND_ID) 0%N request
             else [SET_FILTER_COMMAND_ID;
                   (N.shiftr (ManufacturerId (DestinationUID request)) 8
                    mod 256)%N;
                   N.land (ManufacturerId (DestinationUID request)) 255]))
         (set_rdm_request_pending true w)).
Proof.
  intros Hd Hq Hp Hb Hclass Hfits. unfold MaybeSendRDMRequest.
  rewrite Hd, Hp, Hq. simpl. unfold front. simpl. rewrite Hq. simpl.
  rewrite Hb. simpl. case_decide as He.
  - rewrite bool_decide_eq_false_2 by (intros ?; done).
    by apply (DispatchNextRequest_broadcast _ request rest).
  - by rewrite bool_decide_eq_true_2.
Qed.

(** X5. A head request that cannot be sent (neither a GET nor a SET, or
    for a device that is neither broadcast nor in the UID map, or a GET of
    the queued messages without parameter data) is marked as in flight
    although no frame goes out. From then on [MaybeSendRDMRequest] does
    nothing, and for a further request handed to [HandleRDMRequest] no
    frame is sent either: if accepted it only joins the queue. *)
Theorem unsendable_request_stalls request rest w :
  InDiscoveryMode w = false → m_pending_requests w = request :: rest →
  m_rdm_request_pending w = false →
  (∃ code, CommandClass request = OTHER_COMMAND code)
  ∨ m_uid_index_map w !! DestinationUID request = None
  ∨ (ParamId request = PID_QUEUED_MESSAGE
     ∧ CommandClass request = GET_COMMAND ∧ ParamData request = []) →
  IsBroadcast (DestinationUID request) = false →
  MaybeSendRDMRequest w = Done (set_rdm_request_pending true w)
  ∧ MaybeSendRDMRequest (set_rdm_request_pending true w)
    = Done (set_rdm_request_pending true w)
  ∧ ∀ later,
      ∃ accepted w',
        HandleRDMRequest later (set_rdm_request_pending true w)
        = Done (accepted, w')
        ∧ io w' = io w ∧ m_rdm_request_pending w' = true
        ∧ m_pending_requests w'
          = request :: rest ++ (if accepted then [later] else []).
Proof.
  intros Hd Hq Hp Hcannot Hb. split; [|split].
  - unfold MaybeSendRDMRequest. rewrite Hd, Hp, Hq. simpl.
    rewrite (front_cons _ request rest) by done. simpl. rewrite Hb. simpl.
    unfold DispatchNextRequest. rewrite (front_cons _ request rest) by done.
    simpl. rewrite Hb. unfold DispatchQueuedGet, ParamDataSize. simpl.
    destruct Hcannot as [[code Hc] | [Hi | (Hpid & Hc & Hdata)]].
    + rewrite Hc. by rewrite decide_False by (by intros [_ ?]).
    + rewrite Hi. repeat case_decide; try done.
      by destruct (CommandClass request).
    + rewrite Hdata. by rewrite decide_True by done.
  - by apply MaybeSendRDMRequest_noop; right; right.
  - intros later. unfold HandleRDMRequest.
    replace (InDiscoveryMode (set_rdm_request_pending true w))
      with false by (by rewrite <- Hd).
    simpl. rewrite Hq.
    destruct (negb (IsBroadcast (DestinationUID later)) && true && _).
    + exists false, (set_rdm_request_pending true w).
      simpl. by rewrite Hq, app_nil_r.
    + rewrite MaybeSendRDMRequest_noop by (by right; right). simpl.
      by eexists true, _.
Qed.

(** ** Replies *)

(** What [MaybeSendRDMRequest] changes: the in-flight flag, and at most
    one frame sent. *)
Lemma MaybeSendRDMRequest_effect w w' :
  MaybeSendRDMRequest w = Done w' →
  same_members w w'
  ∧ ∃ events, io w' = io w ++ events
              ∧ Forall request_frame events ∧ length events ≤ 1.
Proof.
  intros E.
  destruct (MaybeSendRDMRequest_cases w w' E)
    as [[-> _] | (_ & _ & _ & events & -> & Hlen & Hev)].
  - split; [by repeat split|]. exists []. rewrite app_nil_r.
    repeat split; [constructor | simpl; lia].
  - split; [by repeat split|]. by exists events.
Qed.

(** What an advance sends is at most one frame, a request or a
    set-filter frame. *)
Lemma advance_frames_frame w queue :
  length (advance_frames w queue) ≤ 1
  ∧ Forall request_frame (advance_frames w queue).
Proof.
  unfold advance_frames.
  destruct (InDiscoveryMode w); [split; [simpl; lia | constructor]|].
  destruct queue as [|request rest]; [split; [simpl; lia | constructor]|].
  destruct (_ && _).
  - split; [simpl; lia | by repeat constructor].
  - rewrite length_fmap. apply request_frames_frame.
Qed.

(** X6. A reply to a GET or a SET whose return code is neither a success
    code nor in the NACK range, the queued requests behind the head
    having parameter data that fit a frame: the head request is retired,
    the reassembly buffer is cleared, and the response callback is not
    run, so the caller of [HandleRDMRequest] gets no answer for it. What
    goes out is what the advance to the next request sends, at most one
    frame. *)
Theorem HandleRemoteRDMResponse_other_code return_code data w request rest :
  m_pending_requests w = request :: rest →
  Forall fits rest →
  return_code ∉ [EC_NO_ERROR; EC_RESPONSE_WAIT; EC_RESPONSE_MORE] →
  ¬ (EC_UNKNOWN_PID ≤ return_code ≤ EC_SUBDEVICE_UNKNOWN)%N →
  HandleRemoteRDMResponse return_code data w
  = Done (append_io (advance_frames w rest)
            (set_rdm_request_pending
               (negb (InDiscoveryMode w) && bool_decide (rest ≠ []))
               (set_pending_requests rest (set_rdm_response None w))))
  ∧ Forall request_frame (advance_frames w rest)
  ∧ length (advance_frames w rest) ≤ 1
  ∧ responses_delivered (advance_frames w rest) = [].
Proof.
  intros Hq Hfits Hrc Hrange.
  destruct (advance_frames_frame w rest) as [Hlen Hev].
  split; [|by split; [|split; [|apply request_frames_no_responses]]].
  unfold HandleRemoteRDMResponse.
  rewrite (front_cons _ _ _ Hq). simpl.
  rewrite !not_elem_of_cons in Hrc.
  destruct (decide (_ ∨ _ ∨ _)) as [Hn|_]; [intuition congruence|].
  destruct (decide (_ ∧ _)) as [Hn|_]; [done|].
  by rewrite (retire_advance (set_rdm_response None w) request rest).
Qed.

(** X7. A reply in the NACK range, with a response callback registered
    and the queued requests behind the head having parameter data that
    fit a frame: the callback is run once, with the NACK response built
    for the head request and the reason of the code; then the head
    request is retired. The response callback is run before the next
    request is sent. *)
Theorem HandleRemoteRDMResponse_nack_delivered
    return_code data w request rest :
  m_pending_requests w = request :: rest →
  Forall fits rest →
  return_code ∉ [EC_NO_ERROR; EC_RESPONSE_WAIT; EC_RESPONSE_MORE] →
  (EC_UNKNOWN_PID ≤ return_code ≤ EC_SUBDEVICE_UNKNOWN)%N →
  m_rdm_response_callback w = true →
  HandleRemoteRDMResponse return_code data w
  = Done (append_io
            (RunRDMResponseCallback
               (NackWithReason request (nack_reason return_code))
             :: advance_frames w rest)
            (set_rdm_request_pending
               (negb (InDiscoveryMode w) && bool_decide (rest ≠ []))
               (set_pending_requests rest (set_rdm_response None w))))
  ∧ Forall request_frame (advance_frames w rest)
  ∧ length (advance_frames w rest) ≤ 1.
Proof.
  intros Hq Hfits Hrc Hrange Hcb.
  destruct (advance_frames_frame w rest) as [Hlen Hev].
  split; [|by split].
  unfold HandleRemoteRDMResponse.
  rewrite (front_cons _ _ _ Hq). simpl.
  rewrite !not_elem_of_cons in Hrc.
  destruct (decide (_ ∨ _ ∨ _)) as [Hn|_]; [intuition congruence|].
  destruct (decide (_ ∧ _)) as [_|Hn]; [|done]. simpl. rewrite Hcb.
  rewrite (retire_advance _ request rest) by done.
  unfold append_io. simpl. by rewrite <- app_assoc.
Qed.

(** ** Discovery *)

(** X8. A reply to the discovery command with a return code other than
    [EC_NO_ERROR], or to the status poll with a return code other than
    [EC_NO_ERROR] and [EC_RESPONSE_UNEXPECTED], does what [Stop] does,
    whatever the payload and without reading it: the timeout is removed
    if one is registered. The UID map, the number of UIDs to fetch, the
    queue and the in-flight flag stay, no UID set is published, and
    dispatch is not resumed; the widget is still in discovery mode if
    UIDs were being fetched. A second [Stop] changes nothing. *)
Theorem discovery_error_stops command_id return_code data w :
  (command_id = DISCOVER_AUTO_COMMAND_ID ∧ return_code ≠ EC_NO_ERROR)
  ∨ (command_id = DISCOVER_STATUS_COMMAND_ID
     ∧ DISCOVER_STATUS_COMMAND_ID ≠ DISCOVER_AUTO_COMMAND_ID
     ∧ return_code ≠ EC_NO_ERROR
     ∧ return_code ≠ EC_RESPONSE_UNEXPECTED) →
  HandleMessage EXTENDED_COMMAND_LABEL (command_id :: return_code :: data) w
  = Done (Stop w)
  ∧ io (Stop w)
    = io w ++ match m_rdm_timeout_id w with
              | Some id => [RemoveTimeout id]
              | None => []
              end
  ∧ m_rdm_timeout_id (Stop w) = INVALID_TIMEOUT
  ∧ same_members (set_rdm_timeout_id INVALID_TIMEOUT w) (Stop w)
  ∧ m_rdm_request_pending (Stop w) = m_rdm_request_pending w
  ∧ InDiscoveryMode (Stop w) = bool_decide (m_uid_count w ≠ 0%N)
  ∧ Stop (Stop w) = Stop w.
Proof.
  intros Hcase. split.
  - unfold HandleMessage. rewrite decide_True by done.
    rewrite decide_False by (unfold DATA_OFFSET; simpl; lia).
    rewrite read_0, read_1. simpl.
    destruct Hcase as [[-> Hrc] | (-> & Hne & Hrc & Hrc')].
    + rewrite decide_True by done. unfold HandleDiscoveryAutoResponse.
      by rewrite decide_True by done.
    + rewrite decide_False by done. rewrite decide_True by done.
      unfold HandleDiscoverStatResponse, discovery_continues.
      rewrite decide_False by done.
      by repeat case_decide.
  - unfold Stop, StopDiscovery, InDiscoveryMode.
    destruct (m_rdm_timeout_id w) as [id|] eqn:E; simpl.
    + by repeat split.
    + rewrite E, app_nil_r. by repeat split.
Qed.

(** X9. [RunRDMDiscovery] on an idle widget sends the discovery command;
    the status timeout is registered only if the command was sent, and
    the widget is in discovery mode from then on exactly when it holds a
    valid timeout handle. A second call in discovery mode does nothing. *)
Theorem RunRDMDiscovery_starts_once sent_ok timeout w :
  InDiscoveryMode w = false →
  io (RunRDMDiscovery sent_ok timeout w)
  = io w
    ++ SendMessage EXTENDED_COMMAND_LABEL [DISCOVER_AUTO_COMMAND_ID]
       :: (if sent_ok
           then [RegisterRepeatingTimeout RDM_STATUS_INTERVAL_MS]
           else [])
  ∧ m_rdm_timeout_id (RunRDMDiscovery sent_ok timeout w)
    = (if sent_ok then timeout else INVALID_TIMEOUT)
  ∧ InDiscoveryMode (RunRDMDiscovery sent_ok timeout w)
    = sent_ok && bool_decide (timeout ≠ INVALID_TIMEOUT)
  ∧ (sent_ok = true → timeout ≠ INVALID_TIMEOUT →
     ∀ sent_ok' timeout',
       RunRDMDiscovery sent_ok' timeout' (RunRDMDiscovery sent_ok timeout w)
       = RunRDMDiscovery sent_ok timeout w).
Proof.
  intros Hd. pose proof Hd as Hd'. unfold InDiscoveryMode in Hd'.
  apply orb_false_iff in Hd' as [Ht Hc].
  apply bool_decide_eq_false in Ht. apply bool_decide_eq_false in Hc.
  apply dec_stable in Ht. apply dec_stable in Hc.
  unfold RunRDMDiscovery. rewrite Hd.
  destruct sent_ok; simpl.
  - split; [by rewrite <- app_assoc|]. split; [done|].
    unfold InDiscoveryMode at 1. simpl. rewrite Hc. simpl.
    split; [by rewrite orb_false_r|].
    intros _ Hvalid sent_ok' timeout'.
    unfold InDiscoveryMode. simpl.
    by rewrite (bool_decide_eq_true_2 _ Hvalid).
  - split; [done|]. split; [done|]. split; [exact Hd | done].
Qed.

(** X10. The frames [HandleMessage] drops without doing anything: those
    with another label than the extended-command one, those with a
    command id outside the [switch], the replies to a GET of the queued
    messages, the reply to the discovery command that reports no error,
    a UID reply when no UID is being fetched, and a status reply that
    either has no payload or reports that discovery is still running. *)
Theorem HandleMessage_ignores label data w :
  NoDup command_ids →
  label ≠ EXTENDED_COMMAND_LABEL
  ∨ (∃ command_id return_code payload,
       data = command_id :: return_code :: payload
       ∧ (command_id ∉ command_ids
          ∨ command_id = QUEUED_GET_COMMAND_ID
          ∨ (command_id = DISCOVER_AUTO_COMMAND_ID
             ∧ return_code = EC_NO_ERROR)
          ∨ (command_id = REMOTE_UID_COMMAND_ID ∧ m_uid_count w = 0%N)
          ∨ (command_id = DISCOVER_STATUS_COMMAND_ID
             ∧ discovery_continues return_code = true
             ∧ (payload = []
                ∨ ∃ count not_done rest,
                    payload = count :: not_done :: rest
                    ∧ not_done ≠ 0%N)))) →
  HandleMessage label data w = Done w.
Proof.
  intros Hnd Hcase. unfold HandleMessage.
  destruct Hcase as [Hl | (command_id & return_code & payload & -> & Hcase)].
  { by rewrite decide_False. }
  case_decide; [|done].
  rewrite decide_False by (unfold DATA_OFFSET; simpl; lia).
  rewrite read_0, read_1. simpl.
  unfold command_ids in *.
  rewrite !NoDup_cons, !not_elem_of_cons in Hnd.
  rewrite !not_elem_of_cons in Hcase.
  destruct Hcase as [Hout | [-> | [[-> ->] | [[-> Hc] | (-> & Hrc & Hp)]]]].
  - rewrite !decide_False by intuition congruence. done.
  - rewrite !decide_False by intuition congruence.
    by rewrite decide_True.
  - rewrite decide_True by done. unfold HandleDiscoveryAutoResponse.
    by rewrite decide_False by (intros ?; done).
  - rewrite !decide_False by intuition congruence.
    rewrite decide_True by done. unfold HandleRemoteUIDResponse.
    by rewrite decide_True.
  - rewrite !decide_False by intuition congruence.
    rewrite decide_True by done. unfold HandleDiscoverStatResponse.
    rewrite Hrc.
    destruct Hp as [-> | (count & not_done & rest & -> & Hn)]; simpl.
    + done.
    + by rewrite decide_False.
Qed.

(** ** Undefined behaviour *)

Lemma DispatchNextRequest_defined w :
  m_pending_requests w ≠ [] → Forall fits (m_pending_requests w) →
  defined (DispatchNextRequest w).
Proof.
  destruct (m_pending_requests w) as [|request rest] eqn:Hq; [done|].
  intros _ [Hfit _]%Forall_cons.
  rewrite (DispatchNextRequest_frames w request rest Hq Hfit).
  by eexists.
Qed.

Lemma retire_defined w :
  m_pending_requests w ≠ [] → Forall fits (m_pending_requests w) →
  defined (retire w).
Proof.
  destruct (m_pending_requests w) as [|request rest] eqn:Hq; [done|].
  intros _ [_ Hfits]%Forall_cons.
  rewrite (retire_advance w request rest Hq Hfits).
  by eexists.
Qed.

(** X11. On a widget whose queued requests all have parameter data that
    fit a frame, every entry point other than [HandleMessage] is free of
    undefined behaviour ([HandleRDMRequest] when the request it is given
    fits as well), and so is [HandleMessage] whenever a request is
    queued, a response callback is registered and the frame is not
    exactly three bytes long. *)
Theorem step_defined op w :
  Forall fits (m_pending_requests w) →
  (∀ request, op = OpHandleRDMRequest request → fits request) →
  (∀ label data,
     op = OpHandleMessage label data →
     length data ≠ 3 ∧ m_pending_requests w ≠ []
     ∧ m_rdm_response_callback w = true) →
  defined (step op w).
Proof.
  intros Hfits Hreq Hop. destruct op as [| | |request| | |label data]; simpl;
    try by eexists.
  { unfold HandleRDMRequest. destruct (_ && _); [by eexists|].
    destruct (MaybeSendRDMRequest_defined
                (set_pending_requests (m_pending_requests w ++ [request]) w))
      as [w' ->]; [|by eexists].
    simpl. apply Forall_app. split; [done|].
    apply Forall_singleton. by apply Hreq. }
  destruct (Hop label data eq_refl) as (Hlen & Hq & Hcb).
  assert (Hrdm : ∀ return_code payload,
             defined (HandleRemoteRDMResponse return_code payload w)).
  { intros return_code payload. unfold HandleRemoteRDMResponse.
    destruct (m_pending_requests w) as [|request rest] eqn:Hw; [done|].
    rewrite (front_cons _ _ _ Hw). simpl. case_decide; [|case_decide].
    - destruct (m_rdm_response w); simpl.
      + destruct (CombineResponses _ _);
          [|by apply retire_defined; simpl; rewrite Hw].
        case_decide;
          [by apply DispatchNextRequest_defined; simpl; rewrite Hw|].
        rewrite Hcb. by apply retire_defined; simpl; rewrite Hw.
      + destruct (GetResponseWithData _ _ _);
          [|by apply retire_defined; simpl; rewrite Hw].
        case_decide;
          [by apply DispatchNextRequest_defined; simpl; rewrite Hw|].
        rewrite Hcb. by apply retire_defined; simpl; rewrite Hw.
    - simpl. rewrite Hcb. by apply retire_defined; simpl; rewrite Hw.
    - by apply retire_defined; simpl; rewrite Hw. }
  unfold HandleMessage. case_decide; [|by eexists].
  case_decide; [by eexists|]. unfold DATA_OFFSET in *.
  destruct data as [|command_id [|return_code payload]]; simpl in *;
    [lia..|].
  repeat case_decide; try by eexists.
  - unfold HandleDiscoverStatResponse.
    destruct (discovery_continues return_code); [|by eexists].
    destruct payload as [|count [|not_done rest]]; simpl in *;
      [by eexists | lia |].
    case_decide; by eexists.
  - unfold HandleRemoteUIDResponse. case_decide; [by eexists|].
    destruct (decide (return_code = EC_NO_ERROR));
      [destruct (decide (_ < UID_SIZE))|]; simpl;
      (case_decide; [by eexists|]); apply MaybeSendRDMRequest_defined;
      unfold SendUIDUpdate; by destruct (m_uid_set_callback _).
  - apply Hrdm.
  - apply Hrdm.
  - unfold HandleSetFilterResponse.
    destruct (m_pending_requests w) as [|request rest] eqn:Hw; [done|].
    rewrite (front_cons _ _ _ Hw). simpl. case_decide.
    + by apply DispatchNextRequest_defined; simpl; rewrite Hw.
    + change (w0 ← pop w; MaybeSendRDMRequest (set_rdm_request_pending false w0))
        with (retire w).
      by apply retire_defined; rewrite Hw.
Qed.

(** ** Runs of the widget: callbacks, the UID map and the timeouts *)

Lemma timeouts_registered_app (events1 events2 : list (Event UID RDMResponse)) :
  timeouts_registered (events1 ++ events2)
  = timeouts_registered events1 + timeouts_registered events2.
Proof. unfold timeouts_registered. by rewrite bind_app, length_app. Qed.

Lemma timeouts_removed_app (events1 events2 : list (Event UID RDMResponse)) :
  timeouts_removed (events1 ++ events2)
  = timeouts_removed events1 + timeouts_removed events2.
Proof. unfold timeouts_removed. by rewrite bind_app, length_app. Qed.

Lemma request_frames_no_timeouts (events : list (Event UID RDMResponse)) :
  Forall request_frame events →
  timeouts_registered events = 0 ∧ timeouts_removed events = 0.
Proof.
  induction 1 as [|e events He _ [IH1 IH2]]; [done|].
  change (e :: events) with ([e] ++ events).
  rewrite timeouts_registered_app, timeouts_removed_app, IH1, IH2.
  by destruct e.
Qed.

Lemma handler_effect_refl w : handler_effect 0 0 w w.
Proof.
  split; [|done]. exists []. rewrite app_nil_r. split; [done|].
  split; simpl; lia.
Qed.

Lemma handler_effect_mono a b a' b' w w' :
  a ≤ a' → b ≤ b' → handler_effect a b w w' → handler_effect a' b' w w'.
Proof.
  intros Ha Hb ((events & Hio & Hr & Hu) & Hrest). split; [|done].
  exists events. split; [done|]. split; lia.
Qed.

Lemma handler_effect_trans a b a' b' w w1 w2 :
  handler_effect a b w w1 → handler_effect a' b' w1 w2 →
  handler_effect (a + a') (b + b') w w2.
Proof.
  intros ((events1 & Hio1 & Hr1 & Hu1) & Hi1 & Ht1)
         ((events2 & Hio2 & Hr2 & Hu2) & Hi2 & Ht2).
  split; [|by auto].
  exists (events1 ++ events2). rewrite Hio2, Hio1, app_assoc.
  split; [done|].
  rewrite responses_delivered_app, uid_sets_published_app, !length_app.
  split; lia.
Qed.

(** A step that only adds calls, none of them on a timeout, and keeps
    the members of the discovery. *)
Lemma handler_effect_quiet a b w w' events :
  io w' = io w ++ events →
  length (responses_delivered events) ≤ a →
  length (uid_sets_published events) ≤ b →
  timeouts_registered events = 0 → timeouts_removed events = 0 →
  same_discovery w w' →
  handler_effect a b w w'.
Proof.
  intros Hio Ha Hb Hreg Hrem (Hm & Hc & Ht).
  split; [by exists events|]. split.
  - unfold indices_fetched. by rewrite Hm, Hc.
  - unfold timeouts_held.
    rewrite Hio, Ht, timeouts_registered_app, timeouts_removed_app.
    rewrite Hreg, Hrem. lia.
Qed.

(** What [MaybeSendRDMRequest] and the dispatchers add at the end of a
    handler. *)
Lemma handler_effect_tail a b w w1 w' events :
  handler_effect a b w w1 → same_members w1 w' →
  io w' = io w1 ++ events → Forall request_frame events →
  handler_effect a b w w'.
Proof.
  intros Heff (Ht & Hc & _ & _ & _ & _ & _ & Hm) Hio Hev.
  destruct (request_frames_no_timeouts _ Hev) as [Hreg Hrem].
  replace a with (a + 0) by lia. replace b with (b + 0) by lia.
  apply (handler_effect_trans _ _ _ _ _ w1); [done|].
  apply (handler_effect_quiet _ _ _ _ events); try done.
  - by rewrite request_frames_no_responses.
  - by rewrite request_frames_no_uid_sets.
Qed.

Lemma handler_effect_MaybeSendRDMRequest a b w w1 w' :
  handler_effect a b w w1 → MaybeSendRDMRequest w1 = Done w' →
  handler_effect a b w w'.
Proof.
  intros Heff E.
  apply MaybeSendRDMRequest_effect in E
    as (Hsame & events & Hio & Hev & _).
  by apply (handler_effect_tail _ _ _ w1 _ events).
Qed.

Lemma handler_effect_DispatchNextRequest a b w w1 w' :
  handler_effect a b w w1 → DispatchNextRequest w1 = Done w' →
  handler_effect a b w w'.
Proof.
  intros Heff E.
  destruct (DispatchNextRequest_Done w1 w' E) as (events & -> & _ & Hev).
  by apply (handler_effect_tail _ _ _ w1 _ events).
Qed.

Lemma handler_effect_retire a b w w1 w' :
  handler_effect a b w w1 → retire w1 = Done w' → handler_effect a b w w'.
Proof.
  intros Heff. unfold retire, pop.
  destruct (m_pending_requests w1) as [|request rest] eqn:Hq; [done|].
  simpl. apply handler_effect_MaybeSendRDMRequest.
  replace a with (a + 0) by lia. replace b with (b + 0) by lia.
  apply (handler_effect_trans _ _ _ _ _ w1); [done|].
  apply (handler_effect_quiet _ _ _ _ []); try done. simpl.
  by rewrite app_nil_r.
Qed.

Lemma handler_effect_StopDiscovery w : handler_effect 0 0 w (StopDiscovery w).
Proof.
  unfold StopDiscovery.
  destruct (m_rdm_timeout_id w) as [id|] eqn:E;
    [|apply handler_effect_refl].
  split; [|split].
  - exists [RemoveTimeout id]. split; [done|]. split; simpl; lia.
  - done.
  - unfold timeouts_held. simpl. rewrite E.
    rewrite timeouts_registered_app, timeouts_removed_app.
    change (timeouts_removed [RemoveTimeout id]) with 1.
    change (timeouts_registered [RemoveTimeout id]) with 0. lia.
Qed.

Lemma handler_effect_FetchNextUID w : handler_effect 0 0 w (FetchNextUID w).
Proof.
  unfold FetchNextUID. case_decide; [apply handler_effect_refl|].
  by eapply (handler_effect_quiet _ _ _ _ [_]).
Qed.

Lemma handler_effect_SendUIDUpdate w : handler_effect 0 1 w (SendUIDUpdate w).
Proof.
  unfold SendUIDUpdate.
  destruct (m_uid_set_callback w);
    [|eapply handler_effect_mono; [| |apply handler_effect_refl]; lia].
  by eapply (handler_effect_quiet _ _ _ _ [_]).
Qed.

(** The map, cleared or not, with the number of UIDs to fetch set as the
    status reply says. *)
Lemma handler_effect_HandleDiscoverStatResponse return_code data w w' :
  HandleDiscoverStatResponse return_code data w = Done w' →
  handler_effect 0 0 w w'.
Proof.
  unfold HandleDiscoverStatResponse.
  destruct (discovery_continues return_code);
    [|intros [= <-]; apply handler_effect_StopDiscovery].
  case_decide; [intros [= <-]; apply handler_effect_refl|].
  destruct (read data 1) as [not_done|]; [simpl|done].
  case_decide; [|intros [= <-]; apply handler_effect_refl].
  destruct (read data 0) as [count|]; [simpl|done].
  set (w1 := set_uid_index_map ∅ (set_uid_count count (StopDiscovery w))).
  assert (Heff : handler_effect 0 0 w w1).
  { destruct (handler_effect_StopDiscovery w)
      as ((events & Hio & Hr & Hu) & _ & Ht).
    split; [by exists events|]. split; [|exact Ht].
    intros _. by split; intros ? ?; simpl; rewrite lookup_empty. }
  intros [= <-]. case_decide; [|done].
  apply (handler_effect_trans 0 0 0 0 _ w1); [done|].
  apply handler_effect_FetchNextUID.
Qed.

(** [m_uid_count--] on a counter that is not 0 gives a smaller one. *)
Lemma uint8_decrement_lt (n : N) :
  n ≠ 0%N → ((n + 255) mod 256 < n)%N.
Proof.
  intros Hne. destruct (decide (n < 256)%N) as [Hlt|Hge].
  - rewrite uint8_decrement by done. lia.
  - pose proof (N.mod_upper_bound (n + 255) 256). lia.
Qed.

Lemma indices_fetched_skip w :
  m_uid_count w ≠ 0%N → indices_fetched w →
  indices_fetched (set_uid_count ((m_uid_count w + 255) mod 256)%N w).
Proof.
  intros Hc [Hlt Hinj]. pose proof (uint8_decrement_lt _ Hc).
  split; simpl; [|done]. intros uid index Hi.
  specialize (Hlt uid index Hi). lia.
Qed.

Lemma indices_fetched_record uid w :
  m_uid_count w ≠ 0%N → indices_fetched w →
  indices_fetched
    (set_uid_count ((m_uid_count w + 255) mod 256)%N
       (set_uid_index_map (<[uid := m_uid_count w]> (m_uid_index_map w)) w)).
Proof.
  intros Hc [Hlt Hinj]. pose proof (uint8_decrement_lt _ Hc).
  split; simpl.
  - intros uid' index. rewrite lookup_insert_Some.
    intros [[_ <-] | [_ Hi]]; [done|]. specialize (Hlt uid' index Hi). lia.
  - intros uid1 uid2 index. rewrite !lookup_insert_Some.
    intros [[<- <-] | [Hne1 Hi1]] [[<- Hi2] | [Hne2 Hi2]]; try done.
    + specialize (Hlt uid2 _ Hi2). lia.
    + specialize (Hlt uid1 _ Hi1). lia.
    + by apply (Hinj uid1 uid2 index).
Qed.

Lemma handler_effect_HandleRemoteUIDResponse return_code data w w' :
  HandleRemoteUIDResponse return_code data w = Done w' →
  handler_effect 0 1 w w'.
Proof.
  unfold HandleRemoteUIDResponse.
  case_decide as Hc;
    [intros [= <-]; eapply handler_effect_mono;
       [| |apply handler_effect_refl]; lia|].
  set (w1 := if decide (return_code = EC_NO_ERROR) then _ else _).
  assert (Hcount : m_uid_count w1 = m_uid_count w)
    by (subst w1; by repeat case_decide).
  set (w2 := set_uid_count ((m_uid_count w1 + 255) mod 256)%N w1).
  assert (Heff : handler_effect 0 0 w w2).
  { split; [|split].
    - exists []. rewrite app_nil_r.
      split; [subst w2 w1; by repeat case_decide|]. split; simpl; lia.
    - intros Hi. subst w2 w1. repeat case_decide.
      + by apply indices_fetched_skip.
      + by apply (indices_fetched_record _ w).
      + by apply indices_fetched_skip.
    - assert (Hsame : io w2 = io w ∧ m_rdm_timeout_id w2 = m_rdm_timeout_id w)
        by (subst w2 w1; by repeat case_decide).
      unfold timeouts_held. destruct Hsame as [-> ->]. done. }
  clearbody w2. simpl. case_decide.
  - intros [= <-]. eapply handler_effect_mono; [| |
      apply (handler_effect_trans 0 0 0 0 _ w2);
        [done | apply handler_effect_FetchNextUID]]; lia.
  - apply handler_effect_MaybeSendRDMRequest.
    apply (handler_effect_trans 0 0 0 1 _ w2); [done|].
    apply handler_effect_SendUIDUpdate.
Qed.

Lemma handler_effect_HandleRemoteRDMResponse return_code data w w' :
  HandleRemoteRDMResponse return_code data w = Done w' →
  handler_effect 1 0 w w'.
Proof.
  unfold HandleRemoteRDMResponse.
  destruct (front w) as [request|]; [simpl|done].
  assert (Hset : ∀ response, handler_effect 0 0 w (set_rdm_response response w)).
  { intros response. apply (handler_effect_quiet _ _ _ _ []); try done.
    simpl. by rewrite app_nil_r. }
  assert (Hrun : ∀ response w1,
             handler_effect 0 0 w w1 →
             handler_effect 1 0 w
               (set_rdm_response None
                  (emit (RunRDMResponseCallback response) w1))).
  { intros response w1 Heff.
    apply (handler_effect_trans 0 0 1 0 _ w1); [done|].
    by apply (handler_effect_quiet _ _ _ _
                [RunRDMResponseCallback response]). }
  assert (Hweak : ∀ w1, handler_effect 0 0 w w1 → handler_effect 1 0 w w1).
  { intros w1. apply handler_effect_mono; lia. }
  case_decide; [|case_decide].
  - set (w1 := match m_rdm_response w with Some _ => _ | None => _ end).
    assert (Heff : handler_effect 0 0 w w1) by (subst w1; by case_match).
    clearbody w1. destruct (m_rdm_response w1) as [combined|].
    + case_decide.
      * apply handler_effect_DispatchNextRequest. by apply Hweak.
      * apply handler_effect_retire.
        destruct (m_rdm_response_callback w1).
        -- apply (Hrun (Some combined) w1 Heff).
        -- apply Hweak.
           apply (handler_effect_trans 0 0 0 0 _ w1); [done|].
           apply (handler_effect_quiet _ _ _ _ []); try done.
           simpl. by rewrite app_nil_r.
    + apply handler_effect_retire. by apply Hweak.
  - simpl. destruct (m_rdm_response_callback w); [|done].
    apply handler_effect_retire.
    apply (handler_effect_trans 0 0 1 0 _ (set_rdm_response None w));
      [done|].
    by eapply (handler_effect_quiet _ _ _ _ [_]).
  - apply handler_effect_retire. by apply Hweak.
Qed.

Lemma handler_effect_HandleSetFilterResponse return_code data w w' :
  HandleSetFilterResponse return_code data w = Done w' →
  handler_effect 0 0 w w'.
Proof.
  unfold HandleSetFilterResponse.
  destruct (front w) as [request|]; [simpl|by case_decide].
  case_decide; simpl.
  - apply handler_effect_DispatchNextRequest.
    apply (handler_effect_quiet _ _ _ _ []); try done.
    simpl. by rewrite app_nil_r.
  - apply handler_effect_retire, handler_effect_refl.
Qed.

Lemma handler_effect_HandleMessage label data w w' :
  HandleMessage label data w = Done w' →
  handler_effect
    (if is_rdm_reply (OpHandleMessage label data : Op UID) then 1 else 0)
    (if is_uid_reply (OpHandleMessage label data : Op UID) then 1 else 0)
    w w'.
Proof.
  assert (Hweak : ∀ a b w1, handler_effect 0 0 w w1 → handler_effect a b w w1).
  { intros a b w1. apply handler_effect_mono; lia. }
  unfold HandleMessage.
  case_decide as Hl; [|intros [= <-]; apply Hweak, handler_effect_refl].
  case_decide; [intros [= <-]; apply Hweak, handler_effect_refl|].
  unfold DATA_OFFSET in *.
  destruct data as [|command_id [|return_code data]]; simpl in *; [lia..|].
  rewrite (bool_decide_eq_true_2 _ Hl). simpl.
  case_decide as Hc.
  { intros [= <-]. apply Hweak. unfold HandleDiscoveryAutoResponse.
    case_decide; [apply handler_effect_StopDiscovery
                 | apply handler_effect_refl]. }
  clear Hc. case_decide as Hc.
  { intros E. by apply Hweak, (handler_effect_HandleDiscoverStatResponse _ _ _ _ E). }
  clear Hc. case_decide as Hc.
  { intros E. rewrite (bool_decide_eq_true_2 _ Hc).
    eapply handler_effect_mono;
      [| |exact (handler_effect_HandleRemoteUIDResponse _ _ _ _ E)]; lia. }
  clear Hc. case_decide as Hc.
  { intros E. rewrite bool_decide_eq_true_2 by (subst; set_solver).
    eapply handler_effect_mono;
      [| |exact (handler_effect_HandleRemoteRDMResponse _ _ _ _ E)]; lia. }
  clear Hc. case_decide as Hc.
  { intros E. rewrite bool_decide_eq_true_2 by (subst; set_solver).
    eapply handler_effect_mono;
      [| |exact (handler_effect_HandleRemoteRDMResponse _ _ _ _ E)]; lia. }
  clear Hc. case_decide as Hc.
  { intros [= <-]. apply Hweak, handler_effect_refl. }
  clear Hc. case_decide as Hc.
  { intros E. by apply Hweak, (handler_effect_HandleSetFilterResponse _ _ _ _ E). }
  intros [= <-]. apply Hweak, handler_effect_refl.
Qed.

Lemma handler_effect_step op w w' :
  step op w = Done w' →
  handler_effect (if is_rdm_reply op then 1 else 0)
                 (if is_uid_reply op then 1 else 0) w w'.
Proof.
  destruct op as [callback|callback| |request|sent_ok timeout| |label data];
    simpl.
  - intros [= <-]. by apply (handler_effect_quiet _ _ _ _ []);
      simpl; rewrite ?app_nil_r.
  - intros [= <-]. by apply (handler_effect_quiet _ _ _ _ []);
      simpl; rewrite ?app_nil_r.
  - intros [= <-]. apply handler_effect_StopDiscovery.
  - unfold HandleRDMRequest.
    destruct (_ && _); [intros [= <-]; apply handler_effect_refl|].
    destruct (MaybeSendRDMRequest _) as [w1|] eqn:E; [simpl|done].
    intros [= <-].
    eapply handler_effect_MaybeSendRDMRequest; [|exact E].
    by apply (handler_effect_quiet _ _ _ _ []); simpl; rewrite ?app_nil_r.
  - intros [= <-]. unfold RunRDMDiscovery.
    destruct (InDiscoveryMode w); [apply handler_effect_refl|].
    destruct sent_ok.
    + split; [|split].
      * eexists [_; _]. simpl. rewrite <- app_assoc.
        split; [done|]. split; simpl; lia.
      * done.
      * unfold timeouts_held. simpl. rewrite <- app_assoc.
        rewrite timeouts_registered_app, timeouts_removed_app.
        set (events := _ ++ [RegisterRepeatingTimeout _]).
        change (timeouts_removed events) with 0.
        change (timeouts_registered events) with 1.
        destruct timeout, (m_rdm_timeout_id w); lia.
    + by eapply (handler_effect_quiet _ _ _ _ [_]).
  - intros [= <-]. by eapply (handler_effect_quiet _ _ _ _ [_]).
  - apply handler_effect_HandleMessage.
Qed.

Lemma rdm_replies_cons op (ops : list (Op UID)) :
  rdm_replies (op :: ops)
  = (if is_rdm_reply op then 1 else 0) + rdm_replies ops.
Proof.
  unfold rdm_replies. rewrite filter_cons.
  destruct (is_rdm_reply op); by case_decide.
Qed.

Lemma uid_replies_received_cons op (ops : list (Op UID)) :
  uid_replies_received (op :: ops)
  = (if is_uid_reply op then 1 else 0) + uid_replies_received ops.
Proof.
  unfold uid_replies_received. rewrite filter_cons.
  destruct (is_uid_reply op); by case_decide.
Qed.

Lemma handler_effect_run ops : ∀ w w',
  run ops w = Done w' →
  handler_effect (rdm_replies ops) (uid_replies_received ops) w w'.
Proof.
  induction ops as [|op ops IH]; intros w w'; simpl.
  { intros [= <-]. apply handler_effect_refl. }
  destruct (step op w) as [w1|] eqn:E; [simpl|done]. intros Hrun.
  rewrite rdm_replies_cons, uid_replies_received_cons.
  apply (handler_effect_trans _ _ _ _ _ w1); [|by apply IH].
  by apply handler_effect_step.
Qed.

(** X12. Over every run from the construction of the widget, the
    response callback has run at most once for each reply to a GET or a
    SET received, and the UID-list callback at most once for each reply
    to a UID fetch received. *)
Theorem callbacks_follow_replies ops w :
  run ops DmxTriWidget_new = Done w →
  length (responses_delivered (io w)) ≤ rdm_replies ops
  ∧ length (uid_sets_published (io w)) ≤ uid_replies_received ops.
Proof.
  intros Hrun.
  destruct (handler_effect_run _ _ _ Hrun) as ((events & Hio & Hr & Hu) & _).
  simpl in Hio. by rewrite Hio.
Qed.

(** X13. Over every run from the construction of the widget, every
    device index in the UID map is above the number of indices still to
    be fetched, so none is 0, the index of a broadcast, and no two UIDs
    have the same index. *)
Theorem uid_indices_distinct ops w :
  run ops DmxTriWidget_new = Done w →
  indices_fetched w
  ∧ ∀ uid index, m_uid_index_map w !! uid = Some index → index ≠ 0%N.
Proof.
  intros Hrun.
  destruct (handler_effect_run _ _ _ Hrun) as (_ & Hi & _).
  assert (Hnew : indices_fetched (DmxTriWidget_new (UID := UID) (RDMResponse := RDMResponse))).
  { by split; intros ? ?; simpl; rewrite lookup_empty. }
  specialize (Hi Hnew). split; [done|].
  intros uid index Hlookup. destruct Hi as [Hlt _].
  specialize (Hlt uid index Hlookup). lia.
Qed.

(** X14. Over every run from the construction of the widget, the
    timeouts removed from the select server, and one more while the
    widget holds a handle, are no more than the timeouts it registered:
    the widget removes a timeout only after registering one, and once
    for each. *)
Theorem timeouts_removed_once ops w :
  run ops DmxTriWidget_new = Done w → timeouts_held w.
Proof.
  intros Hrun.
  destruct (handler_effect_run _ _ _ Hrun) as (_ & _ & Ht).
  apply Ht. unfold timeouts_held. simpl. lia.
Qed.

(** ** The queue of requests *)

Lemma queue_MaybeSendRDMRequest w w' :
  MaybeSendRDMRequest w = Done w' →
  m_pending_requests w' = m_pending_requests w.
Proof.
  intros E. by apply MaybeSendRDMRequest_effect in E
    as ((_ & _ & _ & _ & _ & _ & Hq & _) & _).
Qed.

Lemma queue_DispatchNextRequest w w' :
  DispatchNextRequest w = Done w' →
  m_pending_requests w' = m_pending_requests w.
Proof.
  intros E. by destruct (DispatchNextRequest_Done w w' E) as (events & -> & _).
Qed.

Lemma queue_retire w w' :
  retire w = Done w' →
  ∃ request, m_pending_requests w = request :: m_pending_requests w'.
Proof.
  unfold retire, pop.
  destruct (m_pending_requests w) as [|request rest] eqn:Hq; [done|].
  simpl. intros E. apply queue_MaybeSendRDMRequest in E. exists request.
  by rewrite E.
Qed.

Lemma queue_HandleRemoteRDMResponse return_code data w w' :
  HandleRemoteRDMResponse return_code data w = Done w' →
  m_pending_requests w' = m_pending_requests w
  ∨ ∃ request, m_pending_requests w = request :: m_pending_requests w'.
Proof.
  unfold HandleRemoteRDMResponse.
  destruct (front w) as [request|]; [simpl|done].
  case_decide; [|case_decide].
  - set (w1 := match m_rdm_response w with Some _ => _ | None => _ end).
    assert (Hq : m_pending_requests w1 = m_pending_requests w)
      by (subst w1; by case_match).
    clearbody w1. rewrite <- Hq. destruct (m_rdm_response w1) as [combined|].
    + case_decide.
      * intros E. left. by apply queue_DispatchNextRequest.
      * intros E. right. apply queue_retire in E.
        by destruct (m_rdm_response_callback w1).
    + intros E. right. by apply queue_retire.
  - simpl. destruct (m_rdm_response_callback w); [|done].
    intros E. right. by apply queue_retire in E.
  - intros E. right. by apply queue_retire in E.
Qed.

Lemma queue_HandleSetFilterResponse return_code data w w' :
  HandleSetFilterResponse return_code data w = Done w' →
  m_pending_requests w' = m_pending_requests w
  ∨ ∃ request, m_pending_requests w = request :: m_pending_requests w'.
Proof.
  unfold HandleSetFilterResponse.
  destruct (front w) as [request|]; [simpl|by case_decide].
  case_decide; simpl.
  - intros E. left. by apply queue_DispatchNextRequest in E.
  - intros E. right. by apply queue_retire.
Qed.

Lemma queue_StopDiscovery w :
  m_pending_requests (StopDiscovery w) = m_pending_requests w.
Proof. by destruct (StopDiscovery_fields w) as (_ & _ & ? & _). Qed.

Lemma queue_FetchNextUID w :
  m_pending_requests (FetchNextUID w) = m_pending_requests w.
Proof. unfold FetchNextUID. by case_decide. Qed.

(** X15. What one call does to the queue of requests: nothing, or it
    appends the request handed to [HandleRDMRequest] at the back, or it
    removes the request at the front. The queue is first in, first out,
    and a call retires at most one request. *)
Theorem queue_is_fifo op w w' :
  step op w = Done w' → queue_step op w w'.
Proof.
  unfold queue_step.
  destruct op as [callback|callback| |request|sent_ok timeout| |label data];
    simpl.
  - intros [= <-]. by left.
  - intros [= <-]. by left.
  - intros [= <-]. left. apply queue_StopDiscovery.
  - unfold HandleRDMRequest. destruct (_ && _); [intros [= <-]; by left|].
    destruct (MaybeSendRDMRequest _) as [w1|] eqn:E; [simpl|done].
    intros [= <-]. right. left. exists request. split; [done|].
    by apply queue_MaybeSendRDMRequest in E.
  - intros [= <-]. left. unfold RunRDMDiscovery.
    destruct (InDiscoveryMode w); [done|]. by destruct sent_ok.
  - intros [= <-]. by left.
  - assert (Hcases : ∀ w1,
               m_pending_requests w1 = m_pending_requests w
               ∨ (∃ request,
                    m_pending_requests w = request :: m_pending_requests w1) →
               m_pending_requests w1 = m_pending_requests w
               ∨ (∃ request,
                    OpHandleMessage label data = OpHandleRDMRequest request
                    ∧ m_pending_requests w1
                      = m_pending_requests w ++ [request])
               ∨ (∃ request,
                    m_pending_requests w
                    = request :: m_pending_requests w1)) by tauto.
    intros E. apply Hcases. clear Hcases. revert E. unfold HandleMessage.
    case_decide; [|intros [= <-]; by left].
    case_decide; [intros [= <-]; by left|].
    destruct (read data 0) as [command_id|]; [simpl|done].
    destruct (read data 1) as [return_code|]; [simpl|done].
    repeat case_decide.
    + intros [= <-]. left. unfold HandleDiscoveryAutoResponse.
      case_decide; [apply queue_StopDiscovery | done].
    + unfold HandleDiscoverStatResponse.
      destruct (discovery_continues return_code);
        [|intros [= <-]; left; apply queue_StopDiscovery].
      case_decide; [intros [= <-]; by left|].
      destruct (read _ 1) as [not_done|]; [simpl|done].
      case_decide; [|intros [= <-]; by left].
      destruct (read _ 0) as [count|]; [simpl|done].
      intros [= <-]. left.
      case_decide; rewrite ?queue_FetchNextUID; simpl;
        apply queue_StopDiscovery.
    + unfold HandleRemoteUIDResponse.
      case_decide; [intros [= <-]; by left|].
      set (w1 := if decide (return_code = EC_NO_ERROR) then _ else _).
      assert (Hq : m_pending_requests w1 = m_pending_requests w)
        by (subst w1; by repeat case_decide).
      clearbody w1. left. revert E. case_decide.
      * intros [= <-]. by rewrite queue_FetchNextUID.
      * intros E. apply queue_MaybeSendRDMRequest in E. rewrite E.
        by destruct (SendUIDUpdate_fields
                       (set_uid_count ((m_uid_count w1 + 255) mod 256)%N w1))
          as (_ & _ & -> & _).
    + apply queue_HandleRemoteRDMResponse.
    + apply queue_HandleRemoteRDMResponse.
    + intros [= <-]. by left.
    + apply queue_HandleSetFilterResponse.
    + intros [= <-]. by left.
Qed.

(** ** The UIDs a discovery records *)

Lemma HandleRemoteUIDResponse_records return_code data w :
  m_uid_count w ≠ 0%N → Forall fits (m_pending_requests w) →
  ∃ w', HandleRemoteUIDResponse return_code data w = Done w'
        ∧ m_uid_count w' = ((m_uid_count w + 255) mod 256)%N
        ∧ m_pending_requests w' = m_pending_requests w
        ∧ m_uid_index_map w'
          = match reply_uid (return_code, data) with
            | Some uid => <[uid := m_uid_count w]> (m_uid_index_map w)
            | None => m_uid_index_map w
            end.
Proof.
  intros Hc Hfits. unfold HandleRemoteUIDResponse, reply_uid.
  rewrite decide_False by done. simpl.
  set (w1 := if decide (return_code = EC_NO_ERROR) then _ else _).
  assert (Hq1 : m_pending_requests w1 = m_pending_requests w)
    by (subst w1; by repeat case_decide).
  rewrite <- Hq1 in *. clear Hq1.
  assert (Hw1 : m_uid_count w1 = m_uid_count w
                ∧ m_uid_index_map w1
                  = match (if decide (return_code = EC_NO_ERROR)
                           then if decide (length data < UID_SIZE) then None
                                else Some (UID_of_data (take UID_SIZE data))
                           else None) with
                    | Some uid =>
                        <[uid := m_uid_count w]> (m_uid_index_map w)
                    | None => m_uid_index_map w
                    end)
    by (subst w1; by repeat case_decide).
  destruct Hw1 as [Hc1 Hm1']. rewrite <- Hm1', <- Hc1. clear Hm1' Hc1.
  clearbody w1. case_decide.
  - eexists. split; [done|]. unfold FetchNextUID.
    by case_decide.
  - destruct (SendUIDUpdate_fields
                (set_uid_count ((m_uid_count w1 + 255) mod 256)%N w1))
      as (_ & Hc' & Hq' & _ & _ & Hm').
    destruct (MaybeSendRDMRequest_defined
                (SendUIDUpdate
                   (set_uid_count ((m_uid_count w1 + 255) mod 256)%N w1)))
      as [w' E]; [by rewrite Hq'|].
    exists w'. split; [done|].
    apply MaybeSendRDMRequest_effect in E
      as ((_ & -> & _ & _ & _ & _ & -> & ->) & _).
    by rewrite Hc', Hq', Hm'.
Qed.

(** X16. The replies to UID fetches, at most as many as UIDs are to be
    fetched, handled by a widget whose queued requests all have
    parameter data that fit a frame: the UIDs in the map afterwards are
    those it held before and those of the replies that report no error
    and carry a whole UID. A reply with an error, or with a shorter
    payload, uses up its index and records nothing. The queue is as it
    was. *)
Theorem uid_replies_record replies : ∀ w,
  (m_uid_count w < 256)%N →
  length replies ≤ N.to_nat (m_uid_count w) →
  Forall fits (m_pending_requests w) →
  ∃ w', uid_replies replies w = Done w'
        ∧ dom (m_uid_index_map w')
          = dom (m_uid_index_map w) ∪ list_to_set (omap reply_uid replies)
        ∧ m_uid_count w' = (m_uid_count w - N.of_nat (length replies))%N
        ∧ m_pending_requests w' = m_pending_requests w.
Proof.
  induction replies as [|[return_code data] replies IH];
    intros w Hlt Hlen Hfits.
  { exists w. split; [done|]. simpl. rewrite (right_id_L ∅ (∪)).
    split; [done|]. split; [lia | done]. }
  simpl in Hlen. assert (Hc : m_uid_count w ≠ 0%N) by lia.
  destruct (HandleRemoteUIDResponse_records return_code data w Hc Hfits)
    as (w1 & E1 & Hc1 & Hq1 & Hm1).
  rewrite uint8_decrement in Hc1 by done.
  destruct (IH w1) as (w' & E & Hdom & Hc' & Hq');
    [lia | lia | by rewrite Hq1 |].
  exists w'. simpl. rewrite E1. simpl. split; [done|].
  split; [|split; [lia | by rewrite Hq', Hq1]].
  rewrite Hdom, Hm1.
  destruct (reply_uid (return_code, data)) as [uid|]; simpl.
  - rewrite dom_insert_L, (comm_L (∪) {[uid]}).
    by rewrite <- !(assoc_L (∪)).
  - done.
Qed.

(** ** The destructor and [SendDMX] *)

(** X17. The destructor ends, after as many iterations as requests are
    queued, without undefined behaviour. It empties the queue and does
    nothing else: no callback is run for the requests dropped, and a
    status timeout that is registered is not removed. *)
Theorem DmxTriWidget_delete_empties_queue fuel : ∀ w,
  length (m_pending_requests w) ≤ fuel →
  DmxTriWidget_delete fuel w = Some (Done (set_pending_requests [] w)).
Proof.
  unfold DmxTriWidget_delete.
  induction fuel as [|fuel IH]; intros w Hlen.
  - destruct (m_pending_requests w) as [|request rest] eqn:Hq;
      [|simpl in Hlen; lia].
    simpl. rewrite bool_decide_eq_true_2 by done.
    destruct w. simpl in Hq. by rewrite Hq.
  - destruct (m_pending_requests w) as [|request rest] eqn:Hq.
    + simpl. rewrite bool_decide_eq_true_2 by done.
      destruct w. simpl in Hq. by rewrite Hq.
    + simpl. rewrite bool_decide_eq_false_2 by (by rewrite Hq).
      rewrite (front_cons _ _ _ Hq), (pop_cons _ _ _ Hq).
      rewrite IH by (simpl in *; lia). done.
Qed.

(** X18. [SendDMX] sends one frame with the DMX label: the start code 0
    and then the valid bytes of the buffer, at most 512 of them. It
    returns what the USB widget reports and changes no member of the
    widget. *)
Theorem SendDMX_frame DMX_LABEL sent_ok buffer w :
  SendDMX DMX_LABEL sent_ok buffer w
  = (sent_ok,
     emit (SendMessage DMX_LABEL
             (0%N :: take DMX_UNIVERSE_SIZE (Get buffer))) w)
  ∧ length (0%N :: take DMX_UNIVERSE_SIZE (Get buffer))
    ≤ DMX_UNIVERSE_SIZE + 1.
Proof.
  split.
  - unfold SendDMX, Get_into, Get. rewrite take_take.
    rewrite (Nat.min_comm DMX_UNIVERSE_SIZE).
    replace (valid_length buffer `min` DMX_UNIVERSE_SIZE + 1)
      with (S (valid_length buffer `min` DMX_UNIVERSE_SIZE)) by lia.
    rewrite firstn_cons.
    by rewrite take_ge by (rewrite length_take; lia).
  - rewrite length_cons, length_take. lia.
Qed.

End WidgetCoverage.

(** * The DMXCreator factory *)

(** X19. A device with another vendor or product id is refused and
    leaves the factory as it is. Of the devices reported to a factory, a
    widget is constructed for at most one, the first DMXCreator after the
    factory was created, and for none once the factory has noted a device
    without a serial number; every widget is constructed with the empty
    serial number. *)
Theorem DeviceAdded_one_widget add_widget devices : ∀ f,
  (∀ use_async_libusb descriptor,
     idVendor descriptor ≠ VENDOR_ID ∨ idProduct descriptor ≠ PRODUCT_ID →
     DeviceAdded use_async_libusb add_widget descriptor f = (false, None, f))
  ∧ length (devices_added add_widget devices f).1
    ≤ (if m_missing_serial_number f then 0 else 1)
  ∧ Forall (λ widget, widget = AsynchronousDMXCreator EmptyString
                      ∨ widget = SynchronousDMXCreator EmptyString)
      (devices_added add_widget devices f).1
  ∧ (m_missing_serial_number f = true →
     m_missing_serial_number (devices_added add_widget devices f).2 = true).
Proof.
  intros f. split.
  { intros use_async_libusb descriptor Hids. unfold DeviceAdded.
    by rewrite bool_decide_eq_true_2. }
  revert f. induction devices as [|[use_async_libusb descriptor] devices IH];
    intros f; simpl.
  { split; [lia|]. by split. }
  unfold DeviceAdded. case_bool_decide as Hids; simpl.
  { destruct (devices_added add_widget devices f) as [widgets f'] eqn:E.
    specialize (IH f). by rewrite E in IH. }
  destruct (m_missing_serial_number f) eqn:Hf.
  { destruct (devices_added add_widget devices f) as [widgets f'] eqn:E.
    specialize (IH f). rewrite E, Hf in IH. exact IH. }
  destruct (devices_added add_widget devices
              {| m_missing_serial_number := true |})
    as [widgets f'] eqn:E.
  specialize (IH {| m_missing_serial_number := true |}).
  rewrite E in IH. simpl in *. destruct IH as (Hlen & Hall & Hflag).
  destruct widgets; [|simpl in Hlen; lia].
  split; [simpl; lia|]. split; [|done].
  constructor; [|done]. destruct use_async_libusb; auto.
Qed.

(** * The sample build: the further properties at concrete inputs *)

Section SampleCoverage.
#[local] Existing Instance sample_codes.
#[local] Existing Instance sample_rdm.

Lemma request_frames_big_endian_witness :
  m_pending_requests (sample_after sample_get_sent) = [sample_get]
  ∧ (if IsBroadcast (DestinationUID sample_get) then Some 0%N
     else m_uid_index_map (sample_after sample_get_sent)
          !! DestinationUID sample_get) = Some 1%N
  ∧ fits sample_get
  ∧ (SubDevice sample_get < 65536)%N ∧ (ParamId sample_get < 65536)%N
  ∧ ∃ s1 s0 p1 p0,
      DispatchNextRequest (sample_after sample_get_sent)
      = Done (emit (SendMessage EXTENDED_COMMAND_LABEL
                      ([REMOTE_GET_COMMAND_ID; 1%N; s1; s0; p1; p0]
                       ++ ParamData sample_get))
                (sample_after sample_get_sent))
      ∧ (s1 < 256 ∧ s0 < 256 ∧ p1 < 256 ∧ p0 < 256)%N
      ∧ (s1 * 256 + s0)%N = SubDevice sample_get
      ∧ (p1 * 256 + p0)%N = ParamId sample_get
      ∧ length ([REMOTE_GET_COMMAND_ID; 1%N; s1; s0; p1; p0]
                ++ ParamData sample_get)
        = 6 + ParamDataSize sample_get
      ∧ length ([REMOTE_GET_COMMAND_ID; 1%N; s1; s0; p1; p0]
                ++ ParamData sample_get)
        ≤ 6 + MAX_PARAM_DATA_LENGTH.
Proof.
  assert (H1 : m_pending_requests (sample_after sample_get_sent)
               = [sample_get]) by (vm_compute; reflexivity).
  assert (H2 : (if IsBroadcast (DestinationUID sample_get) then Some 0%N
                else m_uid_index_map (sample_after sample_get_sent)
                     !! DestinationUID sample_get) = Some 1%N)
    by (vm_compute; reflexivity).
  assert (H3 : fits sample_get).
  { apply (bool_decide_unpack _). vm_compute. exact I. }
  assert (H4 : (SubDevice sample_get < 65536)%N) by reflexivity.
  assert (H5 : (ParamId sample_get < 65536)%N) by reflexivity.
  split; [exact H1|]. split; [exact H2|]. split; [exact H3|].
  split; [exact H4|]. split; [exact H5|].
  refine (proj1 (request_frames_big_endian REMOTE_GET_COMMAND_ID 1
                   sample_get [] (sample_after sample_get_sent)
                   H1 _ H2 H3 H4 H5)).
  right. split; [reflexivity|]. split; [discriminate | reflexivity].
Defined.

Lemma HandleRDMRequest_dispatches_witness :
  InDiscoveryMode (sample_after sample_discovery) = false
  ∧ m_pending_requests (sample_after sample_discovery) = []
  ∧ m_rdm_request_pending (sample_after sample_discovery) = false
  ∧ IsBroadcast (DestinationUID sample_get) = false
  ∧ m_uid_index_map (sample_after sample_discovery)
    !! DestinationUID sample_get = Some 1%N
  ∧ fits sample_get
  ∧ HandleRDMRequest sample_get (sample_after sample_discovery)
    = Done (true,
            emit (SendMessage EXTENDED_COMMAND_LABEL
                    (request_bytes REMOTE_GET_COMMAND_ID 1%N sample_get))
              (set_rdm_request_pending true
                 (set_pending_requests [sample_get]
                    (sample_after sample_discovery)))).
Proof.
  assert (H1 : InDiscoveryMode (sample_after sample_discovery) = false)
    by (vm_compute; reflexivity).
  assert (H2 : m_pending_requests (sample_after sample_discovery) = [])
    by (vm_compute; reflexivity).
  assert (H3 : m_rdm_request_pending (sample_after sample_discovery) = false)
    by (vm_compute; reflexivity).
  assert (H4 : IsBroadcast (DestinationUID sample_get) = false)
    by (vm_compute; reflexivity).
  assert (H5 : m_uid_index_map (sample_after sample_discovery)
               !! DestinationUID sample_get = Some 1%N)
    by (vm_compute; reflexivity).
  assert (H6 : fits sample_get).
  { apply (bool_decide_unpack _). vm_compute. exact I. }
  split; [exact H1|]. split; [exact H2|]. split; [exact H3|].
  split; [exact H4|]. split; [exact H5|]. split; [exact H6|].
  refine (proj1 (HandleRDMRequest_dispatches sample_get 1
                   REMOTE_GET_COMMAND_ID
                   (sample_after sample_discovery) H1 H2 H3 H4 H5 _) H6).
  right. split; [reflexivity|]. split; [discriminate | reflexivity].
Defined.

Lemma queued_message_get_frame_witness :
  m_pending_requests
    (sample_after (sample_discovery ++ [OpHandleRDMRequest sample_queued_get]))
  = [sample_queued_get]
  ∧ ParamId sample_queued_get = PID_QUEUED_MESSAGE
  ∧ CommandClass sample_queued_get = GET_COMMAND
  ∧ DispatchNextRequest
      (sample_after
         (sample_discovery ++ [OpHandleRDMRequest sample_queued_get]))
    = Done match ParamData sample_queued_get,
                 m_uid_index_map
                   (sample_after
                      (sample_discovery
                       ++ [OpHandleRDMRequest sample_queued_get]))
                 !! DestinationUID sample_queued_get with
           | status_type :: _, Some index =>
               emit (SendMessage EXTENDED_COMMAND_LABEL
                       [QUEUED_GET_COMMAND_ID; index; status_type])
                 (sample_after
                    (sample_discovery
                     ++ [OpHandleRDMRequest sample_queued_get]))
           | _, _ =>
               sample_after
                 (sample_discovery
                  ++ [OpHandleRDMRequest sample_queued_get])
           end.
Proof.
  assert (H1 : m_pending_requests
                 (sample_after
                    (sample_discovery
                     ++ [OpHandleRDMRequest sample_queued_get]))
               = [sample_queued_get]) by (vm_compute; reflexivity).
  assert (H2 : ParamId sample_queued_get = PID_QUEUED_MESSAGE)
    by reflexivity.
  assert (H3 : CommandClass sample_queued_get = GET_COMMAND) by reflexivity.
  split; [exact H1|]. split; [exact H2|]. split; [exact H3|].
  exact (queued_message_get_frame sample_queued_get []
           (sample_after
              (sample_discovery ++ [OpHandleRDMRequest sample_queued_get]))
           H1 H2 H3).
Defined.

Lemma MaybeSendRDMRequest_broadcast_witness :
  InDiscoveryMode (sample_after (sample_stopped sample_broadcast)) = false
  ∧ m_pending_requests (sample_after (sample_stopped sample_broadcast))
    = [sample_broadcast]
  ∧ m_rdm_request_pending (sample_after (sample_stopped sample_broadcast))
    = false
  ∧ IsBroadcast (DestinationUID sample_broadcast) = true
  ∧ CommandClass sample_broadcast = SET_COMMAND
  ∧ fits sample_broadcast
  ∧ ∃ w, MaybeSendRDMRequest
           (sample_after (sample_stopped sample_broadcast)) = Done w.
Proof.
  assert (H1 : InDiscoveryMode
                 (sample_after (sample_stopped sample_broadcast)) = false)
    by (vm_compute; reflexivity).
  assert (H2 : m_pending_requests
                 (sample_after (sample_stopped sample_broadcast))
               = [sample_broadcast]) by (vm_compute; reflexivity).
  assert (H3 : m_rdm_request_pending
                 (sample_after (sample_stopped sample_broadcast)) = false)
    by (vm_compute; reflexivity).
  assert (H4 : IsBroadcast (DestinationUID sample_broadcast) = true)
    by (vm_compute; reflexivity).
  assert (H5 : CommandClass sample_broadcast = SET_COMMAND) by reflexivity.
  assert (H6 : fits sample_broadcast).
  { apply (bool_decide_unpack _). vm_compute. exact I. }
  split; [exact H1|]. split; [exact H2|]. split; [exact H3|].
  split; [exact H4|]. split; [exact H5|]. split; [exact H6|].
  exact (ex_intro _ _
           (MaybeSendRDMRequest_broadcast sample_broadcast []
              (sample_after (sample_stopped sample_broadcast))
              H1 H2 H3 H4 (or_introl H5) H6)).
Defined.

Lemma unsendable_request_stalls_witness :
  InDiscoveryMode (sample_after (sample_stopped sample_get)) = false
  ∧ m_pending_requests (sample_after (sample_stopped sample_get))
    = [sample_get]
  ∧ m_rdm_request_pending (sample_after (sample_stopped sample_get)) = false
  ∧ m_uid_index_map (sample_after (sample_stopped sample_get))
    !! DestinationUID sample_get = None
  ∧ IsBroadcast (DestinationUID sample_get) = false
  ∧ MaybeSendRDMRequest (sample_after (sample_stopped sample_get))
    = Done (set_rdm_request_pending true
              (sample_after (sample_stopped sample_get))).
Proof.
  assert (H1 : InDiscoveryMode (sample_after (sample_stopped sample_get))
               = false) by (vm_compute; reflexivity).
  assert (H2 : m_pending_requests (sample_after (sample_stopped sample_get))
               = [sample_get]) by (vm_compute; reflexivity).
  assert (H3 : m_rdm_request_pending
                 (sample_after (sample_stopped sample_get)) = false)
    by (vm_compute; reflexivity).
  assert (H4 : m_uid_index_map (sample_after (sample_stopped sample_get))
               !! DestinationUID sample_get = None)
    by (vm_compute; reflexivity).
  assert (H5 : IsBroadcast (DestinationUID sample_get) = false)
    by (vm_compute; reflexivity).
  split; [exact H1|]. split; [exact H2|]. split; [exact H3|].
  split; [exact H4|]. split; [exact H5|].
  exact (proj1 (unsendable_request_stalls sample_get []
                  (sample_after (sample_stopped sample_get))
                  H1 H2 H3 (or_intror (or_introl H4)) H5)).
Defined.

Lemma HandleRemoteRDMResponse_other_code_witness :
  m_pending_requests (sample_after sample_filter_pending)
  = [sample_broadcast; sample_get]
  ∧ Forall fits [sample_get]
  ∧ (EC_RESPONSE_MUTE ∉ [EC_NO_ERROR; EC_RESPONSE_WAIT; EC_RESPONSE_MORE])
  ∧ ¬ (EC_UNKNOWN_PID ≤ EC_RESPONSE_MUTE ≤ EC_SUBDEVICE_UNKNOWN)%N
  ∧ HandleRemoteRDMResponse EC_RESPONSE_MUTE []
      (sample_after sample_filter_pending)
    = Done (append_io
              (advance_frames (sample_after sample_filter_pending)
                 [sample_get])
              (set_rdm_request_pending
                 (negb (InDiscoveryMode (sample_after sample_filter_pending))
                  && bool_decide ([sample_get] ≠ []))
                 (set_pending_requests [sample_get]
                    (set_rdm_response None
                       (sample_after sample_filter_pending)))))
  ∧ advance_frames (sample_after sample_filter_pending) [sample_get]
    = [SendMessage 88 [0x38; 1; 0; 0; 0; 0x60]%N].
Proof.
  assert (H1 : m_pending_requests (sample_after sample_filter_pending)
               = [sample_broadcast; sample_get])
    by (vm_compute; reflexivity).
  assert (H2 : Forall fits [sample_get]).
  { apply (bool_decide_unpack _). vm_compute. exact I. }
  assert (H3 : EC_RESPONSE_MUTE
               ∉ [EC_NO_ERROR; EC_RESPONSE_WAIT; EC_RESPONSE_MORE]).
  { apply (bool_decide_unpack _). vm_compute. exact I. }
  assert (H4 : ¬ (EC_UNKNOWN_PID ≤ EC_RESPONSE_MUTE ≤ EC_SUBDEVICE_UNKNOWN)%N).
  { apply (bool_decide_unpack _). vm_compute. exact I. }
  split; [exact H1|]. split; [exact H2|]. split; [exact H3|].
  split; [exact H4|]. split; [|vm_compute; reflexivity].
  exact (proj1 (HandleRemoteRDMResponse_other_code EC_RESPONSE_MUTE []
                  (sample_after sample_filter_pending)
                  sample_broadcast [sample_get] H1 H2 H3 H4)).
Defined.

Lemma HandleRemoteRDMResponse_nack_delivered_witness :
  m_pending_requests (sample_after sample_filter_pending)
  = [sample_broadcast; sample_get]
  ∧ Forall fits [sample_get]
  ∧ (EC_OUT_OF_RANGE ∉ [EC_NO_ERROR; EC_RESPONSE_WAIT; EC_RESPONSE_MORE])
  ∧ (EC_UNKNOWN_PID ≤ EC_OUT_OF_RANGE ≤ EC_SUBDEVICE_UNKNOWN)%N
  ∧ m_rdm_response_callback (sample_after sample_filter_pending) = true
  ∧ HandleRemoteRDMResponse EC_OUT_OF_RANGE []
      (sample_after sample_filter_pending)
    = Done (append_io
              (RunRDMResponseCallback
                 (NackWithReason sample_broadcast
                    (nack_reason EC_OUT_OF_RANGE))
               :: advance_frames (sample_after sample_filter_pending)
                    [sample_get])
              (set_rdm_request_pending
                 (negb (InDiscoveryMode (sample_after sample_filter_pending))
                  && bool_decide ([sample_get] ≠ []))
                 (set_pending_requests [sample_get]
                    (set_rdm_response None
                       (sample_after sample_filter_pending))))).
Proof.
  assert (H1 : m_pending_requests (sample_after sample_filter_pending)
               = [sample_broadcast; sample_get])
    by (vm_compute; reflexivity).
  assert (H2 : Forall fits [sample_get]).
  { apply (bool_decide_unpack _). vm_compute. exact I. }
  assert (H3 : EC_OUT_OF_RANGE
               ∉ [EC_NO_ERROR; EC_RESPONSE_WAIT; EC_RESPONSE_MORE]).
  { apply (bool_decide_unpack _). vm_compute. exact I. }
  assert (H4 : (EC_UNKNOWN_PID ≤ EC_OUT_OF_RANGE ≤ EC_SUBDEVICE_UNKNOWN)%N).
  { apply (bool_decide_unpack _). vm_compute. exact I. }
  assert (H5 : m_rdm_response_callback (sample_after sample_filter_pending)
               = true) by (vm_compute; reflexivity).
  split; [exact H1|]. split; [exact H2|]. split; [exact H3|].
  split; [exact H4|]. split; [exact H5|].
  exact (proj1 (HandleRemoteRDMResponse_nack_delivered EC_OUT_OF_RANGE []
                  (sample_after sample_filter_pending)
                  sample_broadcast [sample_get] H1 H2 H3 H4 H5)).
Defined.

Lemma discovery_error_stops_witness :
  DISCOVER_STATUS_COMMAND_ID ≠ DISCOVER_AUTO_COMMAND_ID
  ∧ EC_RESPONSE_MUTE ≠ EC_NO_ERROR
  ∧ EC_RESPONSE_MUTE ≠ EC_RESPONSE_UNEXPECTED
  ∧ HandleMessage EXTENDED_COMMAND_LABEL
      [DISCOVER_STATUS_COMMAND_ID; EC_RESPONSE_MUTE]
      (sample_after sample_discovery_started)
    = Done (Stop (sample_after sample_discovery_started)).
Proof.
  assert (H1 : DISCOVER_STATUS_COMMAND_ID ≠ DISCOVER_AUTO_COMMAND_ID)
    by discriminate.
  assert (H2 : EC_RESPONSE_MUTE ≠ EC_NO_ERROR) by discriminate.
  assert (H3 : EC_RESPONSE_MUTE ≠ EC_RESPONSE_UNEXPECTED) by discriminate.
  split; [exact H1|]. split; [exact H2|]. split; [exact H3|].
  exact (proj1 (discovery_error_stops DISCOVER_STATUS_COMMAND_ID
                  EC_RESPONSE_MUTE []
                  (sample_after sample_discovery_started)
                  (or_intror
                     (conj eq_refl (conj H1 (conj H2 H3)))))).
Defined.

Lemma RunRDMDiscovery_starts_once_witness :
  InDiscoveryMode sample_new = false
  ∧ InDiscoveryMode (RunRDMDiscovery true (Some 7%N) sample_new)
    = true && bool_decide (Some 7%N ≠ INVALID_TIMEOUT).
Proof.
  assert (H1 : InDiscoveryMode sample_new = false) by reflexivity.
  split; [exact H1|].
  exact (proj1 (proj2 (proj2
           (RunRDMDiscovery_starts_once true (Some 7%N) sample_new H1)))).
Defined.

Lemma HandleMessage_ignores_witness :
  NoDup (command_ids (H := sample_codes))
  ∧ HandleMessage EXTENDED_COMMAND_LABEL [QUEUED_GET_COMMAND_ID; 0; 5]%N
      sample_new
    = Done sample_new.
Proof.
  split; [exact sample_command_ids_NoDup|].
  apply (HandleMessage_ignores EXTENDED_COMMAND_LABEL
           [QUEUED_GET_COMMAND_ID; 0; 5]%N sample_new
           sample_command_ids_NoDup).
  right. exists QUEUED_GET_COMMAND_ID, 0%N, [5%N].
  split; [reflexivity|]. right. left. reflexivity.
Defined.

Lemma step_defined_witness :
  Forall fits
    (m_pending_requests
       (sample_after (OpSetRDMResponseCallback true :: sample_get_sent)))
  ∧ (∀ request,
       (OpHandleMessage EXTENDED_COMMAND_LABEL
          [REMOTE_GET_COMMAND_ID; EC_OUT_OF_RANGE] : Op (N * N))
       = OpHandleRDMRequest request →
       fits request)
  ∧ (∀ label data,
       (OpHandleMessage EXTENDED_COMMAND_LABEL
          [REMOTE_GET_COMMAND_ID; EC_OUT_OF_RANGE] : Op (N * N))
       = OpHandleMessage label data →
       length data ≠ 3
       ∧ m_pending_requests
           (sample_after (OpSetRDMResponseCallback true :: sample_get_sent))
         ≠ []
       ∧ m_rdm_response_callback
           (sample_after (OpSetRDMResponseCallback true :: sample_get_sent))
         = true)
  ∧ defined
      (step (OpHandleMessage EXTENDED_COMMAND_LABEL
               [REMOTE_GET_COMMAND_ID; EC_OUT_OF_RANGE])
         (sample_after (OpSetRDMResponseCallback true :: sample_get_sent))).
Proof.
  assert (H0 : Forall fits
                 (m_pending_requests
                    (sample_after
                       (OpSetRDMResponseCallback true :: sample_get_sent)))).
  { apply (bool_decide_unpack _). vm_compute. exact I. }
  assert (H1 : ∀ request,
             (OpHandleMessage EXTENDED_COMMAND_LABEL
                [REMOTE_GET_COMMAND_ID; EC_OUT_OF_RANGE] : Op (N * N))
             = OpHandleRDMRequest request →
             fits request)
    by (intros request; discriminate).
  assert (H2 : m_pending_requests
                 (sample_after
                    (OpSetRDMResponseCallback true :: sample_get_sent))
               ≠ []).
  { apply (bool_decide_unpack _). vm_compute. exact I. }
  assert (H3 : m_rdm_response_callback
                 (sample_after
                    (OpSetRDMResponseCallback true :: sample_get_sent))
               = true) by (vm_compute; reflexivity).
  assert (H : ∀ label data,
             (OpHandleMessage EXTENDED_COMMAND_LABEL
                [REMOTE_GET_COMMAND_ID; EC_OUT_OF_RANGE] : Op (N * N))
             = OpHandleMessage label data →
             length data ≠ 3
             ∧ m_pending_requests
                 (sample_after
                    (OpSetRDMResponseCallback true :: sample_get_sent))
               ≠ []
             ∧ m_rdm_response_callback
                 (sample_after
                    (OpSetRDMResponseCallback true :: sample_get_sent))
               = true).
  { intros label data [= _ <-].
    split; [discriminate|]. split; [exact H2 | exact H3]. }
  split; [exact H0|]. split; [exact H1|]. split; [exact H|].
  exact (step_defined _ _ H0 H1 H).
Defined.

Lemma callbacks_follow_replies_witness :
  sample_run sample_first_chunk sample_new
  = Done (sample_after sample_first_chunk)
  ∧ length (responses_delivered (io (sample_after sample_first_chunk)))
    ≤ rdm_replies sample_first_chunk
  ∧ length (uid_sets_published (io (sample_after sample_first_chunk)))
    ≤ uid_replies_received sample_first_chunk.
Proof.
  assert (H1 : sample_run sample_first_chunk sample_new
               = Done (sample_after sample_first_chunk)).
  { apply sample_run_state. vm_compute. reflexivity. }
  split; [exact H1|].
  exact (callbacks_follow_replies sample_first_chunk
           (sample_after sample_first_chunk) H1).
Defined.

Lemma uid_indices_distinct_witness :
  sample_run sample_discovery sample_new
  = Done (sample_after sample_discovery)
  ∧ indices_fetched (sample_after sample_discovery).
Proof.
  assert (H1 : sample_run sample_discovery sample_new
               = Done (sample_after sample_discovery)).
  { apply sample_run_state. vm_compute. reflexivity. }
  split; [exact H1|].
  exact (proj1 (uid_indices_distinct sample_discovery
                  (sample_after sample_discovery) H1)).
Defined.

Lemma timeouts_removed_once_witness :
  sample_run sample_discovery sample_new
  = Done (sample_after sample_discovery)
  ∧ timeouts_held (sample_after sample_discovery).
Proof.
  assert (H1 : sample_run sample_discovery sample_new
               = Done (sample_after sample_discovery)).
  { apply sample_run_state. vm_compute. reflexivity. }
  split; [exact H1|].
  exact (timeouts_removed_once sample_discovery
           (sample_after sample_discovery) H1).
Defined.

Lemma queue_is_fifo_witness :
  step (OpHandleRDMRequest sample_get) (sample_after sample_discovery)
  = Done (sample_after sample_get_sent)
  ∧ queue_step (OpHandleRDMRequest sample_get)
      (sample_after sample_discovery) (sample_after sample_get_sent).
Proof.
  assert (H1 : step (OpHandleRDMRequest sample_get)
                 (sample_after sample_discovery)
               = Done (sample_after sample_get_sent))
    by (vm_compute; reflexivity).
  split; [exact H1|].
  exact (queue_is_fifo (OpHandleRDMRequest sample_get)
           (sample_after sample_discovery) (sample_after sample_get_sent)
           H1).
Defined.

Lemma uid_replies_record_witness :
  (m_uid_count (sample_after sample_three_devices) < 256)%N
  ∧ length sample_uid_replies
    ≤ N.to_nat (m_uid_count (sample_after sample_three_devices))
  ∧ Forall fits (m_pending_requests (sample_after sample_three_devices))
  ∧ ∃ w', uid_replies sample_uid_replies
            (sample_after sample_three_devices) = Done w'
          ∧ dom (m_uid_index_map w')
            = dom (m_uid_index_map (sample_after sample_three_devices))
              ∪ list_to_set (omap reply_uid sample_uid_replies)
          ∧ m_uid_count w'
            = (m_uid_count (sample_after sample_three_devices)
               - N.of_nat (length sample_uid_replies))%N
          ∧ m_pending_requests w'
            = m_pending_requests (sample_after sample_three_devices).
Proof.
  assert (H1 : (m_uid_count (sample_after sample_three_devices) < 256)%N)
    by (vm_compute; reflexivity).
  assert (H2 : length sample_uid_replies
               ≤ N.to_nat (m_uid_count (sample_after sample_three_devices))).
  { apply (bool_decide_unpack _). vm_compute. exact I. }
  assert (H3 : Forall fits
                 (m_pending_requests (sample_after sample_three_devices))).
  { apply (bool_decide_unpack _). vm_compute. exact I. }
  split; [exact H1|]. split; [exact H2|]. split; [exact H3|].
  exact (uid_replies_record sample_uid_replies
           (sample_after sample_three_devices) H1 H2 H3).
Defined.

Lemma DmxTriWidget_delete_empties_queue_witness :
  length (m_pending_requests (sample_after sample_filter_pending)) ≤ 2
  ∧ DmxTriWidget_delete 2 (sample_after sample_filter_pending)
    = Some (Done (set_pending_requests []
                    (sample_after sample_filter_pending))).
Proof.
  assert (H1 : length (m_pending_requests
                         (sample_after sample_filter_pending)) ≤ 2).
  { apply (bool_decide_unpack _). vm_compute. exact I. }
  split; [exact H1|].
  exact (DmxTriWidget_delete_empties_queue 2
           (sample_after sample_filter_pending) H1).
Defined.

End SampleCoverage.
